(** * generate-iotc-certificates: the certificate issuance core

    A shallow embedding of [certificate.ts] (createCAPrivKey, createCert,
    generateRoot, getLeavesCertificates, verify) and the properties of root,
    leaf and verification issuance.

    The program is a thin orchestration layer over three external
    collaborators, none of which is part of the repository:
    - node-forge ([pki], [md]): keys, PEM, certificates, signatures;
    - Node.js ([fs], [path]): the file system and path arithmetic;
    - the JavaScript runtime ([Date], [Math.random]).
    They are interfaces here ([Forge], [Node]); the program is written once
    against the interfaces, and the facts about node-forge that a proof
    relies on are named ([generated_keys_verify], [pem_roundtrip],
    [encrypted_pem_rejected]) and appear as hypotheses where they are
    used.  A small executable instance of both interfaces ([Toy]) closes
    the definitions, so that every statement can be run on concrete
    inputs. *)

From Stdlib Require Import ZArith List String Ascii Bool Lia DecimalString.
Import ListNotations.

Local Open Scope string_scope.
Local Open Scope Z_scope.

(** ** Data model *)

(** [pki.CertificateField]: the members the program reads or writes.  An
    attribute is identified by its long [name] or its [shortName]; either
    may be absent in an object literal. *)
Record CertificateField := {
  field_name : option string;
  field_shortName : option string;
  field_value : string
}.

(** An entry of the extension list handed to [setExtensions]: a name and
    the boolean members that follow it in the object literal. *)
Record Extension := {
  ext_name : string;
  ext_flags : list (string * bool)
}.

(** A JavaScript [Date], by its local-time fields: what [getFullYear],
    [getMonth] (0..11), [getDate] (1..31) return, and the milliseconds
    elapsed within the day. *)
Record Date := {
  fullYear : Z;
  month : Z;
  date : Z;
  timeInDay : Z
}.

(** The hash algorithms of forge's [md] namespace. *)
Inductive MessageDigest := sha1 | sha256 | sha384 | sha512.

Section Shapes.
Variables PublicKey PrivateKey Signature : Type.

(** What [pki.getTBSCertificate] serialises: the part of a certificate
    that the signature covers. *)
Record TBSCertificate := {
  tbs_serialNumber : string;
  tbs_signatureOid : option MessageDigest;
  tbs_issuer : list CertificateField;
  tbs_notBefore : Date;
  tbs_notAfter : Date;
  tbs_subject : list CertificateField;
  tbs_publicKey : option PublicKey;
  tbs_extensions : list Extension
}.

(** A message digest object after [update]: its algorithm and the bytes
    it has absorbed. *)
Record Digest := {
  algorithm : MessageDigest;
  content : TBSCertificate
}.

(** [pki.Certificate].  [subject] and [issuer] hold the attribute arrays
    given to [setSubject] / [setIssuer]; [privateKey] is the member the
    program attaches to carry the signing key along with a certificate. *)
Record Certificate := {
  subject : list CertificateField;
  issuer : list CertificateField;
  serialNumber : string;
  notBefore : Date;
  notAfter : Date;
  publicKey : option PublicKey;
  privateKey : option PrivateKey;
  extensions : list Extension;
  signatureOid : option MessageDigest;
  md : option Digest;
  signature : option Signature
}.

(** [pki.rsa.KeyPair & { encryptedKey?: string }]. *)
Record KeyPair := {
  kp_publicKey : PublicKey;
  kp_privateKey : PrivateKey;
  kp_encryptedKey : option string
}.
End Shapes.

Arguments tbs_serialNumber {PublicKey} _.
Arguments tbs_signatureOid {PublicKey} _.
Arguments tbs_issuer {PublicKey} _.
Arguments tbs_notBefore {PublicKey} _.
Arguments tbs_notAfter {PublicKey} _.
Arguments tbs_subject {PublicKey} _.
Arguments tbs_publicKey {PublicKey} _.
Arguments tbs_extensions {PublicKey} _.
Arguments Build_TBSCertificate {PublicKey}.
Arguments algorithm {PublicKey} _.
Arguments content {PublicKey} _.
Arguments Build_Digest {PublicKey}.
Arguments subject {PublicKey PrivateKey Signature} _.
Arguments issuer {PublicKey PrivateKey Signature} _.
Arguments serialNumber {PublicKey PrivateKey Signature} _.
Arguments notBefore {PublicKey PrivateKey Signature} _.
Arguments notAfter {PublicKey PrivateKey Signature} _.
Arguments publicKey {PublicKey PrivateKey Signature} _.
Arguments privateKey {PublicKey PrivateKey Signature} _.
Arguments extensions {PublicKey PrivateKey Signature} _.
Arguments signatureOid {PublicKey PrivateKey Signature} _.
Arguments md {PublicKey PrivateKey Signature} _.
Arguments signature {PublicKey PrivateKey Signature} _.
Arguments Build_Certificate {PublicKey PrivateKey Signature}.
Arguments kp_publicKey {PublicKey PrivateKey} _.
Arguments kp_privateKey {PublicKey PrivateKey} _.
Arguments kp_encryptedKey {PublicKey PrivateKey} _.
Arguments Build_KeyPair {PublicKey PrivateKey}.

(** [CertificatesOptions]. *)
Record CertificatesOptions := {
  outFolder : string;
  passphrase : option string;
  yearsTTL : option Z;
  keyBits : option Z;
  attrs : option (list CertificateField)
}.

(** ** The external collaborators *)

(** node-forge, as far as the program uses it.  Key generation is random:
    [generateKeyPair n bits] is the outcome of the [n]-th call made in a
    run, [None] when the callback receives an error.  The attribute and
    extension lists handed to a certificate are taken to be ones forge
    knows by name, so that its setters do not throw. *)
Class Forge := {
  PublicKey : Type;
  PrivateKey : Type;
  Signature : Type;
  generateKeyPair : nat -> Z -> option (PublicKey * PrivateKey);
  encryptRsaPrivateKey : PrivateKey -> string -> string;
  privateKeyToPem : PrivateKey -> string;
  (** [None]: the call throws. *)
  privateKeyFromPem : string -> option PrivateKey;
  certificateToPem : Certificate PublicKey PrivateKey Signature -> string;
  (** [key.sign(md)] and [key.verify(digest, signature)]; the latter
      answers, or throws ([None]) on a signature block it cannot decode. *)
  key_sign : PrivateKey -> Digest PublicKey -> Signature;
  key_verify : PublicKey -> Digest PublicKey -> Signature -> option bool;
  (** The object identifier forge derives from an attribute's name or
      short name. *)
  attr_type : CertificateField -> option string
}.

(** Node.js and the JavaScript runtime.  [Date_now n] is what the [n]-th
    [new Date()] of a run reads from the clock; [random_1000 n] is the
    value of the [n]-th [Math.floor(Math.random() * 1000)].

    [localTime] is the time zone of the host, as far as a [Date] set by
    its local fields shows it: [localTime d] is the local time of the
    instant that the local fields [d] are taken for, ECMAScript's
    [LocalTime(UTC(d))].  It is [d] itself when the zone has that local
    time, once or twice; a local time the zone skips (the hour lost when
    daylight saving begins) is read with the offset in force before the
    gap, which gives a local time after it. *)
Class Node := {
  path_join : string -> string -> string;
  Date_now : nat -> Date;
  random_1000 : nat -> Z;
  localTime : Date -> Date
}.

(** ** Effects *)

(** What a run has done to the file system, oldest call first.  Both calls
    are taken to succeed. *)
Inductive FsCall :=
| Mkdir (path : string)
| WriteFile (path data : string).

Record World := {
  fsLog : list FsCall;
  keyDraws : nat;
  clockReads : nat;
  randomDraws : nat
}.

Inductive Exception :=
| KeyGenerationError
| ForgeError (message : string)
| TypeError (message : string)
| ThrownString (message : string).

Inductive Outcome (A : Type) :=
| Returned (a : A)
| Thrown (e : Exception).
Arguments Returned {A} a.
Arguments Thrown {A} e.

(** An [async] computation: it runs to a value or an exception; the
    effects done before an exception stay done. *)
Definition Promise (A : Type) : Type := World -> Outcome A * World.

Definition ret {A} (a : A) : Promise A := fun w => (Returned a, w).

Definition throw {A} (e : Exception) : Promise A := fun w => (Thrown e, w).

Definition bind {A B} (m : Promise A) (k : A -> Promise B) : Promise B :=
  fun w =>
    match m w with
    | (Returned a, w') => k a w'
    | (Thrown e, w') => (Thrown e, w')
    end.

Declare Scope promise_scope.
Delimit Scope promise_scope with promise.
Notation "x <- m ;; k" := (bind m (fun x => k))
  (at level 61, m at next level, right associativity) : promise_scope.
Notation "m ;; k" := (bind m (fun _ => k))
  (at level 61, right associativity) : promise_scope.
Local Open Scope promise_scope.

(** A pure library call that may throw, lifted into a run. *)
Definition lift {A} (o : Outcome A) : Promise A := fun w => (o, w).

(** ** JavaScript helpers *)

(** Truthiness of an optional string: [undefined] and [""] are falsy. *)
Definition truthy (s : option string) : bool :=
  match s with
  | Some v => negb (v =? "")%string
  | None => false
  end.

(** A value inside a template literal: [`${undefined}`] is the text
    [undefined]. *)
Definition template (v : option string) : string :=
  match v with
  | Some s => s
  | None => "undefined"
  end.

(** An integer inside a template literal. *)
Definition decimal (i : Z) : string := NilZero.string_of_int (Z.to_int i).

Definition option_string_eqb (a b : option string) : bool :=
  match a, b with
  | Some x, Some y => (x =? y)%string
  | None, None => true
  | _, _ => false
  end.

(** [a.name === "commonName"]. *)
Definition name_is_commonName (a : CertificateField) : bool :=
  option_string_eqb (field_name a) (Some "commonName").

(** [a.name === "commonName" || a.shortName === "CN"]. *)
Definition is_commonName (a : CertificateField) : bool :=
  name_is_commonName a || option_string_eqb (field_shortName a) (Some "CN").

(** [attrs?.find((a) => a.name === "commonName")?.value]. *)
Definition commonNameOf (attrs : option (list CertificateField)) : option string :=
  match attrs with
  | Some l => option_map field_value (find name_is_commonName l)
  | None => None
  end.

(** *** [Date.prototype.setFullYear]

    ECMAScript takes the time value to local time, replaces the year
    there and takes the result back to a time value:
    [UTC(MakeDate(MakeDay(y, MonthFromTime(t), DateFromTime(t)),
    TimeWithinDay(t)))] with [t = LocalTime(thisTime)].  [makeDate] is the
    argument of [UTC], by its fields: the month and the day of the month
    are kept and the day number is recomputed (MakeDay), so that a day past
    the end of the month in the new year carries into the month that
    follows.  What [UTC] makes of it depends on the time zone of the host
    and is part of [Node] below. *)
Definition isLeapYear (y : Z) : bool :=
  ((y mod 4 =? 0) && negb (y mod 100 =? 0)) || (y mod 400 =? 0).

Definition daysInMonth (y m : Z) : Z :=
  if m =? 1 then (if isLeapYear y then 29 else 28)
  else if (m =? 3) || (m =? 5) || (m =? 8) || (m =? 10) then 30
  else 31.

Definition makeDate (d : Date) (y : Z) : Date :=
  let len := daysInMonth y (month d) in
  if date d <=? len then
    {| fullYear := y; month := month d; date := date d;
       timeInDay := timeInDay d |}
  else if month d <? 11 then
    {| fullYear := y; month := month d + 1; date := date d - len;
       timeInDay := timeInDay d |}
  else
    {| fullYear := y + 1; month := 0; date := date d - len;
       timeInDay := timeInDay d |}.

Definition getFullYear (d : Date) : Z := fullYear d.

(** [d.setFullYear(y)], by the local fields of [d] afterwards. *)
Definition setFullYear {N : Node} (d : Date) (y : Z) : Date :=
  localTime (makeDate d y).

(** The zone of the host has the local time [d]. *)
Definition inZone {N : Node} (d : Date) : Prop := localTime d = d.

(** A date the clock can show, a year and more before the end of the
    range of time values (ECMAScript TimeClip: 13 September 275760), so
    that the same date one year later is still a date. *)
Definition validDate (d : Date) : Prop :=
  -271821 < fullYear d < 275759 /\
  0 <= month d <= 11 /\
  1 <= date d <= daysInMonth (fullYear d) (month d) /\
  0 <= timeInDay d < 86400000.

(** The local date and time of day of [T], one year later, as the
    calendar has it: the same month, day and time of day in the year that
    follows, and the 1st of March for the 29th of February. *)
Definition oneYearAfter (T : Date) : Date :=
  if (month T =? 1) && (date T =? 29) then
    {| fullYear := fullYear T + 1; month := 2; date := 1;
       timeInDay := timeInDay T |}
  else
    {| fullYear := fullYear T + 1; month := month T; date := date T;
       timeInDay := timeInDay T |}.

(** ** The program *)

(** The module-level constant [certificateExtensions]. *)
Definition certificateExtensions : list Extension :=
  [ {| ext_name := "subjectKeyIdentifier"; ext_flags := [] |};
    {| ext_name := "keyUsage";
       ext_flags := [("keyCertSign", true); ("digitalSignature", true);
                     ("nonRepudiation", true); ("keyEncipherment", true);
                     ("dataEncipherment", true)] |};
    {| ext_name := "extKeyUsage";
       ext_flags := [("serverAuth", true); ("clientAuth", true);
                     ("codeSigning", true); ("emailProtection", true);
                     ("timeStamping", true)] |};
    {| ext_name := "nsCertType";
       ext_flags := [("client", true); ("server", true); ("email", true);
                     ("objsign", true); ("sslCA", true); ("emailCA", true);
                     ("objCA", true)] |} ].

(** The literal [{ name: "basicConstraints", cA: true }]. *)
Definition basicConstraints : Extension :=
  {| ext_name := "basicConstraints"; ext_flags := [("cA", true)] |}.

(** The string thrown when a leaf does not verify against its issuer. *)
Definition leafError : string :=
  "Something went wrong when creating leaf certificate.".

(** [options.attrs = v] *)
Definition assign_attrs (options : CertificatesOptions)
    (v : list CertificateField) : CertificatesOptions :=
  {| outFolder := outFolder options; passphrase := passphrase options;
     yearsTTL := yearsTTL options; keyBits := keyBits options;
     attrs := Some v |}.

(** The callback of [attrs.map] in [getLeavesCertificates] and [verify]:
    a common-name entry becomes [{ name: "commonName", value }], any other
    entry is copied. *)
Definition substituteCommonName (value : string) (a : CertificateField)
    : CertificateField :=
  if is_commonName a then
    {| field_name := Some "commonName"; field_shortName := None;
       field_value := value |}
  else a.

(** [{ ...options, attrs: options.attrs?.map(...) }] *)
Definition withCommonName (options : CertificatesOptions) (value : string)
    : CertificatesOptions :=
  {| outFolder := outFolder options; passphrase := passphrase options;
     yearsTTL := yearsTTL options; keyBits := keyBits options;
     attrs := option_map (map (substituteCommonName value)) (attrs options) |}.

(** The loop variable of [getLeavesCertificates]: [i = 1; i <= count; i++]. *)
Definition indices (count : Z) : list Z :=
  map Z.of_nat (seq 1 (Z.to_nat count)).

(** [`${prefix}${count > 1 ? i : ""}`] *)
Definition leafName (prefix : string) (count i : Z) : string :=
  prefix ++ (if 1 <? count then decimal i else "").

(** *** Attribute entries as forge completes them

    [setSubject] and [setIssuer] keep the array they are given and
    complete its entries in place ([_fillMissingFields] of forge's
    x509.js): an entry without [name] gets the long name of its
    [shortName], an entry without [shortName] gets the short name of its
    [name], and the type is derived ([attr_type]).  An entry whose type
    forge cannot tell makes the setter throw; the runs followed here are
    those in which it can ([forgeKnows]).

    The lists of this development hold the entries with the members they
    have when the program writes or receives them, and
    [fillMissingFields] gives the members they have once a setter has
    seen them.  The difference shows in the program at one place: the
    second [find] of [generateRoot] runs on the array that [createCert]
    has handed to [setSubject].  The first [find], in [createCert], comes
    before the setters; the test of [getLeavesCertificates] and [verify]
    gives the same answer on an entry before and after completion, and the
    entries these two hand on are copies. *)

(** forge's table of short names, from short to long and back. *)
Definition longNameOf (shortName : string) : option string :=
  if (shortName =? "CN")%string then Some "commonName"
  else if (shortName =? "C")%string then Some "countryName"
  else if (shortName =? "L")%string then Some "localityName"
  else if (shortName =? "ST")%string then Some "stateOrProvinceName"
  else if (shortName =? "O")%string then Some "organizationName"
  else if (shortName =? "OU")%string then Some "organizationalUnitName"
  else if (shortName =? "E")%string then Some "emailAddress"
  else None.

Definition shortNameOf (name : string) : option string :=
  if (name =? "commonName")%string then Some "CN"
  else if (name =? "countryName")%string then Some "C"
  else if (name =? "localityName")%string then Some "L"
  else if (name =? "stateOrProvinceName")%string then Some "ST"
  else if (name =? "organizationName")%string then Some "O"
  else if (name =? "organizationalUnitName")%string then Some "OU"
  else if (name =? "emailAddress")%string then Some "E"
  else None.

(** One entry, completed. *)
Definition fillMissingField (a : CertificateField) : CertificateField :=
  let name :=
    match field_name a with
    | Some n => Some n
    | None =>
        match field_shortName a with
        | Some s => longNameOf s
        | None => None
        end
    end in
  let shortName :=
    match field_shortName a with
    | Some s => Some s
    | None =>
        match name with
        | Some n => shortNameOf n
        | None => None
        end
    end in
  {| field_name := name; field_shortName := shortName;
     field_value := field_value a |}.

Definition fillMissingFields (attrs : list CertificateField)
    : list CertificateField :=
  map fillMissingField attrs.

(** An entry that has both a name and a short name has the two names
    forge keeps for one attribute. *)
Definition consistentlyNamed (a : CertificateField) : Prop :=
  forall n s,
    field_name a = Some n -> field_shortName a = Some s ->
    longNameOf s = Some n.

(** The name forge puts in the certificate for an entry. *)
Definition nameInCertificate (a : CertificateField) : option string :=
  field_name (fillMissingField a).

(** *** Runtime calls *)

Definition fs_writeFile (path data : string) : Promise unit :=
  fun w =>
    (Returned tt,
     {| fsLog := fsLog w ++ [WriteFile path data]; keyDraws := keyDraws w;
        clockReads := clockReads w; randomDraws := randomDraws w |}).

Definition fs_mkdir (path : string) : Promise unit :=
  fun w =>
    (Returned tt,
     {| fsLog := fsLog w ++ [Mkdir path]; keyDraws := keyDraws w;
        clockReads := clockReads w; randomDraws := randomDraws w |}).

Section Program.
Context {F : Forge} {N : Node}.

Definition Cert : Type := Certificate PublicKey PrivateKey Signature.
Definition Keys : Type := @KeyPair PublicKey PrivateKey.

(** [new Date()] *)
Definition new_Date : Promise Date :=
  fun w =>
    (Returned (Date_now (clockReads w)),
     {| fsLog := fsLog w; keyDraws := keyDraws w;
        clockReads := S (clockReads w); randomDraws := randomDraws w |}).

(** [Math.floor(Math.random() * 1000)] *)
Definition floor_random_1000 : Promise Z :=
  fun w =>
    (Returned (random_1000 (randomDraws w)),
     {| fsLog := fsLog w; keyDraws := keyDraws w;
        clockReads := clockReads w; randomDraws := S (randomDraws w) |}).

(** [pki.rsa.generateKeyPair({ bits, ... }, callback)], as a promise
    settled by the callback. *)
Definition rsa_generateKeyPair (bits : Z) : Promise (PublicKey * PrivateKey) :=
  fun w =>
    (match generateKeyPair (keyDraws w) bits with
     | Some keypair => Returned keypair
     | None => Thrown KeyGenerationError
     end,
     {| fsLog := fsLog w; keyDraws := S (keyDraws w);
        clockReads := clockReads w; randomDraws := randomDraws w |}).

(** *** Certificate objects (node-forge's x509) *)

(** [pki.createCertificate()]: no attributes, no keys, no extensions,
    unsigned.  The serial number defaults to the text 00.  Forge fills
    both validity bounds with the time of the call; [createCert]
    overwrites both before reading either, so the initial values are
    never observed and are shown as the epoch. *)
Definition createCertificate : Cert :=
  {| subject := []; issuer := []; serialNumber := "00";
     notBefore := {| fullYear := 1970; month := 0; date := 1; timeInDay := 0 |};
     notAfter := {| fullYear := 1970; month := 0; date := 1; timeInDay := 0 |};
     publicKey := None; privateKey := None; extensions := [];
     signatureOid := None; md := None; signature := None |}.

(** [cert.setSubject(attrs)] and [cert.setIssuer(attrs)]: the certificate
    holds the array it is given; what forge adds to the entries of the
    array is [fillMissingFields]. *)
Definition setSubject (attrs : list CertificateField) (c : Cert) : Cert :=
  {| subject := attrs; issuer := issuer c; serialNumber := serialNumber c;
     notBefore := notBefore c; notAfter := notAfter c;
     publicKey := publicKey c; privateKey := privateKey c;
     extensions := extensions c; signatureOid := signatureOid c;
     md := md c; signature := signature c |}.

Definition setIssuer (attrs : list CertificateField) (c : Cert) : Cert :=
  {| subject := subject c; issuer := attrs; serialNumber := serialNumber c;
     notBefore := notBefore c; notAfter := notAfter c;
     publicKey := publicKey c; privateKey := privateKey c;
     extensions := extensions c; signatureOid := signatureOid c;
     md := md c; signature := signature c |}.

Definition setExtensions (exts : list Extension) (c : Cert) : Cert :=
  {| subject := subject c; issuer := issuer c; serialNumber := serialNumber c;
     notBefore := notBefore c; notAfter := notAfter c;
     publicKey := publicKey c; privateKey := privateKey c;
     extensions := exts; signatureOid := signatureOid c;
     md := md c; signature := signature c |}.

(** The assignments to [outcert.validity.notBefore], [.notAfter],
    [outcert.publicKey], [outcert.privateKey], [outcert.serialNumber]. *)
Definition assign_notBefore (d : Date) (c : Cert) : Cert :=
  {| subject := subject c; issuer := issuer c; serialNumber := serialNumber c;
     notBefore := d; notAfter := notAfter c;
     publicKey := publicKey c; privateKey := privateKey c;
     extensions := extensions c; signatureOid := signatureOid c;
     md := md c; signature := signature c |}.

Definition assign_notAfter (d : Date) (c : Cert) : Cert :=
  {| subject := subject c; issuer := issuer c; serialNumber := serialNumber c;
     notBefore := notBefore c; notAfter := d;
     publicKey := publicKey c; privateKey := privateKey c;
     extensions := extensions c; signatureOid := signatureOid c;
     md := md c; signature := signature c |}.

Definition assign_publicKey (k : PublicKey) (c : Cert) : Cert :=
  {| subject := subject c; issuer := issuer c; serialNumber := serialNumber c;
     notBefore := notBefore c; notAfter := notAfter c;
     publicKey := Some k; privateKey := privateKey c;
     extensions := extensions c; signatureOid := signatureOid c;
     md := md c; signature := signature c |}.

Definition assign_privateKey (k : PrivateKey) (c : Cert) : Cert :=
  {| subject := subject c; issuer := issuer c; serialNumber := serialNumber c;
     notBefore := notBefore c; notAfter := notAfter c;
     publicKey := publicKey c; privateKey := Some k;
     extensions := extensions c; signatureOid := signatureOid c;
     md := md c; signature := signature c |}.

Definition assign_serialNumber (s : string) (c : Cert) : Cert :=
  {| subject := subject c; issuer := issuer c; serialNumber := s;
     notBefore := notBefore c; notAfter := notAfter c;
     publicKey := publicKey c; privateKey := privateKey c;
     extensions := extensions c; signatureOid := signatureOid c;
     md := md c; signature := signature c |}.

(** [pki.getTBSCertificate(cert)] *)
Definition getTBSCertificate (c : Cert) : TBSCertificate PublicKey :=
  {| tbs_serialNumber := serialNumber c;
     tbs_signatureOid := signatureOid c;
     tbs_issuer := issuer c;
     tbs_notBefore := notBefore c;
     tbs_notAfter := notAfter c;
     tbs_subject := subject c;
     tbs_publicKey := publicKey c;
     tbs_extensions := extensions c |}.

(** [cert.sign(key, md)]: records the algorithm, digests the
    to-be-signed part and stores [key.sign(md)].  A missing key is a
    member access on [undefined]. *)
Definition cert_sign (c : Cert) (key : option PrivateKey)
    (alg : MessageDigest) : Outcome Cert :=
  let c1 : Cert :=
    {| subject := subject c; issuer := issuer c;
       serialNumber := serialNumber c;
       notBefore := notBefore c; notAfter := notAfter c;
       publicKey := publicKey c; privateKey := privateKey c;
       extensions := extensions c; signatureOid := Some alg;
       md := md c; signature := signature c |} in
  let d := {| algorithm := alg; content := getTBSCertificate c1 |} in
  match key with
  | None => Thrown (TypeError "Cannot read properties of undefined (reading 'sign')")
  | Some k =>
      Returned
        {| subject := subject c1; issuer := issuer c1;
           serialNumber := serialNumber c1;
           notBefore := notBefore c1; notAfter := notAfter c1;
           publicKey := publicKey c1; privateKey := privateKey c1;
           extensions := extensions c1; signatureOid := signatureOid c1;
           md := Some d; signature := Some (key_sign k d) |}
  end.

(** [child.isIssuer(parent)] when no name hash is cached (the setters
    clear it): same number of attributes, pairwise the same type and
    value. *)
Fixpoint attributes_match (i s : list CertificateField) : bool :=
  match i, s with
  | [], [] => true
  | iattr :: i', sattr :: s' =>
      option_string_eqb (attr_type iattr) (attr_type sattr)
      && (field_value iattr =? field_value sattr)%string
      && attributes_match i' s'
  | _, _ => false
  end.

Definition isIssuer (child parent : Cert) : bool :=
  attributes_match (issuer child) (subject parent).

(** [cert.verify(child)]: throws when [cert] did not issue [child];
    otherwise checks the child's signature over the child's digest with
    [cert]'s public key. *)
Definition cert_verify (cert child : Cert) : Outcome bool :=
  if negb (isIssuer child cert) then
    Thrown (ForgeError "The parent certificate did not issue the given child certificate; the child certificate's issuer does not match the parent's subject.")
  else
    match md child with
    | None => Thrown (ForgeError "Could not compute certificate digest. Unknown signature OID.")
    | Some d =>
        match publicKey cert, signature child with
        | Some pk, Some s =>
            match key_verify pk d s with
            | Some ok => Returned ok
            | None => Thrown (ForgeError "Encryption block is invalid.")
            end
        | _, _ => Thrown (TypeError "Cannot read properties of null (reading 'verify')")
        end
    end.
End Program.

(** ** What the proofs assume of node-forge *)

Section Laws.
Context (F : Forge).

(** A signature made with the private key of a generated pair verifies
    under the public key of that pair. *)
Definition generated_keys_verify : Prop :=
  forall n bits pk sk d,
    generateKeyPair n bits = Some (pk, sk) ->
    key_verify pk d (key_sign sk d) = Some true.

(** [privateKeyFromPem] reads back what [privateKeyToPem] wrote. *)
Definition pem_roundtrip : Prop :=
  forall sk, privateKeyFromPem (privateKeyToPem sk) = Some sk.

(** [privateKeyFromPem] takes no passphrase and refuses the output of
    [encryptRsaPrivateKey] (a PEM block headed ENCRYPTED PRIVATE KEY);
    reading such a block back takes [decryptRsaPrivateKey]. *)
Definition encrypted_pem_rejected : Prop :=
  forall sk pass, privateKeyFromPem (encryptRsaPrivateKey sk pass) = None.
End Laws.

Section Issuance.
Context {F : Forge} {N : Node}.

(** *** createCAPrivKey *)

(** [options.keyBits ?? 4096] *)
Definition bitsOf (options : CertificatesOptions) : Z :=
  match keyBits options with
  | Some b => b
  | None => 4096
  end.

(** The [encryptedKey] member of the resolved value: present when
    [options.passphrase] is truthy. *)
Definition encryptedKeyOf (options : CertificatesOptions) (sk : PrivateKey)
    : option string :=
  match passphrase options with
  | Some pass =>
      if truthy (Some pass) then Some (encryptRsaPrivateKey sk pass) else None
  | None => None
  end.

Definition createCAPrivKey (options : CertificatesOptions) : Promise Keys :=
  keypair <- rsa_generateKeyPair (bitsOf options) ;;
  ret {| kp_publicKey := fst keypair; kp_privateKey := snd keypair;
         kp_encryptedKey := encryptedKeyOf options (snd keypair) |}.

(** *** createCert *)

(** [key.encryptedKey ?? pki.privateKeyToPem(key.privateKey)] *)
Definition keyTowrite (key : Keys) : string :=
  match kp_encryptedKey key with
  | Some encrypted => encrypted
  | None => privateKeyToPem (kp_privateKey key)
  end.

(** The file name of the private key:
    [`${name ? name : options.attrs?.find(...)?.value}.key.pem`]. *)
Definition keyFileName (options : CertificatesOptions) (name : option string)
    : string :=
  (if truthy name then template name
   else template (commonNameOf (attrs options))) ++ ".key.pem".

(** The body of [createCert] up to and including [setExtensions]: the key
    pair is generated and written out, then the certificate is filled
    in.  The result is the key pair and the unsigned [outcert]. *)
Definition prepareCert (options : CertificatesOptions) (issuer : option Cert)
    (name : option string) : Promise (Keys * Cert) :=
  key <- createCAPrivKey options ;;
  fs_writeFile (path_join (outFolder options) (keyFileName options name))
               (keyTowrite key) ;;
  let outcert := createCertificate in
  let outcert :=
    match attrs options with
    | Some a => setIssuer a (setSubject a outcert)
    | None => outcert
    end in
  notBefore' <- new_Date ;;
  let outcert := assign_notBefore notBefore' outcert in
  notAfter' <- new_Date ;;
  let outcert := assign_notAfter notAfter' outcert in
  let outcert := assign_publicKey (kp_publicKey key) outcert in
  parsed <- lift (match privateKeyFromPem (keyTowrite key) with
                  | Some k => Returned k
                  | None => Thrown (ForgeError "Could not convert private key from PEM")
                  end) ;;
  let outcert := assign_privateKey parsed outcert in
  let outcert :=
    assign_notAfter
      (setFullYear (notAfter outcert) (getFullYear (notBefore outcert) + 1))
      outcert in
  serial <- floor_random_1000 ;;
  let outcert := assign_serialNumber (decimal serial) outcert in
  let outcert :=
    setExtensions
      (certificateExtensions ++
         match issuer with
         | Some _ => []
         | None => [basicConstraints]
         end)
      outcert in
  ret (key, outcert).

(** The closing [if (issuer) { ... } else { ... }] of [createCert]. *)
Definition signCert (key : Keys) (issuer : option Cert) (outcert : Cert)
    : Outcome Cert :=
  match issuer with
  | Some issuer =>
      let outcert := setIssuer (subject issuer) outcert in
      match cert_sign outcert (privateKey issuer) sha256 with
      | Thrown e => Thrown e
      | Returned outcert =>
          match cert_verify issuer outcert with
          | Thrown e => Thrown e
          | Returned ok =>
              if negb ok then Thrown (ThrownString leafError)
              else Returned outcert
          end
      end
  | None => cert_sign outcert (Some (kp_privateKey key)) sha256
  end.

(** [createCert]: the two parts of its body, in source order. *)
Definition createCert (options : CertificatesOptions) (issuer : option Cert)
    (name : option string) : Promise Cert :=
  prepared <- prepareCert options issuer name ;;
  lift (signCert (fst prepared) issuer (snd prepared)).

(** *** generateRoot

    The [catch] block prints the exception and throws it again, so the
    exception of the body is the exception of the call (what is printed
    to the console is not part of [World]).

    [options.attrs] is the array [createCert] handed to [setSubject]: by
    the time the name of the certificate file is computed its entries are
    completed, and [find] sees the names forge gave them. *)
Definition generateRoot (options : CertificatesOptions) : Promise Cert :=
  fs_mkdir (outFolder options) ;;
  caCert <- createCert options None None ;;
  let attrs_now := option_map fillMissingFields (attrs options) in
  fs_writeFile
    (path_join (outFolder options)
               (template (commonNameOf attrs_now) ++ ".cert.pem"))
    (certificateToPem caCert) ;;
  ret caCert.

(** *** getLeavesCertificates

    [options] is the caller's object: the function assigns to it, so the
    object as the caller finds it afterwards is part of the result,
    whether the promise resolves or rejects. *)
Fixpoint leavesLoop (options : CertificatesOptions) (count : Z)
    (prefix : string) (rootCA : Cert) (todo : list Z) (res : list Cert)
    : Promise (list Cert) :=
  match todo with
  | [] => ret res
  | i :: rest =>
      let name := leafName prefix count i in
      let leafOptions := withCommonName options name in
      leaf <- createCert leafOptions (Some rootCA) None ;;
      let outName := path_join (outFolder options) (name ++ ".pem") in
      fs_writeFile outName (certificateToPem leaf ++ certificateToPem rootCA) ;;
      leavesLoop options count prefix rootCA rest (res ++ [leaf])
  end.

Definition getLeavesCertificates (options : CertificatesOptions) (count : Z)
    (prefix : string) (rootCA : Cert) (w : World)
    : Outcome (list Cert) * CertificatesOptions * World :=
  let options :=
    match attrs options with
    | None => assign_attrs options (subject rootCA)
    | Some _ => options
    end in
  let (res, w') := leavesLoop options count prefix rootCA (indices count) [] w in
  (res, options, w').

(** *** verify *)
Definition verify (options : CertificatesOptions) (verificationCode : string)
    (rootCA : Cert) (w : World)
    : Outcome Cert * CertificatesOptions * World :=
  let (_, w0) := fs_mkdir (outFolder options) w in
  let options :=
    match attrs options with
    | None => assign_attrs options (subject rootCA)
    | Some _ => options
    end in
  let verificationOptions := withCommonName options verificationCode in
  let (res, w') :=
    (validated <- createCert verificationOptions (Some rootCA)
                             (Some "verification") ;;
     let outName := path_join (outFolder options) "verified.pem" in
     fs_writeFile outName
       (certificateToPem validated ++ certificateToPem rootCA) ;;
     ret validated) w0 in
  (res, options, w').

(** *** Closed forms used to describe runs *)

(** The key pair [createCAPrivKey] resolves with, given the pair the
    generator produced. *)
Definition keysOf (options : CertificatesOptions) (pk : PublicKey)
    (sk : PrivateKey) : Keys :=
  {| kp_publicKey := pk; kp_privateKey := sk;
     kp_encryptedKey := encryptedKeyOf options sk |}.

(** [outcert] as it stands after [setExtensions], in one piece. *)
Definition outcertOf (options : CertificatesOptions) (issuer : option Cert)
    (pk : PublicKey) (parsed : PrivateKey) (w : World) : Cert :=
  {| subject := match attrs options with Some a => a | None => [] end;
     issuer := match attrs options with Some a => a | None => [] end;
     serialNumber := decimal (random_1000 (randomDraws w));
     notBefore := Date_now (clockReads w);
     notAfter := setFullYear (Date_now (S (clockReads w)))
                             (getFullYear (Date_now (clockReads w)) + 1);
     publicKey := Some pk;
     privateKey := Some parsed;
     extensions := certificateExtensions ++
                   match issuer with Some _ => [] | None => [basicConstraints] end;
     signatureOid := None; md := None; signature := None |}.

(** The world once the key file is written. *)
Definition afterKeyFile (options : CertificatesOptions) (name : option string)
    (key : Keys) (clock random : nat) (w : World) : World :=
  {| fsLog := fsLog w ++
              [WriteFile (path_join (outFolder options) (keyFileName options name))
                         (keyTowrite key)];
     keyDraws := S (keyDraws w);
     clockReads := clock + clockReads w;
     randomDraws := random + randomDraws w |}.

(** The digest [cert.sign] computes: [alg] over the to-be-signed part of
    the certificate, the algorithm recorded in it. *)
Definition digestOf (c : Cert) (alg : MessageDigest) : Digest PublicKey :=
  {| algorithm := alg;
     content :=
       {| tbs_serialNumber := serialNumber c;
          tbs_signatureOid := Some alg;
          tbs_issuer := issuer c;
          tbs_notBefore := notBefore c;
          tbs_notAfter := notAfter c;
          tbs_subject := subject c;
          tbs_publicKey := publicKey c;
          tbs_extensions := extensions c |} |}.

(** [c] after [c.sign(k, alg)]. *)
Definition signedBy (c : Cert) (k : PrivateKey) (alg : MessageDigest) : Cert :=
  {| subject := subject c; issuer := issuer c;
     serialNumber := serialNumber c;
     notBefore := notBefore c; notAfter := notAfter c;
     publicKey := publicKey c; privateKey := privateKey c;
     extensions := extensions c; signatureOid := Some alg;
     md := Some (digestOf c alg);
     signature := Some (key_sign k (digestOf c alg)) |}.

(** The attribute list a batch or a verification starts from: the
    caller's, or the root's subject when the caller gave none. *)
Definition effectiveAttrs (options : CertificatesOptions) (rootCA : Cert)
    : list CertificateField :=
  match attrs options with
  | Some a => a
  | None => subject rootCA
  end.

(** The two files of one batch leaf, in the order they are written: the
    leaf's private key ([keyText] is what the file holds), then the chain
    (leaf, then root). *)
Definition leafFiles (options : CertificatesOptions) (count : Z)
    (prefix : string) (rootCA : Cert) (i : Z) (keyText : string) (leaf : Cert)
    : list FsCall :=
  [ WriteFile
      (path_join (outFolder options)
         (keyFileName (withCommonName options (leafName prefix count i)) None))
      keyText;
    WriteFile
      (path_join (outFolder options) (leafName prefix count i ++ ".pem"))
      (certificateToPem leaf ++ certificateToPem rootCA) ].

(** The files of a batch: those of each leaf, one leaf after the other. *)
Fixpoint batchFiles (options : CertificatesOptions) (count : Z)
    (prefix : string) (rootCA : Cert) (todo : list Z) (keyTexts : list string)
    (leaves : list Cert) : list FsCall :=
  match todo, keyTexts, leaves with
  | i :: todo', keyText :: keyTexts', leaf :: leaves' =>
      leafFiles options count prefix rootCA i keyText leaf
      ++ batchFiles options count prefix rootCA todo' keyTexts' leaves'
  | _, _, _ => []
  end.

(** The options as the caller finds them after [getLeavesCertificates]
    or [verify]. *)
Definition defaultedOptions (options : CertificatesOptions) (rootCA : Cert)
    : CertificatesOptions :=
  match attrs options with
  | None => assign_attrs options (subject rootCA)
  | Some _ => options
  end.

(** The caller's options object after a call of [getLeavesCertificates]
    or [verify]. *)
Definition optionsAfter {A : Type}
    (run : Outcome A * CertificatesOptions * World) : CertificatesOptions :=
  snd (fst run).

(** ** The statements that do not hold as worded

    Each is the sentence of the specification, read on the program; each
    is refuted on a concrete run further down, next to the statement that
    does hold. *)

(** Leaf issuance whose re-verification fails throws the signing error
    and has written no file. *)
Definition reverification_aborts_before_any_file
    (options : CertificatesOptions) (R : Cert) (name : option string)
    (w : World) : Prop :=
  forall key draft w1 signed,
    prepareCert options (Some R) name w = (Returned (key, draft), w1) ->
    cert_sign (setIssuer (subject R) draft) (privateKey R) sha256
      = Returned signed ->
    cert_verify R signed = Returned false ->
    exists w',
      createCert options (Some R) name w
        = (Thrown (ThrownString leafError), w')
      /\ fsLog w' = fsLog w.

(** A certificate issued at instant [T] is valid from [T] to the same
    month, day and time of day one year later. *)
Definition validity_is_same_day_next_year
    (options : CertificatesOptions) (issuer : option Cert)
    (name : option string) (w : World) (T : Date) : Prop :=
  Date_now (clockReads w) = T ->
  Date_now (S (clockReads w)) = T ->
  validDate T ->
  forall c w',
    createCert options issuer name w = (Returned c, w') ->
    notBefore c = T
    /\ fullYear (notAfter c) = fullYear (notBefore c) + 1
    /\ month (notAfter c) = month T
    /\ date (notAfter c) = date T
    /\ timeInDay (notAfter c) = timeInDay T.

(** The verification certificate has the code as its common name, the
    root's subject as its issuer, and its chain goes to verified.pem. *)
Definition verification_subject_is_code
    (options : CertificatesOptions) (code : string) (R : Cert) (w : World)
    : Prop :=
  forall validated options' w',
    verify options code R w = (Returned validated, options', w') ->
    commonNameOf (Some (subject validated)) = Some code
    /\ issuer validated = subject R
    /\ exists before : list FsCall,
         fsLog w' = (before ++
           [WriteFile (path_join (outFolder options) "verified.pem")
                      (certificateToPem validated ++ certificateToPem R)])%list.

(** Without a common name and without an explicit name, the call fails
    and the write does not happen. *)
Definition missing_commonName_is_an_error
    (options : CertificatesOptions) (issuer : option Cert) (w : World)
    : Prop :=
  commonNameOf (attrs options) = None ->
  exists e w',
    createCert options issuer None w = (Thrown e, w')
    /\ fsLog w' = fsLog w.

(** Batch leaf [i] leaves a key file named after the prefix followed by
    [i]. *)
Definition batch_key_file_is_prefix_index
    (options : CertificatesOptions) (count : Z) (prefix : string) (R : Cert)
    (w : World) : Prop :=
  forall leaves options' w',
    getLeavesCertificates options count prefix R w
      = (Returned leaves, options', w') ->
    forall i, In i (indices count) ->
    exists data,
      In (WriteFile
            (path_join (outFolder options) (prefix ++ decimal i ++ ".key.pem"))
            data)
         (fsLog w').

(** ** What a signed certificate is

    The predicates the statements about root and leaf issuance use. *)

(** The SHA-256 digest of a certificate as it stands. *)
Definition sha256Digest (c : Cert) : Digest PublicKey :=
  {| algorithm := sha256; content := getTBSCertificate c |}.

(** [c] carries the signature of [sk] over its own SHA-256 digest. *)
Definition signedWithSha256 (c : Cert) (sk : PrivateKey) : Prop :=
  md c = Some (sha256Digest c)
  /\ signature c = Some (key_sign sk (sha256Digest c)).

(** No extension of [c] is named basicConstraints. *)
Definition lacksBasicConstraints (c : Cert) : Prop :=
  forall e, In e (extensions c) -> ext_name e <> "basicConstraints".

(** [leaf] is a leaf of [R]: named as issued by [R], signed with the key
    attached to [R], accepted by [R.verify], and not a CA. *)
Definition isLeafOf (R leaf : Cert) : Prop :=
  issuer leaf = subject R
  /\ (exists skR, privateKey R = Some skR /\ signedWithSha256 leaf skR)
  /\ cert_verify R leaf = Returned true
  /\ extensions leaf = certificateExtensions
  /\ lacksBasicConstraints leaf.

(** The extensions of a CA certificate of this program: the four fixed
    ones, then basicConstraints with cA set. *)
Definition hasCAExtensions (c : Cert) : Prop :=
  extensions c =
    [ {| ext_name := "subjectKeyIdentifier"; ext_flags := [] |};
      {| ext_name := "keyUsage";
         ext_flags := [("keyCertSign", true); ("digitalSignature", true);
                       ("nonRepudiation", true); ("keyEncipherment", true);
                       ("dataEncipherment", true)] |};
      {| ext_name := "extKeyUsage";
         ext_flags := [("serverAuth", true); ("clientAuth", true);
                       ("codeSigning", true); ("emailProtection", true);
                       ("timeStamping", true)] |};
      {| ext_name := "nsCertType";
         ext_flags := [("client", true); ("server", true); ("email", true);
                       ("objsign", true); ("sslCA", true); ("emailCA", true);
                       ("objCA", true)] |};
      {| ext_name := "basicConstraints"; ext_flags := [("cA", true)] |} ]%list
  /\ (exists e, In e (extensions c)
                /\ ext_name e = "basicConstraints"
                /\ In ("cA", true) (ext_flags e))
  /\ map ext_name (extensions c) =
       ["subjectKeyIdentifier"; "keyUsage"; "extKeyUsage"; "nsCertType";
        "basicConstraints"]%list.

(** [c] is a self-signed CA certificate made from the key pair that the
    generator produced at draw [n]. *)
Definition isSelfSignedCA (options : CertificatesOptions) (n : nat) (c : Cert)
    : Prop :=
  issuer c = subject c
  /\ (forall a, attrs options = Some a -> subject c = a)
  /\ extensions c = (certificateExtensions ++ [basicConstraints])%list
  /\ hasCAExtensions c
  /\ exists pk sk,
       generateKeyPair n (bitsOf options) = Some (pk, sk)
       /\ publicKey c = Some pk
       /\ signedWithSha256 c sk
       /\ (generated_keys_verify F -> cert_verify c c = Returned true).

(** Forge can tell the type of every entry of the attribute list of the
    options, which is what its setters ask of an entry. *)
Definition forgeKnows (options : CertificatesOptions) : Prop :=
  forall l a, attrs options = Some l -> In a l -> attr_type a <> None.

(** An entry given by the short name CN alone: the entries without a
    [name] that forge completes to commonName. *)
Definition shortNamedCN (a : CertificateField) : bool :=
  match field_name a with
  | Some _ => false
  | None => option_string_eqb (field_shortName a) (Some "CN")
  end.

(** Leaf [i] of a batch over the attribute list [a]: its subject is [a]
    with the common-name entries replaced by the name of the leaf, and it
    is a leaf of [R]. *)
Definition batchLeaf (count : Z) (prefix : string) (R : Cert)
    (a : list CertificateField) (i : Z) (leaf : Cert) : Prop :=
  subject leaf = map (substituteCommonName (leafName prefix count i)) a
  /\ isLeafOf R leaf.

(** Every way a leaf issuance can end: the generator fails; the key text
    does not parse back; a key is missing on the issuer; the signature
    check throws; the issuer rejects the signature; the leaf is issued. *)
Inductive LeafRun (options : CertificatesOptions) (R : Cert)
    (name : option string) (w : World) : Outcome Cert * World -> Prop :=
| leaf_keygen_failed :
    generateKeyPair (keyDraws w) (bitsOf options) = None ->
    LeafRun options R name w
      (Thrown KeyGenerationError,
       {| fsLog := fsLog w; keyDraws := S (keyDraws w);
          clockReads := clockReads w; randomDraws := randomDraws w |})
| leaf_pem_unreadable pk sk :
    generateKeyPair (keyDraws w) (bitsOf options) = Some (pk, sk) ->
    privateKeyFromPem (keyTowrite (keysOf options pk sk)) = None ->
    LeafRun options R name w
      (Thrown (ForgeError "Could not convert private key from PEM"),
       afterKeyFile options name (keysOf options pk sk) 2 0 w)
| leaf_sign_or_verify_threw pk sk parsed e :
    generateKeyPair (keyDraws w) (bitsOf options) = Some (pk, sk) ->
    privateKeyFromPem (keyTowrite (keysOf options pk sk)) = Some parsed ->
    privateKey R = None \/ publicKey R = None ->
    LeafRun options R name w
      (Thrown (TypeError e),
       afterKeyFile options name (keysOf options pk sk) 2 1 w)
| leaf_verify_threw pk sk parsed skR pkR :
    generateKeyPair (keyDraws w) (bitsOf options) = Some (pk, sk) ->
    privateKeyFromPem (keyTowrite (keysOf options pk sk)) = Some parsed ->
    privateKey R = Some skR ->
    publicKey R = Some pkR ->
    let draft := setIssuer (subject R) (outcertOf options (Some R) pk parsed w) in
    key_verify pkR (digestOf draft sha256) (key_sign skR (digestOf draft sha256))
      = None ->
    LeafRun options R name w
      (Thrown (ForgeError "Encryption block is invalid."),
       afterKeyFile options name (keysOf options pk sk) 2 1 w)
| leaf_not_verified pk sk parsed skR pkR :
    generateKeyPair (keyDraws w) (bitsOf options) = Some (pk, sk) ->
    privateKeyFromPem (keyTowrite (keysOf options pk sk)) = Some parsed ->
    privateKey R = Some skR ->
    publicKey R = Some pkR ->
    let draft := setIssuer (subject R) (outcertOf options (Some R) pk parsed w) in
    key_verify pkR (digestOf draft sha256) (key_sign skR (digestOf draft sha256))
      = Some false ->
    LeafRun options R name w
      (Thrown (ThrownString leafError),
       afterKeyFile options name (keysOf options pk sk) 2 1 w)
| leaf_issued pk sk parsed skR pkR :
    generateKeyPair (keyDraws w) (bitsOf options) = Some (pk, sk) ->
    privateKeyFromPem (keyTowrite (keysOf options pk sk)) = Some parsed ->
    privateKey R = Some skR ->
    publicKey R = Some pkR ->
    let draft := setIssuer (subject R) (outcertOf options (Some R) pk parsed w) in
    key_verify pkR (digestOf draft sha256) (key_sign skR (digestOf draft sha256))
      = Some true ->
    LeafRun options R name w
      (Returned (signedBy draft skR sha256),
       afterKeyFile options name (keysOf options pk sk) 2 1 w).

End Issuance.


(** ** An executable instance

    Keys are texts; a public key and its private key are the same text; a
    signature is the text of the key that made it.  PEM blocks are a tag
    followed by the key text. *)
Module Toy.

Fixpoint strip_prefix (p s : string) : option string :=
  match p with
  | EmptyString => Some s
  | String a p' =>
      match s with
      | String b s' => if Ascii.eqb a b then strip_prefix p' s' else None
      | EmptyString => None
      end
  end.

#[local] Instance forge : Forge := {|
  PublicKey := string;
  PrivateKey := string;
  Signature := string;
  generateKeyPair := fun n bits =>
    if bits <=? 0 then None
    else let k := "key" ++ decimal (Z.of_nat n) in Some (k, k);
  encryptRsaPrivateKey := fun sk pass => "ENCRYPTED PRIVATE KEY:" ++ sk;
  privateKeyToPem := fun sk => "RSA PRIVATE KEY:" ++ sk;
  privateKeyFromPem := strip_prefix "RSA PRIVATE KEY:";
  certificateToPem := fun c =>
    "CERTIFICATE:" ++ template (commonNameOf (Some (subject c)))
      ++ "#" ++ serialNumber c ++ ";";
  key_sign := fun sk d => sk;
  key_verify := fun pk d s => Some (pk =? s)%string;
  attr_type := fun a =>
    match field_name a with
    | Some n => Some n
    | None => field_shortName a
    end
|}.

(** A host whose clock shows [d] at every reading, in a zone without
    daylight saving. *)
Definition node (d : Date) : Node := {|
  path_join := fun folder file => folder ++ "/" ++ file;
  Date_now := fun _ => d;
  random_1000 := fun n => (Z.of_nat n * 37 + 5) mod 1000;
  localTime := fun d => d
|}.

Definition noon (y m d : Z) : Date :=
  {| fullYear := y; month := m; date := d; timeInDay := 43200000 |}.

(** Two hosts: one on the 15th of June 2023, one on the 29th of February
    2024. *)
Definition june : Node := node (noon 2023 5 15).

Definition leapDay : Node := node (noon 2024 1 29).

(** A zone that puts its clocks forward on the 8th of March 2026, from
    02:00 to 03:00: the local times of that hour do not exist and are
    read one hour later. *)
Definition springForward (d : Date) : Date :=
  if (fullYear d =? 2026) && (month d =? 2) && (date d =? 8)
     && (7200000 <=? timeInDay d) && (timeInDay d <? 10800000)
  then {| fullYear := fullYear d; month := month d; date := date d;
          timeInDay := timeInDay d + 3600000 |}
  else d.

(** 02:30 on the 8th of March 2025, and a host in that zone whose clock
    shows it. *)
Definition halfPastTwo : Date :=
  {| fullYear := 2025; month := 2; date := 8; timeInDay := 9000000 |}.

Definition beforeTheGap : Node := {|
  path_join := fun folder file => folder ++ "/" ++ file;
  Date_now := fun _ => halfPastTwo;
  random_1000 := fun n => (Z.of_nat n * 37 + 5) mod 1000;
  localTime := springForward
|}.

Definition start : World :=
  {| fsLog := []; keyDraws := 0; clockReads := 0; randomDraws := 0 |}.

Definition attr (n v : string) : CertificateField :=
  {| field_name := Some n; field_shortName := None; field_value := v |}.

Definition short_attr (n v : string) : CertificateField :=
  {| field_name := None; field_shortName := Some n; field_value := v |}.

Definition rootAttrs : list CertificateField :=
  [attr "commonName" "AzureIoTCentral"; attr "countryName" "US";
   short_attr "ST" "Washington"; attr "localityName" "Redmond";
   attr "organizationName" "Azure"; short_attr "OU" "Azure IoT Central"].

Definition options (a : option (list CertificateField))
    (pass : option string) : CertificatesOptions :=
  {| outFolder := "out"; passphrase := pass; yearsTTL := None;
     keyBits := Some 2048; attrs := a |}.

(** A certificate as it comes back from a PEM file, with the given
    signing key attached by the caller. *)
Definition loaded (subj : list CertificateField) (pk sk : string)
    : @Cert forge :=
  {| subject := subj; issuer := subj; serialNumber := "1";
     notBefore := noon 2023 0 1; notAfter := noon 2024 0 1;
     publicKey := Some pk; privateKey := Some sk;
     extensions := certificateExtensions ++ [basicConstraints];
     signatureOid := Some sha256; md := None; signature := Some sk |}.

(** A root whose attached key is its own. *)
Definition root : @Cert forge := loaded rootAttrs "root-key" "root-key".

(** A root with somebody else's key attached. *)
Definition mismatched : @Cert forge := loaded rootAttrs "root-key" "other-key".

(** A root whose subject has no common name. *)
Definition nameless : @Cert forge :=
  loaded [attr "countryName" "US"] "root-key" "root-key".

End Toy.

(** ** The rest of the program

    [getCertificateFromPem], [getPrivateKeyFromPem] and the command line
    ([main]).  Reading needs the content of the files: a disk is a map
    from paths, compared as texts, to the text a file holds, and the disk
    at a point of a run is the disk the run started on with the calls of
    [fsLog] applied to it. *)

Definition Disk : Type := string -> option string.

Definition apply_call (disk : Disk) (call : FsCall) : Disk :=
  match call with
  | Mkdir _ => disk
  | WriteFile path data =>
      fun p => if (p =? path)%string then Some data else disk p
  end.

Definition diskAfter (disk : Disk) (log : list FsCall) : Disk :=
  fold_left apply_call log disk.

(** What a load can throw: the error of [fs.readFile] on a path that is
    not there, or the error of forge on a text it does not accept. *)
Inductive ReadException :=
| ENOENT (path : string)
| PemException (message : string).

Inductive Loaded (A : Type) :=
| Read (a : A)
| ReadFailed (e : ReadException).
Arguments Read {A} a.
Arguments ReadFailed {A} e.

(** [(await fs.readFile(path)).toString()] *)
Definition fs_readFile (disk : Disk) (path : string) : Loaded string :=
  match disk path with
  | Some text => Read text
  | None => ReadFailed (ENOENT path)
  end.

(** forge's [pki.certificateFromPem]; [None]: the call throws. *)
Class ForgeParser (F : Forge) := {
  certificateFromPem : string -> option (@Cert F)
}.

(** [options.passphrase = p] *)
Definition assign_passphrase (p : option string)
    (options : CertificatesOptions) : CertificatesOptions :=
  {| outFolder := outFolder options; passphrase := p;
     yearsTTL := yearsTTL options; keyBits := keyBits options;
     attrs := attrs options |}.

(** A call of [fs.writeFile], as opposed to [fs.mkdir]. *)
Definition isWrite (call : FsCall) : Prop :=
  match call with
  | WriteFile _ _ => True
  | Mkdir _ => False
  end.

Section Loading.
Context {F : Forge} {P : ForgeParser F}.

Definition getCertificateFromPem (disk : Disk) (pemPath : string)
    : Loaded Cert :=
  match fs_readFile disk pemPath with
  | ReadFailed e => ReadFailed e
  | Read pem =>
      match certificateFromPem pem with
      | Some c => Read c
      | None => ReadFailed (PemException "Could not convert certificate from PEM")
      end
  end.

Definition getPrivateKeyFromPem (disk : Disk) (pemPath : string)
    : Loaded PrivateKey :=
  match fs_readFile disk pemPath with
  | ReadFailed e => ReadFailed e
  | Read pem =>
      match privateKeyFromPem pem with
      | Some k => Read k
      | None => ReadFailed (PemException "Could not convert private key from PEM")
      end
  end.
End Loading.

(** *** The command line

    The prompts are outside the program: what they resolve with is an
    input.  An answer is the text the prompt hands to its [filter] (the
    text typed, or the default of the question when nothing is typed and
    the question has one); the [filter]s are those of the source. *)
Record Answers := {
  ans_parent : string;
  ans_folder : string;
  ans_certFile : string;
  ans_privKey : string;
  ans_commonName : string;
  ans_countryName : string;
  ans_stateName : string;
  ans_localityName : string;
  ans_organizationName : string;
  ans_OU : string;
  ans_passphrase : string;
  ans_keyBits : Z;
  ans_verification : string
}.

(** [path.resolve], which [Node] does not have. *)
Class NodePath := {
  path_resolve : string -> string
}.

(** [Object.values(certificateAttrs)]: the six filtered answers, in the
    order of the questions. *)
Definition certificateAttrs (answers : Answers) : list CertificateField :=
  [ {| field_name := Some "commonName"; field_shortName := None;
       field_value := ans_commonName answers |};
    {| field_name := Some "countryName"; field_shortName := None;
       field_value := ans_countryName answers |};
    {| field_name := None; field_shortName := Some "ST";
       field_value := ans_stateName answers |};
    {| field_name := Some "localityName"; field_shortName := None;
       field_value := ans_localityName answers |};
    {| field_name := Some "organizationName"; field_shortName := None;
       field_value := ans_organizationName answers |};
    {| field_name := None; field_shortName := Some "OU";
       field_value := ans_OU answers |} ].

(** The [filter] of the passphrase question: [undefined] for a falsy
    input. *)
Definition passphraseAnswer (answers : Answers) : option string :=
  if truthy (Some (ans_passphrase answers))
  then Some (ans_passphrase answers)
  else None.

(** What [main] prints, and how it ends: it calls [process.exit(0)], or
    its promise rejects. *)
Inductive MainException :=
| FromIssuance (e : Exception)
| FromLoading (e : ReadException).

Inductive ConsoleLine :=
| Welcome
| Logged (e : Exception)
| RootGenerated (resolvedFolder : string)
| VerificationCreated (outFolder : string).

Inductive MainEnd :=
| Exited (code : Z)
| Rejected (e : MainException).

Section CommandLine.
Context {F : Forge} {N : Node} {P : ForgeParser F} {NP : NodePath}.

(** [dir.folder ? path.join(dir.parent, dir.folder)
               : path.resolve(dir.parent)] *)
Definition chosenFolder (answers : Answers) : string :=
  if truthy (Some (ans_folder answers))
  then path_join (ans_parent answers) (ans_folder answers)
  else path_resolve (ans_parent answers).

(** [{ outFolder, ...generationOptions, attrs: Object.values(...) }] *)
Definition cliOptions (answers : Answers) : CertificatesOptions :=
  {| outFolder := chosenFolder answers;
     passphrase := passphraseAnswer answers;
     yearsTTL := None;
     keyBits := Some (ans_keyBits answers);
     attrs := Some (certificateAttrs answers) |}.

(** The literal [{ outFolder }] handed to [verify]. *)
Definition verifyOptions (folder : string) : CertificatesOptions :=
  {| outFolder := folder; passphrase := None; yearsTTL := None;
     keyBits := None; attrs := None |}.

(** The end of [main], from [if (verificationCode)] on. *)
Definition finishMain (folder : string) (verificationCode : option string)
    (rootCA : Cert) (console : list ConsoleLine) (w : World)
    : MainEnd * list ConsoleLine * World :=
  match verificationCode with
  | Some code =>
      if truthy (Some code) then
        match verify (verifyOptions folder) code rootCA w with
        | (Returned _, _, w') =>
            (Exited 0, (console ++ [VerificationCreated folder])%list, w')
        | (Thrown e, _, w') => (Rejected (FromIssuance e), console, w')
        end
      else (Exited 0, (console ++ [VerificationCreated folder])%list, w)
  | None => (Exited 0, (console ++ [VerificationCreated folder])%list, w)
  end.

(** [main(verificationCode?)], on the disk the process finds.  The
    [catch] block of [generateRoot] prints the exception it throws
    again. *)
Definition main (verificationCode : option string) (answers : Answers)
    (disk : Disk) (w : World) : MainEnd * list ConsoleLine * World :=
  let console := [Welcome] in
  let folder := chosenFolder answers in
  if truthy verificationCode then
    match getCertificateFromPem (diskAfter disk (fsLog w))
                                (ans_certFile answers) with
    | ReadFailed e => (Rejected (FromLoading e), console, w)
    | Read rootCA =>
        match getPrivateKeyFromPem (diskAfter disk (fsLog w))
                                   (ans_privKey answers) with
        | ReadFailed e => (Rejected (FromLoading e), console, w)
        | Read key =>
            finishMain folder verificationCode (assign_privateKey key rootCA)
                       console w
        end
    end
  else
    match generateRoot (cliOptions answers) w with
    | (Thrown e, w') =>
        (Rejected (FromIssuance e), (console ++ [Logged e])%list, w')
    | (Returned rootCA, w') =>
        finishMain folder (Some (ans_verification answers)) rootCA
          (console ++ [RootGenerated (path_resolve folder)])%list w'
    end.

(** The call at the end of the script:
    [main(myArgs.length > 0 ? myArgs[0] : undefined)] with
    [myArgs = process.argv.slice(2)]. *)
Definition script (argv : list string) (answers : Answers) (disk : Disk)
    (w : World) : MainEnd * list ConsoleLine * World :=
  main (hd_error (skipn 2 argv)) answers disk w.
End CommandLine.

(** *** More of the executable instance *)
Module Lab.

(** The generator of [Toy.forge], failing from draw [limit] on. *)
Definition forgeUpTo (limit : nat) : Forge := {|
  PublicKey := string;
  PrivateKey := string;
  Signature := string;
  generateKeyPair := fun n bits =>
    if (limit <=? n)%nat then None
    else @generateKeyPair Toy.forge n bits;
  encryptRsaPrivateKey := @encryptRsaPrivateKey Toy.forge;
  privateKeyToPem := @privateKeyToPem Toy.forge;
  privateKeyFromPem := @privateKeyFromPem Toy.forge;
  certificateToPem := @certificateToPem Toy.forge;
  key_sign := @key_sign Toy.forge;
  key_verify := @key_verify Toy.forge;
  attr_type := @attr_type Toy.forge
|}.

(** The toy root as it comes back from a PEM file: without a private
    key. *)
Definition keylessRoot : @Cert Toy.forge :=
  {| subject := Toy.rootAttrs; issuer := Toy.rootAttrs; serialNumber := "1";
     notBefore := Toy.noon 2023 0 1; notAfter := Toy.noon 2024 0 1;
     publicKey := Some "root-key"; privateKey := None;
     extensions := certificateExtensions ++ [basicConstraints];
     signatureOid := Some sha256; md := None; signature := Some "root-key" |}.

(** A parser for the certificate texts of [Toy.forge]: any of them reads
    as the toy root. *)
Definition parser : ForgeParser Toy.forge := {|
  certificateFromPem := fun text =>
    match Toy.strip_prefix "CERTIFICATE:" text with
    | Some _ => Some keylessRoot
    | None => None
    end
|}.

Definition nodePath : NodePath := {|
  path_resolve := fun p => "/home/user/" ++ p
|}.

(** A disk with nothing on it, and one with the files of a root. *)
Definition emptyDisk : Disk := fun _ => None.

Definition rootDisk : Disk :=
  diskAfter emptyDisk
    [WriteFile "ca/root.cert.pem" "CERTIFICATE:AzureIoTCentral#1;";
     WriteFile "ca/root.key.pem" "RSA PRIVATE KEY:root-key";
     WriteFile "ca/locked.key.pem" "ENCRYPTED PRIVATE KEY:root-key"].

(** The defaults of the questions, with a folder, a key length of 2048
    and the given passphrase and verification code. *)
Definition answers (pass code : string) : Answers :=
  {| ans_parent := "work"; ans_folder := "out";
     ans_certFile := "ca/root.cert.pem"; ans_privKey := "ca/root.key.pem";
     ans_commonName := "AzureIoTCentral"; ans_countryName := "US";
     ans_stateName := "Washington"; ans_localityName := "Redmond";
     ans_organizationName := "Azure"; ans_OU := "Azure IoT Central";
     ans_passphrase := pass; ans_keyBits := 2048;
     ans_verification := code |}.

(** Options with a key length the toy generator refuses. *)
Definition zeroBits : CertificatesOptions :=
  {| outFolder := "out"; passphrase := None; yearsTTL := None;
     keyBits := Some 0; attrs := Some Toy.rootAttrs |}.

End Lab.

(** ** Runs of [createCert] *)

Section Runs.
Context {F : Forge} {N : Node}.
Local Open Scope list_scope.

Create HintDb runs.
#[local] Hint Constructors LeafRun : runs.

(** Case analysis on the two library calls that decide how [prepareCert]
    ends: the key generator, then the parser of the key text. *)
Ltac on_generated pk sk :=
  destruct (generateKeyPair _ (bitsOf _)) as [[pk sk]|] eqn:?Hgen; cbv zeta.

Ltac on_parsed parsed :=
  destruct (privateKeyFromPem (keyTowrite _)) as [parsed|] eqn:?Hparse.

Lemma createCAPrivKey_run options w :
  createCAPrivKey options w =
    (match generateKeyPair (keyDraws w) (bitsOf options) with
     | Some (pk, sk) => Returned (keysOf options pk sk)
     | None => Thrown KeyGenerationError
     end,
     {| fsLog := fsLog w; keyDraws := S (keyDraws w);
        clockReads := clockReads w; randomDraws := randomDraws w |}).
Proof.
  unfold createCAPrivKey, bind, rsa_generateKeyPair, keysOf.
  now destruct (generateKeyPair (keyDraws w) (bitsOf options)) as [[pk sk]|].
Qed.

(** [prepareCert] has three ways to end: the generator fails and nothing
    is written; the key file is written and the PEM text does not parse
    back; the key file is written and [outcert] is complete. *)
Lemma prepareCert_run options issuer name w :
  prepareCert options issuer name w =
    match generateKeyPair (keyDraws w) (bitsOf options) with
    | None =>
        (Thrown KeyGenerationError,
         {| fsLog := fsLog w; keyDraws := S (keyDraws w);
            clockReads := clockReads w; randomDraws := randomDraws w |})
    | Some (pk, sk) =>
        let key := keysOf options pk sk in
        match privateKeyFromPem (keyTowrite key) with
        | None =>
            (Thrown (ForgeError "Could not convert private key from PEM"),
             afterKeyFile options name key 2 0 w)
        | Some parsed =>
            (Returned (key, outcertOf options issuer pk parsed w),
             afterKeyFile options name key 2 1 w)
        end
    end.
Proof.
  unfold prepareCert.
  unfold bind at 1. rewrite createCAPrivKey_run.
  on_generated pk sk; [|reflexivity].
  unfold bind, fs_writeFile, new_Date, lift, floor_random_1000, ret; cbn.
  on_parsed parsed; [|reflexivity].
  unfold outcertOf, afterKeyFile; cbn.
  destruct (attrs options); reflexivity.
Qed.

Lemma keyTowrite_plain options pk sk :
  truthy (passphrase options) = false ->
  keyTowrite (keysOf options pk sk) = privateKeyToPem sk.
Proof.
  unfold keyTowrite, keysOf, encryptedKeyOf; cbn [kp_encryptedKey kp_privateKey].
  destruct (passphrase options) as [pass|]; [|reflexivity]. now intros ->.
Qed.

Lemma keyTowrite_encrypted options pk sk pass :
  passphrase options = Some pass ->
  pass <> ""%string ->
  keyTowrite (keysOf options pk sk) = encryptRsaPrivateKey sk pass.
Proof.
  intros Hpass Hne.
  unfold keyTowrite, keysOf, encryptedKeyOf; cbn [kp_encryptedKey kp_privateKey].
  rewrite Hpass. cbn [truthy].
  apply String.eqb_neq in Hne. now rewrite Hne.
Qed.

Lemma attributes_match_refl (l : list CertificateField) :
  attributes_match l l = true.
Proof.
  induction l as [|a l IH]; [reflexivity|].
  cbn. rewrite IH, String.eqb_refl.
  destruct (attr_type a); cbn; [now rewrite String.eqb_refl|reflexivity].
Qed.

Lemma createCert_run options issuer name w :
  createCert options issuer name w =
    match prepareCert options issuer name w with
    | (Returned prepared, w') =>
        (signCert (fst prepared) issuer (snd prepared), w')
    | (Thrown e, w') => (Thrown e, w')
    end.
Proof. reflexivity. Qed.

Lemma cert_sign_with c k alg :
  cert_sign c (Some k) alg = Returned (signedBy c k alg).
Proof. reflexivity. Qed.

Lemma getTBSCertificate_signedBy c k alg :
  getTBSCertificate (signedBy c k alg) = content (digestOf c alg).
Proof. reflexivity. Qed.

(** Verification of a certificate just signed, by the certificate whose
    subject was set as its issuer. *)
Lemma cert_verify_signedBy (parent c : Cert) k alg pk :
  issuer c = subject parent ->
  publicKey parent = Some pk ->
  cert_verify parent (signedBy c k alg)
    = match key_verify pk (digestOf c alg) (key_sign k (digestOf c alg)) with
      | Some ok => Returned ok
      | None => Thrown (ForgeError "Encryption block is invalid.")
      end.
Proof.
  intros Hi Hpk. unfold cert_verify, isIssuer. cbn.
  now rewrite Hi, attributes_match_refl, Hpk.
Qed.

Lemma createCert_leaf_run options R name w :
  LeafRun options R name w (createCert options (Some R) name w).
Proof.
  rewrite createCert_run, prepareCert_run.
  on_generated pk sk; [|now auto with runs].
  on_parsed parsed; [|now eauto with runs].
  cbn [fst snd signCert].
  destruct (privateKey R) as [skR|] eqn:HskR.
  - rewrite cert_sign_with.
    destruct (publicKey R) as [pkR|] eqn:HpkR.
    + rewrite (cert_verify_signedBy R _ skR sha256 pkR) by easy.
      destruct (key_verify pkR _ _) as [[|]|] eqn:Hv; cbn [negb];
        eauto with runs.
    + unfold cert_verify, isIssuer. cbn.
      rewrite attributes_match_refl, HpkR. cbn. eauto with runs.
  - cbn. eauto with runs.
Qed.

Lemma createCert_root_run options name w :
  createCert options None name w =
    match generateKeyPair (keyDraws w) (bitsOf options) with
    | None =>
        (Thrown KeyGenerationError,
         {| fsLog := fsLog w; keyDraws := S (keyDraws w);
            clockReads := clockReads w; randomDraws := randomDraws w |})
    | Some (pk, sk) =>
        let key := keysOf options pk sk in
        match privateKeyFromPem (keyTowrite key) with
        | None =>
            (Thrown (ForgeError "Could not convert private key from PEM"),
             afterKeyFile options name key 2 0 w)
        | Some parsed =>
            (Returned (signedBy (outcertOf options None pk parsed w) sk sha256),
             afterKeyFile options name key 2 1 w)
        end
    end.
Proof.
  rewrite createCert_run, prepareCert_run.
  on_generated pk sk; [|reflexivity].
  now on_parsed parsed.
Qed.

Lemma generateRoot_run options w :
  generateRoot options w =
    match createCert options None None
            {| fsLog := fsLog w ++ [Mkdir (outFolder options)];
               keyDraws := keyDraws w; clockReads := clockReads w;
               randomDraws := randomDraws w |} with
    | (Returned caCert, w1) =>
        (Returned caCert,
         {| fsLog := fsLog w1 ++
              [WriteFile
                 (path_join (outFolder options)
                    (template (commonNameOf
                                 (option_map fillMissingFields (attrs options)))
                     ++ ".cert.pem"))
                 (certificateToPem caCert)];
            keyDraws := keyDraws w1; clockReads := clockReads w1;
            randomDraws := randomDraws w1 |})
    | (Thrown e, w1) => (Thrown e, w1)
    end.
Proof.
  unfold generateRoot, bind at 1, fs_mkdir.
  unfold bind at 1.
  now destruct (createCert options None None _) as [[caCert|e] w1].
Qed.

Lemma certificateExtensions_lack_basicConstraints e :
  In e certificateExtensions -> ext_name e <> "basicConstraints".
Proof.
  cbn. intros [<-|[<-|[<-|[<-|[]]]]]; discriminate.
Qed.

Lemma signedBy_isLeafOf (R draft : Cert) skR pkR :
  privateKey R = Some skR ->
  publicKey R = Some pkR ->
  issuer draft = subject R ->
  extensions draft = certificateExtensions ->
  key_verify pkR (digestOf draft sha256) (key_sign skR (digestOf draft sha256))
    = Some true ->
  isLeafOf R (signedBy draft skR sha256).
Proof.
  intros HskR HpkR Hi He Hv. unfold isLeafOf. repeat split.
  - exact Hi.
  - now exists skR.
  - rewrite (cert_verify_signedBy R draft skR sha256 pkR) by assumption.
    now rewrite Hv.
  - exact He.
  - intros e. cbn [signedBy extensions]. rewrite He.
    apply certificateExtensions_lack_basicConstraints.
Qed.

Lemma createCert_leaf_returned options R name w leaf w' :
  createCert options (Some R) name w = (Returned leaf, w') ->
  isLeafOf R leaf.
Proof.
  intros Hrun. pose proof (createCert_leaf_run options R name w) as H.
  rewrite Hrun in H. inversion H; subst.
  eapply signedBy_isLeafOf; eauto.
Qed.

(** A leaf issuance goes through when the key is generated, no passphrase
    is set, and the key attached to the issuer matches the issuer's
    public key. *)
Lemma createCert_leaf_succeeds options R name w pk sk skR pkR :
  pem_roundtrip F ->
  truthy (passphrase options) = false ->
  generateKeyPair (keyDraws w) (bitsOf options) = Some (pk, sk) ->
  privateKey R = Some skR ->
  publicKey R = Some pkR ->
  (forall d, key_verify pkR d (key_sign skR d) = Some true) ->
  createCert options (Some R) name w =
    (Returned
       (signedBy (setIssuer (subject R) (outcertOf options (Some R) pk sk w))
                 skR sha256),
     afterKeyFile options name (keysOf options pk sk) 2 1 w).
Proof.
  intros Hpem Hpass Hg HskR HpkR Hv.
  rewrite createCert_run, prepareCert_run, Hg. cbv zeta.
  rewrite keyTowrite_plain, Hpem by assumption.
  cbn [fst snd signCert]. rewrite HskR, cert_sign_with.
  rewrite (cert_verify_signedBy R _ skR sha256 pkR) by easy.
  now rewrite Hv.
Qed.

(** C2. Every leaf that [createCert] returns for an issuer [R] names
    [R]'s subject as its issuer, carries the SHA-256 signature of the
    private key attached to [R], is accepted by [R.verify], and has the
    four fixed extensions without basicConstraints.  Such a leaf is
    returned whenever the key pair is generated, no passphrase is set and
    [R]'s attached key matches [R]'s public key. *)
Theorem leaf_is_issued_by_root (options : CertificatesOptions) (R : Cert)
    (name : option string) (w : World) :
  (forall leaf w',
     createCert options (Some R) name w = (Returned leaf, w') ->
     isLeafOf R leaf)
  /\ (forall pk sk skR pkR,
        pem_roundtrip F ->
        truthy (passphrase options) = false ->
        generateKeyPair (keyDraws w) (bitsOf options) = Some (pk, sk) ->
        privateKey R = Some skR ->
        publicKey R = Some pkR ->
        (forall d, key_verify pkR d (key_sign skR d) = Some true) ->
        exists leaf w',
          createCert options (Some R) name w = (Returned leaf, w')).
Proof.
  split.
  - intros leaf w'. apply createCert_leaf_returned.
  - intros pk sk skR pkR Hpem Hpass Hg HskR HpkR Hv.
    do 2 eexists. now apply (createCert_leaf_succeeds options R name w pk sk skR pkR).
Qed.

Lemma createCert_root_returned options name w c w' :
  createCert options None name w = (Returned c, w') ->
  isSelfSignedCA options (keyDraws w) c.
Proof.
  rewrite createCert_root_run.
  on_generated pk sk; [|discriminate].
  on_parsed parsed; [|discriminate].
  intros [= <- _]. unfold isSelfSignedCA.
  split; [reflexivity|]. split; [cbn; now intros a ->|].
  split; [reflexivity|]. split.
  - unfold hasCAExtensions. cbn. split; [reflexivity|]. split; [|reflexivity].
    exists {| ext_name := "basicConstraints"; ext_flags := [("cA"%string, true)] |}.
    cbn. intuition.
  - exists pk, sk. repeat split; [exact Hgen|].
    intros Hlaw.
    rewrite (cert_verify_signedBy _ _ sk sha256 pk) by reflexivity.
    now rewrite (Hlaw _ _ _ _ _ Hgen).
Qed.

(** C3. The certificate [createCert] returns when no issuer is given, and
    so the one [generateRoot] returns, has its subject as its issuer (the
    attributes of the options), the four fixed extensions followed by
    basicConstraints with cA set, and the SHA-256 signature of the private
    key generated in the same call; [c.verify(c)] accepts it.  It is
    returned whenever the key pair is generated and no passphrase is
    set. *)
Theorem root_is_self_signed_ca (options : CertificatesOptions)
    (name : option string) (w : World) :
  (forall c w',
     createCert options None name w = (Returned c, w') ->
     isSelfSignedCA options (keyDraws w) c)
  /\ (forall c w',
        generateRoot options w = (Returned c, w') ->
        isSelfSignedCA options (keyDraws w) c)
  /\ (pem_roundtrip F ->
      truthy (passphrase options) = false ->
      generateKeyPair (keyDraws w) (bitsOf options) <> None ->
      (exists c w', createCert options None name w = (Returned c, w'))
      /\ (exists c w', generateRoot options w = (Returned c, w'))).
Proof.
  split; [|split].
  - intros c w'. apply createCert_root_returned.
  - intros c w'. rewrite generateRoot_run.
    destruct (createCert options None None _) as [[caCert|e] w1] eqn:Hrun;
      [|discriminate].
    intros [= <- _]. now apply createCert_root_returned in Hrun.
  - intros Hpem Hpass Hg.
    assert (Hok : forall name' w0, keyDraws w0 = keyDraws w ->
              exists c w', createCert options None name' w0 = (Returned c, w')).
    { intros name' w0 Hk. rewrite createCert_root_run, Hk.
      destruct (generateKeyPair (keyDraws w) (bitsOf options)) as [[pk sk]|];
        [|congruence].
      cbv zeta. rewrite keyTowrite_plain, Hpem by assumption. eauto. }
    split; [now apply Hok|].
    rewrite generateRoot_run.
    destruct (Hok None
                {| fsLog := fsLog w ++ [Mkdir (outFolder options)];
                   keyDraws := keyDraws w; clockReads := clockReads w;
                   randomDraws := randomDraws w |} eq_refl) as (c & w1 & ->).
    eauto.
Qed.

(** *** The validity window *)

Lemma leap_year_is_followed_by_common_year y :
  isLeapYear y = true -> isLeapYear (y + 1) = false.
Proof.
  unfold isLeapYear. intros H.
  assert (Hy : y mod 4 = 0).
  { apply orb_true_iff in H as [H|H].
    - apply andb_true_iff in H as [H _]. now apply Z.eqb_eq in H.
    - apply Z.eqb_eq in H.
      rewrite (Z.div_mod y 400) by lia. rewrite H, Z.add_0_r.
      replace (400 * (y / 400)) with ((100 * (y / 400)) * 4) by lia.
      apply Z.mod_mul; lia. }
  assert (H1 : (y + 1) mod 4 = 1).
  { rewrite Z.add_mod, Hy by lia. reflexivity. }
  assert (H2 : (y + 1) mod 400 <> 0).
  { intros H400.
    assert (Hd : (y + 1) mod 4 = 0).
    { rewrite (Z.div_mod (y + 1) 400) by lia. rewrite H400, Z.add_0_r.
      replace (400 * ((y + 1) / 400)) with ((100 * ((y + 1) / 400)) * 4) by lia.
      apply Z.mod_mul; lia. }
    lia. }
  rewrite H1. apply Z.eqb_neq in H2. now rewrite H2.
Qed.

(** [makeDate] on a date of the calendar, for the year that follows: the
    time of day is kept; the month and the day are kept unless the day
    does not exist in the new year, which only happens to the 29th of
    February and gives the 1st of March. *)
Lemma makeDate_oneYearAfter (T : Date) :
  validDate T ->
  makeDate T (fullYear T + 1) = oneYearAfter T.
Proof.
  intros (_ & Hm & Hd & _). unfold makeDate, oneYearAfter.
  destruct (Z.eqb_spec (month T) 1) as [H1|H1].
  - assert (Hdays : forall y,
              daysInMonth y (month T) = if isLeapYear y then 29 else 28).
    { intros y. unfold daysInMonth. now rewrite H1. }
    rewrite Hdays in Hd |- *.
    destruct (Z.eqb_spec (date T) 29) as [H29|H29]; cbn [andb].
    + destruct (isLeapYear (fullYear T)) eqn:Hleap; [|lia].
      rewrite (leap_year_is_followed_by_common_year _ Hleap).
      rewrite H29, H1. reflexivity.
    + assert (Hle : date T <= 28)
        by (destruct (isLeapYear (fullYear T)); lia).
      destruct (Z.leb_spec (date T)
                  (if isLeapYear (fullYear T + 1) then 29 else 28))
        as [_|Hgt]; [reflexivity|].
      destruct (isLeapYear (fullYear T + 1)); lia.
  - cbn [andb].
    assert (Hsame : daysInMonth (fullYear T + 1) (month T)
                    = daysInMonth (fullYear T) (month T)).
    { unfold daysInMonth. apply Z.eqb_neq in H1. now rewrite H1. }
    rewrite Hsame.
    destruct (Z.leb_spec (date T) (daysInMonth (fullYear T) (month T)));
      [reflexivity|lia].
Qed.

(** The two bounds of every certificate [createCert] returns: the first
    clock reading, and the second one moved to the year after the
    first. *)
Lemma createCert_validity options issuer name w c w' :
  createCert options issuer name w = (Returned c, w') ->
  notBefore c = Date_now (clockReads w)
  /\ notAfter c = setFullYear (Date_now (S (clockReads w)))
                             (fullYear (Date_now (clockReads w)) + 1).
Proof.
  destruct issuer as [R|].
  - intros Hrun. pose proof (createCert_leaf_run options R name w) as H.
    rewrite Hrun in H. inversion H; subst. now split.
  - rewrite createCert_root_run.
    on_generated pk sk; [|discriminate].
    on_parsed parsed; [|discriminate].
    intros [= <- _]. now split.
Qed.

(** C4, as the program has it. A certificate issued at instant [T] (both
    clock readings show [T]) is valid from [T]; its [notAfter] is the
    local time of the host for the date and time of day of [T] in the
    year that follows.  Where the zone of the host has that local time,
    [notAfter] has the year of [notBefore] plus one and the time of day of
    [T]; the month and the day are those of [T], except that the 29th of
    February becomes the 1st of March.  Where the zone skips it,
    [notAfter] is the later local time the host reads it as. *)
Theorem validity_window (options : CertificatesOptions) (issuer : option Cert)
    (name : option string) (w : World) (T : Date) (c : Cert) (w' : World) :
  Date_now (clockReads w) = T ->
  Date_now (S (clockReads w)) = T ->
  validDate T ->
  createCert options issuer name w = (Returned c, w') ->
  notBefore c = T
  /\ notAfter c = localTime (oneYearAfter T)
  /\ (inZone (oneYearAfter T) ->
      fullYear (notAfter c) = fullYear (notBefore c) + 1
      /\ timeInDay (notAfter c) = timeInDay T
      /\ (~ (month T = 1 /\ date T = 29) ->
          month (notAfter c) = month T /\ date (notAfter c) = date T)
      /\ (month T = 1 /\ date T = 29 ->
          month (notAfter c) = 2 /\ date (notAfter c) = 1)).
Proof.
  intros H1 H2 Hvalid Hrun.
  destruct (createCert_validity _ _ _ _ _ _ Hrun) as [Hnb Hna].
  rewrite H1 in Hnb. rewrite H1, H2 in Hna.
  unfold setFullYear in Hna. rewrite (makeDate_oneYearAfter T Hvalid) in Hna.
  split; [exact Hnb|]. split; [exact Hna|].
  intros Hzone. unfold inZone in Hzone. rewrite Hna, Hzone, Hnb.
  unfold oneYearAfter.
  destruct (Z.eqb_spec (month T) 1) as [Hm|Hm];
    destruct (Z.eqb_spec (date T) 29) as [Hd|Hd]; cbn;
    repeat split; try reflexivity; intros; lia.
Qed.

(** *** The key file *)

(** What [createCert] adds to the file system, however the call ends:
    nothing when the generator fails, the key file otherwise. *)
Lemma createCert_fsLog options issuer name w :
  fsLog (snd (createCert options issuer name w)) =
    match generateKeyPair (keyDraws w) (bitsOf options) with
    | None => fsLog w
    | Some (pk, sk) =>
        fsLog w ++
        [WriteFile (path_join (outFolder options) (keyFileName options name))
                   (keyTowrite (keysOf options pk sk))]
    end.
Proof.
  rewrite createCert_run, prepareCert_run.
  on_generated pk sk; [|reflexivity].
  now on_parsed parsed.
Qed.

Lemma prepareCert_returned options issuer name w key draft w1 :
  prepareCert options issuer name w = (Returned (key, draft), w1) ->
  fsLog w1 =
    fsLog w ++
    [WriteFile (path_join (outFolder options) (keyFileName options name))
               (keyTowrite key)].
Proof.
  rewrite prepareCert_run.
  on_generated pk sk; [|discriminate].
  on_parsed parsed; [|discriminate].
  now intros [= <- _ <-].
Qed.

(** An exception of [createCert] ends the batch at the leaf it comes
    from: its chain file is not written and no later leaf is tried. *)
Lemma leavesLoop_aborts options count prefix R i rest res w e w1 :
  createCert (withCommonName options (leafName prefix count i)) (Some R) None w
    = (Thrown e, w1) ->
  leavesLoop options count prefix R (i :: rest) res w = (Thrown e, w1).
Proof.
  intros Hrun. cbn [leavesLoop]. unfold bind at 1. now rewrite Hrun.
Qed.

(** C1, as the program has it. When the issuer rejects the certificate it
    has just signed, [createCert] throws the signing error; by then the
    private key of the leaf has been written, and that is the only file
    written: in a batch the chain file of the leaf is not written and the
    loop stops. *)
Theorem leaf_reverification_failure (options : CertificatesOptions) (R : Cert)
    (name : option string) (w : World) (key : Keys) (draft : Cert)
    (w1 : World) (signed : Cert) :
  prepareCert options (Some R) name w = (Returned (key, draft), w1) ->
  cert_sign (setIssuer (subject R) draft) (privateKey R) sha256
    = Returned signed ->
  cert_verify R signed = Returned false ->
  createCert options (Some R) name w = (Thrown (ThrownString leafError), w1)
  /\ fsLog w1 =
       fsLog w ++
       [WriteFile (path_join (outFolder options) (keyFileName options name))
                  (keyTowrite key)]
  /\ (forall options0 count prefix i rest res,
        options = withCommonName options0 (leafName prefix count i) ->
        name = None ->
        leavesLoop options0 count prefix R (i :: rest) res w
          = (Thrown (ThrownString leafError), w1)).
Proof.
  intros Hprep Hsign Hverify.
  assert (Hrun : createCert options (Some R) name w
                 = (Thrown (ThrownString leafError), w1)).
  { rewrite createCert_run, Hprep. cbn [fst snd signCert].
    now rewrite Hsign, Hverify. }
  split; [exact Hrun|]. split.
  - now apply (prepareCert_returned _ _ _ _ _ _ _ Hprep).
  - intros options0 count prefix i rest res -> ->.
    now apply leavesLoop_aborts.
Qed.

(** *** A passphrase *)

(** C7, on the program. With a passphrase, [createCAPrivKey] resolves
    with the clear key and the encrypted text, the encrypted text is what
    is written to the key file, and [createCert] then throws while reading
    that text back with [privateKeyFromPem]: no certificate is issued. *)
Theorem passphrase_breaks_issuance (options : CertificatesOptions)
    (issuer : option Cert) (name : option string) (w : World)
    (pass : string) (pk : PublicKey) (sk : PrivateKey) :
  encrypted_pem_rejected F ->
  passphrase options = Some pass ->
  pass <> ""%string ->
  generateKeyPair (keyDraws w) (bitsOf options) = Some (pk, sk) ->
  fst (createCAPrivKey options w)
    = Returned {| kp_publicKey := pk; kp_privateKey := sk;
                  kp_encryptedKey := Some (encryptRsaPrivateKey sk pass) |}
  /\ exists w',
       createCert options issuer name w
         = (Thrown (ForgeError "Could not convert private key from PEM"), w')
       /\ fsLog w' =
            fsLog w ++
            [WriteFile (path_join (outFolder options) (keyFileName options name))
                       (encryptRsaPrivateKey sk pass)].
Proof.
  intros Hlaw Hpass Hne Hg.
  pose proof (keyTowrite_encrypted options pk sk pass Hpass Hne) as Hkey.
  split.
  - rewrite createCAPrivKey_run, Hg. cbn [fst]. f_equal.
    unfold keysOf, encryptedKeyOf. rewrite Hpass. cbn [truthy].
    apply String.eqb_neq in Hne. now rewrite Hne.
  - rewrite createCert_run, prepareCert_run, Hg. cbv zeta.
    rewrite Hkey, Hlaw.
    eexists. split; [reflexivity|].
    cbn [afterKeyFile fsLog]. now rewrite Hkey.
Qed.

(** *** Common names *)

Lemma name_is_commonName_substituted v a :
  is_commonName a = true ->
  name_is_commonName (substituteCommonName v a) = true
  /\ field_value (substituteCommonName v a) = v.
Proof. unfold substituteCommonName. now intros ->. Qed.

Lemma substituteCommonName_other v a :
  is_commonName a = false ->
  substituteCommonName v a = a /\ name_is_commonName a = false.
Proof.
  unfold substituteCommonName. intros H. rewrite H. split; [reflexivity|].
  unfold is_commonName in H. now apply orb_false_iff in H.
Qed.

(** After the substitution the common name is the substituted value, if
    the list had a common-name entry at all. *)
Lemma commonNameOf_substituted v l :
  commonNameOf (Some (map (substituteCommonName v) l)) =
    if existsb is_commonName l then Some v else None.
Proof.
  unfold commonNameOf. induction l as [|a l IH]; [reflexivity|].
  cbn [map find existsb].
  destruct (is_commonName a) eqn:Ha.
  - destruct (name_is_commonName_substituted v a Ha) as [-> Hv].
    cbn. now rewrite Hv.
  - destruct (substituteCommonName_other v a Ha) as [-> ->]. exact IH.
Qed.

Lemma keyFileName_of_leaf options value a :
  attrs options = Some a ->
  keyFileName (withCommonName options value) None =
    ((if existsb is_commonName a then value else "undefined") ++ ".key.pem")%string.
Proof.
  intros Ha. unfold keyFileName, withCommonName. cbn [truthy attrs].
  rewrite Ha. cbn [option_map]. rewrite commonNameOf_substituted.
  now destruct (existsb is_commonName a).
Qed.

Lemma leafName_single prefix i : leafName prefix 1 i = prefix.
Proof.
  unfold leafName. cbn.
  induction prefix as [|c p IH]; [reflexivity|]. cbn. now rewrite IH.
Qed.

Lemma leafName_indexed prefix count i :
  1 < count -> leafName prefix count i = (prefix ++ decimal i)%string.
Proof.
  intros H. unfold leafName. apply Z.ltb_lt in H. now rewrite H.
Qed.

(** What [find] sees of an entry once forge has completed it: an entry
    named commonName, or one given by the short name CN alone. *)
Lemma longNameOf_commonName s :
  option_string_eqb (longNameOf s) (Some "commonName"%string)
    = (s =? "CN")%string.
Proof.
  unfold longNameOf.
  repeat match goal with
         | |- context [if (?x =? ?y)%string then _ else _] =>
             destruct (x =? y)%string
         end; reflexivity.
Qed.

Lemma name_is_commonName_filled a :
  name_is_commonName (fillMissingField a)
    = name_is_commonName a || shortNamedCN a.
Proof.
  unfold name_is_commonName, shortNamedCN, fillMissingField.
  cbn [field_name].
  destruct (field_name a) as [n|]; [now rewrite orb_false_r|].
  destruct (field_shortName a) as [s|]; [|reflexivity].
  cbn [option_string_eqb orb]. apply longNameOf_commonName.
Qed.

(** The test of [getLeavesCertificates] and [verify] gives the same
    answer on an entry before and after forge has completed it, and
    completing an entry twice is completing it once: a list can be kept
    as it was written wherever it is read through that test or handed to a
    setter again. *)
Lemma shortNameOf_CN n :
  option_string_eqb (shortNameOf n) (Some "CN"%string)
    = (n =? "commonName")%string.
Proof.
  unfold shortNameOf.
  repeat match goal with
         | |- context [if (?x =? ?y)%string then _ else _] =>
             destruct (x =? y)%string
         end; reflexivity.
Qed.

Lemma is_commonName_filled a :
  is_commonName (fillMissingField a) = is_commonName a.
Proof.
  unfold is_commonName, name_is_commonName, fillMissingField.
  cbn [field_name field_shortName].
  destruct (field_name a) as [n|], (field_shortName a) as [s|];
    try reflexivity.
  - cbn [option_string_eqb]. rewrite shortNameOf_CN.
    now destruct (n =? "commonName")%string.
  - rewrite longNameOf_commonName. cbn [option_string_eqb].
    now destruct (s =? "CN")%string.
Qed.

Lemma fillMissingField_idempotent a :
  fillMissingField (fillMissingField a) = fillMissingField a.
Proof.
  unfold fillMissingField. cbn [field_name field_shortName field_value].
  destruct (field_name a) as [n|], (field_shortName a) as [s|];
    try reflexivity.
  - now destruct (shortNameOf n).
  - now destruct (longNameOf s).
Qed.

Lemma commonNameOf_filled l :
  commonNameOf (Some l) = None ->
  commonNameOf (Some (fillMissingFields l))
    = option_map field_value (find shortNamedCN l).
Proof.
  unfold commonNameOf, fillMissingFields.
  induction l as [|a l IH]; [reflexivity|].
  cbn [map find]. rewrite name_is_commonName_filled.
  destruct (name_is_commonName a); [discriminate|].
  cbn [orb]. destruct (shortNamedCN a); [reflexivity|exact IH].
Qed.

(** Completion changes nothing for [find] when every entry has a name. *)
Lemma commonNameOf_filled_named l :
  (forall a, In a l -> field_name a <> None) ->
  commonNameOf (Some (fillMissingFields l)) = commonNameOf (Some l).
Proof.
  unfold commonNameOf, fillMissingFields.
  induction l as [|a l IH]; [reflexivity|].
  intros Hall. cbn [map find]. rewrite name_is_commonName_filled.
  assert (Hs : shortNamedCN a = false).
  { unfold shortNamedCN. specialize (Hall a (or_introl eq_refl)).
    now destruct (field_name a). }
  rewrite Hs, orb_false_r.
  destruct (name_is_commonName a); [reflexivity|].
  apply IH. intros b Hb. apply Hall. now right.
Qed.

(** C8, as the program has it. Without an entry named commonName in the
    attributes and without an explicit name, the name of the key file is
    made from the text undefined: the key goes to undefined.key.pem, the
    write takes place and no error is raised for the name.  In
    [generateRoot] the certificate file is named after the entries as
    forge has completed them by then: after the value of the first entry
    given by the short name CN alone, and undefined.cert.pem when there
    is no such entry either. *)
Theorem missing_commonName_names_file_undefined
    (options : CertificatesOptions) (issuer : option Cert) (w : World) :
  commonNameOf (attrs options) = None ->
  keyFileName options None = "undefined.key.pem"%string
  /\ (forall pk sk,
        generateKeyPair (keyDraws w) (bitsOf options) = Some (pk, sk) ->
        fsLog (snd (createCert options issuer None w)) =
          fsLog w ++
          [WriteFile (path_join (outFolder options) "undefined.key.pem")
                     (keyTowrite (keysOf options pk sk))])
  /\ (pem_roundtrip F ->
      truthy (passphrase options) = false ->
      generateKeyPair (keyDraws w) (bitsOf options) <> None ->
      forgeKnows options ->
      exists c w' keyText certName,
        generateRoot options w = (Returned c, w')
        /\ fsLog w' =
             fsLog w ++
             [Mkdir (outFolder options);
              WriteFile (path_join (outFolder options) "undefined.key.pem")
                        keyText;
              WriteFile (path_join (outFolder options)
                                   (certName ++ ".cert.pem"))
                        (certificateToPem c)]
        /\ certName =
             match attrs options with
             | Some l =>
                 match find shortNamedCN l with
                 | Some a => field_value a
                 | None => "undefined"%string
                 end
             | None => "undefined"%string
             end
        /\ ((forall l a, attrs options = Some l -> In a l ->
                         field_shortName a <> Some "CN"%string) ->
            certName = "undefined"%string)).
Proof.
  intros Hcn.
  assert (Hname : keyFileName options None = "undefined.key.pem"%string).
  { unfold keyFileName. cbn [truthy]. now rewrite Hcn. }
  split; [exact Hname|]. split.
  - intros pk sk Hg. now rewrite createCert_fsLog, Hg, Hname.
  - intros Hpem Hpass Hg _. rewrite generateRoot_run, createCert_root_run.
    cbn [keyDraws].
    destruct (generateKeyPair (keyDraws w) (bitsOf options)) as [[pk sk]|];
      [|congruence].
    cbv zeta. rewrite keyTowrite_plain, Hpem by assumption.
    do 4 eexists. split; [reflexivity|]. split; [|split; [reflexivity|]].
    + cbn [fsLog afterKeyFile]. rewrite Hname, <- !app_assoc. cbn [app].
      do 4 f_equal.
      destruct (attrs options) as [l|]; [|reflexivity].
      cbn [option_map]. rewrite (commonNameOf_filled l Hcn).
      now destruct (find shortNamedCN l).
    + intros Hshort.
      destruct (attrs options) as [l|]; [|reflexivity].
      destruct (find shortNamedCN l) as [a|] eqn:Hfind; [|reflexivity].
      apply find_some in Hfind as [Hin Ha].
      exfalso. apply (Hshort l a eq_refl Hin).
      unfold shortNamedCN in Ha.
      destruct (field_name a); [discriminate|].
      destruct (field_shortName a) as [s|]; [|discriminate].
      cbn in Ha. apply String.eqb_eq in Ha. now subst.
Qed.

(** *** Batches *)

(** A leaf that is returned: what it is, and the world after it. *)
Lemma createCert_leaf_returned_world options R name w leaf w' :
  createCert options (Some R) name w = (Returned leaf, w') ->
  isLeafOf R leaf
  /\ subject leaf = match attrs options with Some a => a | None => [] end
  /\ exists keyText,
       w' = {| fsLog := fsLog w ++
                 [WriteFile (path_join (outFolder options)
                                       (keyFileName options name)) keyText];
               keyDraws := S (keyDraws w);
               clockReads := S (S (clockReads w));
               randomDraws := S (randomDraws w) |}.
Proof.
  intros Hrun. split; [now apply (createCert_leaf_returned _ _ _ _ _ _ Hrun)|].
  pose proof (createCert_leaf_run options R name w) as H.
  rewrite Hrun in H. inversion H; subst.
  split; [reflexivity|]. now eexists.
Qed.

Section Batch.
Variables (options : CertificatesOptions) (count : Z) (prefix : string)
          (R : Cert) (a : list CertificateField).
Hypothesis Hattrs : attrs options = Some a.

Lemma leavesLoop_returned todo : forall res w leaves w',
  leavesLoop options count prefix R todo res w = (Returned leaves, w') ->
  exists keyTexts new,
    leaves = res ++ new
    /\ List.length new = List.length todo
    /\ List.length keyTexts = List.length todo
    /\ fsLog w' = fsLog w ++ batchFiles options count prefix R todo keyTexts new
    /\ Forall2 (batchLeaf count prefix R a) todo new.
Proof.
  induction todo as [|i rest IH]; intros res w leaves w'.
  - cbn. intros [= <- <-]. exists [], []. cbn.
    now rewrite !app_nil_r.
  - cbn [leavesLoop]. unfold bind at 1.
    destruct (createCert _ (Some R) None w) as [[leaf|e] w1] eqn:Hrun;
      [|discriminate].
    destruct (createCert_leaf_returned_world _ _ _ _ _ _ Hrun)
      as (Hleaf & Hsubject & keyText & ->).
    unfold bind at 1. cbn [fs_writeFile fsLog keyDraws clockReads randomDraws].
    intros Hrest. apply IH in Hrest as (keyTexts & new & -> & Hn & Hk & Hlog & Hall).
    exists (keyText :: keyTexts), (leaf :: new).
    split; [now rewrite <- app_assoc|].
    split; [cbn; now rewrite Hn|]. split; [cbn; now rewrite Hk|]. split.
    + rewrite Hlog. cbn [fsLog batchFiles leafFiles outFolder withCommonName].
      now rewrite <- !app_assoc.
    + constructor; [|exact Hall]. split; [|exact Hleaf].
      rewrite Hsubject. cbn [attrs withCommonName]. now rewrite Hattrs.
Qed.

Lemma leavesLoop_succeeds skR pkR todo : forall res w,
  pem_roundtrip F ->
  truthy (passphrase options) = false ->
  privateKey R = Some skR ->
  publicKey R = Some pkR ->
  (forall d, key_verify pkR d (key_sign skR d) = Some true) ->
  (forall j, (j < List.length todo)%nat ->
             generateKeyPair (keyDraws w + j) (bitsOf options) <> None) ->
  exists leaves w',
    leavesLoop options count prefix R todo res w = (Returned leaves, w').
Proof.
  induction todo as [|i rest IH]; intros res w Hpem Hpass HskR HpkR Hv Hg.
  - do 2 eexists. reflexivity.
  - cbn [leavesLoop]. unfold bind at 1.
    destruct (generateKeyPair (keyDraws w) (bitsOf options)) as [[pk sk]|] eqn:Hg0.
    2:{ exfalso. apply (Hg 0%nat); [cbn; lia|]. now rewrite Nat.add_0_r. }
    rewrite (createCert_leaf_succeeds _ R None w pk sk skR pkR);
      try assumption.
    unfold bind at 1. cbn [fs_writeFile].
    apply IH; try assumption.
    intros j Hj. cbn [keyDraws afterKeyFile].
    replace (S (keyDraws w) + j)%nat with (keyDraws w + S j)%nat by lia.
    apply Hg. cbn. lia.
Qed.
End Batch.

Lemma indices_length count : List.length (indices count) = Z.to_nat count.
Proof. unfold indices. now rewrite length_map, length_seq. Qed.

Lemma getLeavesCertificates_run options count prefix R w :
  getLeavesCertificates options count prefix R w =
    (fst (leavesLoop (defaultedOptions options R) count prefix R
                     (indices count) [] w),
     defaultedOptions options R,
     snd (leavesLoop (defaultedOptions options R) count prefix R
                     (indices count) [] w)).
Proof.
  unfold getLeavesCertificates. fold (defaultedOptions options R).
  now destruct (leavesLoop _ count prefix R (indices count) [] w).
Qed.

Lemma defaultedOptions_attrs options R :
  attrs (defaultedOptions options R) = Some (effectiveAttrs options R).
Proof.
  unfold defaultedOptions, effectiveAttrs. now destruct (attrs options) eqn:H.
Qed.

Lemma defaultedOptions_frame options R :
  outFolder (defaultedOptions options R) = outFolder options
  /\ passphrase (defaultedOptions options R) = passphrase options
  /\ bitsOf (defaultedOptions options R) = bitsOf options.
Proof. unfold defaultedOptions. now destruct (attrs options). Qed.

(** C5. A batch that resolves has written, for the indices 1..count in
    this order, the key file of each leaf followed by its chain file: the
    chain file of leaf [i] is named after [prefix] when [count] is 1 and
    after [prefix] followed by [i] when [count] is larger, and holds the
    PEM text of the leaf followed by the PEM text of the root.  The subject
    of each leaf is the attribute list of the options, or else of the
    root, with its common-name entries replaced by the name of the leaf.
    The batch resolves whenever the key pairs are generated, no passphrase
    is set and the key attached to the root matches the root's public
    key. *)
Theorem batch_chain_files (options : CertificatesOptions) (count : Z)
    (prefix : string) (R : Cert) (w : World) :
  (forall leaves options' w',
     getLeavesCertificates options count prefix R w
       = (Returned leaves, options', w') ->
     List.length leaves = Z.to_nat count
     /\ (exists keyTexts,
          List.length keyTexts = Z.to_nat count
          /\ fsLog w' =
               fsLog w ++
               batchFiles options' count prefix R (indices count) keyTexts leaves)
     /\ Forall2 (batchLeaf count prefix R (effectiveAttrs options R))
                (indices count) leaves)
  /\ (count = 1 ->
      indices count = [1] /\ forall i, leafName prefix count i = prefix)
  /\ (1 < count ->
      forall i, leafName prefix count i = (prefix ++ decimal i)%string)
  /\ (forall skR pkR,
        pem_roundtrip F ->
        truthy (passphrase options) = false ->
        privateKey R = Some skR ->
        publicKey R = Some pkR ->
        (forall d, key_verify pkR d (key_sign skR d) = Some true) ->
        (forall j, (j < Z.to_nat count)%nat ->
                   generateKeyPair (keyDraws w + j) (bitsOf options) <> None) ->
        exists leaves options' w',
          getLeavesCertificates options count prefix R w
            = (Returned leaves, options', w')).
Proof.
  split; [|split; [|split]].
  - intros leaves options' w'. rewrite getLeavesCertificates_run.
    destruct (leavesLoop _ count prefix R (indices count) [] w)
      as [out w1] eqn:Hloop.
    cbn [fst snd]. intros [= -> <- <-].
    apply (leavesLoop_returned _ _ _ _ _ (defaultedOptions_attrs options R))
      in Hloop as (keyTexts & new & Hl & Hn & Hk & Hlog & Hall).
    cbn in Hl. subst new. rewrite indices_length in Hn, Hk.
    split; [exact Hn|]. split; [now exists keyTexts|exact Hall].
  - intros ->. split; [reflexivity|]. intros i. apply leafName_single.
  - intros Hc i. now apply leafName_indexed.
  - intros skR pkR Hpem Hpass HskR HpkR Hv Hg.
    rewrite getLeavesCertificates_run.
    destruct (defaultedOptions_frame options R) as (_ & Hp & Hb).
    destruct (leavesLoop_succeeds (defaultedOptions options R) count prefix R
                skR pkR (indices count) [] w) as (leaves & w' & Hloop);
      try assumption.
    + now rewrite Hp.
    + intros j Hj. rewrite Hb. apply Hg. now rewrite <- indices_length.
    + rewrite Hloop. do 3 eexists. reflexivity.
Qed.

(** *** Verification *)

Lemma verify_run options code R w :
  verify options code R w =
    match createCert (withCommonName (defaultedOptions options R) code)
            (Some R) (Some "verification"%string)
            {| fsLog := fsLog w ++ [Mkdir (outFolder options)];
               keyDraws := keyDraws w; clockReads := clockReads w;
               randomDraws := randomDraws w |} with
    | (Returned validated, w1) =>
        (Returned validated, defaultedOptions options R,
         {| fsLog := fsLog w1 ++
              [WriteFile (path_join (outFolder options) "verified.pem")
                         (certificateToPem validated ++ certificateToPem R)];
            keyDraws := keyDraws w1; clockReads := clockReads w1;
            randomDraws := randomDraws w1 |})
    | (Thrown e, w1) => (Thrown e, defaultedOptions options R, w1)
    end.
Proof.
  unfold verify. fold (defaultedOptions options R). cbn [fs_mkdir].
  destruct (defaultedOptions_frame options R) as (-> & _ & _).
  unfold bind at 1.
  now destruct (createCert _ (Some R) (Some "verification"%string) _)
    as [[validated|e] w1].
Qed.

(** C6, as the program has it. The subject of the verification
    certificate is the attribute list of the options, or else of the root,
    with its common-name entries replaced by the code: its common name is
    the code when that list has a common-name entry.  Its issuer is the
    subject of the root, and its chain is written to verified.pem, after
    the directory is made and the key is written to
    verification.key.pem. *)
Theorem verification_certificate (options : CertificatesOptions)
    (code : string) (R : Cert) (w : World) :
  (forall validated options' w',
     verify options code R w = (Returned validated, options', w') ->
     subject validated =
       map (substituteCommonName code) (effectiveAttrs options R)
     /\ (existsb is_commonName (effectiveAttrs options R) = true ->
         commonNameOf (Some (subject validated)) = Some code)
     /\ issuer validated = subject R
     /\ exists keyText,
          fsLog w' =
            fsLog w ++
            [Mkdir (outFolder options);
             WriteFile (path_join (outFolder options) "verification.key.pem")
                       keyText;
             WriteFile (path_join (outFolder options) "verified.pem")
                       (certificateToPem validated ++ certificateToPem R)])
  /\ (forall pk sk skR pkR,
        pem_roundtrip F ->
        truthy (passphrase options) = false ->
        generateKeyPair (keyDraws w) (bitsOf options) = Some (pk, sk) ->
        privateKey R = Some skR ->
        publicKey R = Some pkR ->
        (forall d, key_verify pkR d (key_sign skR d) = Some true) ->
        exists validated options' w',
          verify options code R w = (Returned validated, options', w')).
Proof.
  split.
  - intros validated options' w'. rewrite verify_run.
    destruct (createCert _ (Some R) (Some "verification"%string) _)
      as [[v|e] w1] eqn:Hrun; [|discriminate].
    intros [= <- <- <-].
    destruct (createCert_leaf_returned_world _ _ _ _ _ _ Hrun)
      as ((Hissuer & _) & Hsubject & keyText & ->).
    cbn [attrs withCommonName] in Hsubject.
    rewrite defaultedOptions_attrs in Hsubject. cbn [option_map] in Hsubject.
    split; [exact Hsubject|]. split; [|split; [exact Hissuer|]].
    + intros Hcn. now rewrite Hsubject, commonNameOf_substituted, Hcn.
    + exists keyText. cbn [fsLog outFolder withCommonName].
      destruct (defaultedOptions_frame options R) as (-> & _ & _).
      now rewrite <- !app_assoc.
  - intros pk sk skR pkR Hpem Hpass Hg HskR HpkR Hv.
    rewrite verify_run.
    destruct (defaultedOptions_frame options R) as (_ & Hp & Hb).
    rewrite (createCert_leaf_succeeds _ R _ _ pk sk skR pkR); try assumption.
    + do 3 eexists. reflexivity.
    + cbn [passphrase withCommonName]. now rewrite Hp.
    + cbn [keyDraws].
      change (bitsOf (withCommonName (defaultedOptions options R) code))
        with (bitsOf (defaultedOptions options R)).
      now rewrite Hb.
Qed.

(** *** Key files of batches and verifications *)

Lemma batchFiles_key_file options count prefix R todo :
  forall keyTexts leaves i,
    List.length keyTexts = List.length todo ->
    List.length leaves = List.length todo ->
    In i todo ->
    exists keyText,
      In (WriteFile
            (path_join (outFolder options)
               (keyFileName (withCommonName options (leafName prefix count i))
                            None))
            keyText)
         (batchFiles options count prefix R todo keyTexts leaves).
Proof.
  induction todo as [|j rest IH]; intros keyTexts leaves i Hk Hl Hin;
    [destruct Hin|].
  destruct keyTexts as [|keyText keyTexts]; [discriminate|].
  destruct leaves as [|leaf leaves]; [discriminate|].
  cbn [batchFiles leafFiles]. destruct Hin as [<-|Hin].
  - exists keyText. now left.
  - injection Hk as Hk. injection Hl as Hl.
    destruct (IH keyTexts leaves i Hk Hl Hin) as [text Htext].
    exists text. right. right. exact Htext.
Qed.

(** C9, as the program has it. Whenever the key pair is generated,
    [createCert] writes the key file, and nothing else, whether it then
    returns or throws.  A batch that resolves has written, for each leaf,
    a key file named after the leaf (the prefix alone when [count] is 1,
    the prefix followed by the index when [count] is larger) if the
    attribute list has a common-name entry; a verification writes
    verification.key.pem right after making the directory. *)
Theorem key_file_written_first :
  (forall options issuer name w pk sk,
     generateKeyPair (keyDraws w) (bitsOf options) = Some (pk, sk) ->
     fsLog (snd (createCert options issuer name w)) =
       fsLog w ++
       [WriteFile (path_join (outFolder options) (keyFileName options name))
                  (keyTowrite (keysOf options pk sk))])
  /\ (forall options count prefix R w leaves options' w',
        getLeavesCertificates options count prefix R w
          = (Returned leaves, options', w') ->
        existsb is_commonName (effectiveAttrs options R) = true ->
        forall i, In i (indices count) ->
        exists data,
          In (WriteFile
                (path_join (outFolder options)
                           (leafName prefix count i ++ ".key.pem"))
                data)
             (fsLog w'))
  /\ (forall prefix i, leafName prefix 1 i = prefix)
  /\ (forall prefix count i,
        1 < count -> leafName prefix count i = (prefix ++ decimal i)%string)
  /\ (forall options code R w,
        generateKeyPair (keyDraws w) (bitsOf options) <> None ->
        exists keyText rest,
          fsLog (snd (verify options code R w)) =
            fsLog w ++
            [Mkdir (outFolder options);
             WriteFile (path_join (outFolder options) "verification.key.pem")
                       keyText]
            ++ rest).
Proof.
  split; [|split; [|split; [|split]]].
  - intros options issuer name w pk sk Hg. now rewrite createCert_fsLog, Hg.
  - intros options count prefix R w leaves options' w'.
    rewrite getLeavesCertificates_run.
    destruct (leavesLoop _ count prefix R (indices count) [] w)
      as [out w1] eqn:Hloop.
    cbn [fst snd]. intros [= -> <- <-] Hcn i Hin.
    apply (leavesLoop_returned _ _ _ _ _ (defaultedOptions_attrs options R))
      in Hloop as (keyTexts & new & _ & Hn & Hk & Hlog & _).
    destruct (batchFiles_key_file (defaultedOptions options R) count prefix R
                (indices count) keyTexts new i Hk Hn Hin) as [text Htext].
    rewrite (keyFileName_of_leaf _ _ _ (defaultedOptions_attrs options R)),
      Hcn in Htext.
    destruct (defaultedOptions_frame options R) as (Ho & _ & _).
    rewrite Ho in Htext.
    exists text. rewrite Hlog. apply in_or_app. now right.
  - apply leafName_single.
  - apply leafName_indexed.
  - intros options code R w Hg. rewrite verify_run.
    destruct (defaultedOptions_frame options R) as (Ho & _ & Hb).
    match goal with
    | |- context [createCert ?o ?i ?n ?w0] =>
        pose proof (createCert_fsLog o i n w0) as Hlog;
        destruct (createCert o i n w0) as [[validated|e] w1]
    end;
      cbn [snd fsLog keyDraws] in Hlog |- *;
      change (bitsOf (withCommonName (defaultedOptions options R) code))
        with (bitsOf (defaultedOptions options R)) in Hlog;
      rewrite Hb in Hlog;
      destruct (generateKeyPair (keyDraws w) (bitsOf options)) as [[pk sk]|];
      try congruence;
      rewrite Hlog; cbn [outFolder withCommonName]; rewrite Ho;
      rewrite <- !app_assoc; cbn [app].
    + now exists (keyTowrite (keysOf (withCommonName (defaultedOptions options R) code) pk sk)),
        [WriteFile (path_join (outFolder options) "verified.pem")
                   (certificateToPem validated ++ certificateToPem R)].
    + now exists (keyTowrite (keysOf (withCommonName (defaultedOptions options R) code) pk sk)),
        [].
Qed.

(** *** The caller's options *)

(** C10. When the options have no [attrs], [getLeavesCertificates] and
    [verify] both leave the caller's object with [attrs] holding the
    subject attributes of the root and every other member as it was, an
    object different from the one passed in, whether the call resolves
    or rejects; when [attrs] is present they leave the object as it
    was. *)
Theorem options_attrs_defaulted_in_place (options : CertificatesOptions)
    (count : Z) (prefix code : string) (R : Cert) (w : World) :
  (attrs options = None ->
   optionsAfter (getLeavesCertificates options count prefix R w)
     = {| outFolder := outFolder options; passphrase := passphrase options;
          yearsTTL := yearsTTL options; keyBits := keyBits options;
          attrs := Some (subject R) |}
   /\ optionsAfter (verify options code R w)
      = {| outFolder := outFolder options; passphrase := passphrase options;
           yearsTTL := yearsTTL options; keyBits := keyBits options;
           attrs := Some (subject R) |}
   /\ attrs (optionsAfter (getLeavesCertificates options count prefix R w))
      = Some (subject R)
   /\ attrs (optionsAfter (verify options code R w)) = Some (subject R)
   /\ optionsAfter (getLeavesCertificates options count prefix R w)
      <> options
   /\ optionsAfter (verify options code R w) <> options)
  /\ (attrs options <> None ->
      optionsAfter (getLeavesCertificates options count prefix R w) = options
      /\ optionsAfter (verify options code R w) = options).
Proof.
  assert (Hv : optionsAfter (verify options code R w)
               = defaultedOptions options R).
  { rewrite verify_run.
    now destruct (createCert _ (Some R) (Some "verification"%string) _)
      as [[validated|e] w1]. }
  rewrite Hv, getLeavesCertificates_run. unfold optionsAfter. cbn [fst snd].
  unfold defaultedOptions, assign_attrs. split.
  - intros Hnone. rewrite Hnone.
    assert (Hne : {| outFolder := outFolder options;
                     passphrase := passphrase options;
                     yearsTTL := yearsTTL options; keyBits := keyBits options;
                     attrs := Some (subject R) |} <> options).
    { intros Heq. apply (f_equal attrs) in Heq. cbn in Heq. congruence. }
    split; [reflexivity|]. split; [reflexivity|]. split; [reflexivity|].
    split; [reflexivity|]. split; exact Hne.
  - intros Hsome. now destruct (attrs options).
Qed.

End Runs.

(** ** Concrete runs

    The statements above, run on the executable instance. *)

Section ToyLaws.
Local Existing Instance Toy.forge.

Lemma toy_generated_keys_verify : generated_keys_verify Toy.forge.
Proof.
  intros n bits pk sk d. cbn.
  destruct (bits <=? 0); [discriminate|].
  intros [= <- <-]. now rewrite String.eqb_refl.
Qed.

Lemma toy_pem_roundtrip : pem_roundtrip Toy.forge.
Proof. intros sk. reflexivity. Qed.

Lemma toy_encrypted_pem_rejected : encrypted_pem_rejected Toy.forge.
Proof. intros sk pass. reflexivity. Qed.

Lemma toy_root_key_matches (d : Digest string) :
  key_verify "root-key"%string d (key_sign "root-key"%string d) = Some true.
Proof. reflexivity. Qed.

Lemma toy_valid_noon y m d :
  -271821 < y < 275759 ->
  0 <= m <= 11 -> 1 <= d <= daysInMonth y m -> validDate (Toy.noon y m d).
Proof. intros Hy Hm Hd. unfold validDate. cbn. lia. Qed.

Lemma toy_leap_day_valid : validDate (Toy.noon 2024 1 29).
Proof. apply toy_valid_noon; [lia|lia|]. vm_compute. split; discriminate. Qed.

Lemma toy_half_past_two_valid : validDate Toy.halfPastTwo.
Proof. unfold validDate. vm_compute. intuition discriminate. Qed.
End ToyLaws.

Section ToyRuns.
Local Existing Instance Toy.forge.
Local Open Scope list_scope.

(** Replaces a closed run by its value, in the goal and the hypotheses. *)
Tactic Notation "evaluate" uconstr(run) :=
  let r := fresh "run" in
  let Hr := fresh "Hrun" in
  remember run as r eqn:Hr in *; vm_compute in Hr; subst r.

(** The clock of the runs below shows noon on the 15th of June 2023,
    except where a run says otherwise. *)
Local Existing Instance Toy.june.

(** C1, refuted as worded: with a mismatched key attached to the issuer
    the signing error is thrown, and the key file of the leaf is on disk
    by then. *)
Lemma reverification_aborts_before_any_file_fails :
  ~ reverification_aborts_before_any_file
      (Toy.options (Some Toy.rootAttrs) None) Toy.mismatched None Toy.start.
Proof.
  intros H.
  destruct (H _ _ _ _ eq_refl eq_refl eq_refl) as (w' & Hrun & Hlog).
  vm_compute in Hrun. injection Hrun as <-.
  vm_compute in Hlog. discriminate Hlog.
Qed.

(** C1 on that run: the signing error, and the key file as the only
    file. *)
Lemma leaf_reverification_failure_witness :
  exists w1,
    createCert (Toy.options (Some Toy.rootAttrs) None) (Some Toy.mismatched)
               None Toy.start
      = (Thrown (ThrownString leafError), w1)
    /\ fsLog w1 =
         [WriteFile "out/AzureIoTCentral.key.pem" "RSA PRIVATE KEY:key0"].
Proof.
  eexists.
  destruct (leaf_reverification_failure
              (Toy.options (Some Toy.rootAttrs) None) Toy.mismatched None
              Toy.start _ _ _ _ eq_refl eq_refl eq_refl) as (Hrun & Hlog & _).
  split; [exact Hrun | exact Hlog].
Defined.

(** C2 on a run: a leaf for the common name device, issued by the toy
    root. *)
Lemma leaf_is_issued_by_root_witness :
  exists leaf w',
    createCert (Toy.options (Some [Toy.attr "commonName" "device"]) None)
               (Some Toy.root) None Toy.start
      = (Returned leaf, w')
    /\ isLeafOf Toy.root leaf.
Proof.
  destruct (leaf_is_issued_by_root
              (Toy.options (Some [Toy.attr "commonName" "device"]) None)
              Toy.root None Toy.start) as [Hleaf Hruns].
  destruct (Hruns "key0"%string "key0"%string "root-key"%string
                  "root-key"%string toy_pem_roundtrip eq_refl eq_refl eq_refl
                  eq_refl toy_root_key_matches) as (leaf & w' & Hrun).
  exists leaf, w'. split; [exact Hrun | exact (Hleaf leaf w' Hrun)].
Defined.

(** C3 on a run: the root made from the default attributes. *)
Lemma root_is_self_signed_ca_witness :
  exists c w',
    generateRoot (Toy.options (Some Toy.rootAttrs) None) Toy.start
      = (Returned c, w')
    /\ isSelfSignedCA (Toy.options (Some Toy.rootAttrs) None) 0 c.
Proof.
  destruct (root_is_self_signed_ca
              (Toy.options (Some Toy.rootAttrs) None) None Toy.start)
    as (_ & Hroot & Hruns).
  destruct (Hruns toy_pem_roundtrip eq_refl ltac:(discriminate))
    as (_ & c & w' & Hrun).
  exists c, w'. split; [exact Hrun | exact (Hroot c w' Hrun)].
Defined.

(** C4, refuted as worded: a certificate issued at noon on the 29th of
    February 2024 expires on the 1st of March 2025. *)
Lemma validity_is_same_day_next_year_fails :
  ~ validity_is_same_day_next_year (N := Toy.leapDay)
      (Toy.options (Some Toy.rootAttrs) None) None None Toy.start
      (Toy.noon 2024 1 29).
Proof.
  intros H.
  specialize (H eq_refl eq_refl toy_leap_day_valid).
  evaluate (createCert _ _ _ _).
  destruct (H _ _ eq_refl) as (_ & _ & Hmonth & _).
  vm_compute in Hmonth. discriminate Hmonth.
Qed.

(** C4 on two runs: from the 29th of February 2024 to the 1st of March
    2025; and, on a host that puts its clocks forward on the 8th of March
    2026 at 02:00, from 02:30 on the 8th of March 2025 to 03:30 on the
    8th of March 2026. *)
Lemma validity_window_witness :
  (exists c w',
     createCert (N := Toy.leapDay)
                (Toy.options (Some Toy.rootAttrs) None) None None Toy.start
       = (Returned c, w')
     /\ notBefore c = Toy.noon 2024 1 29
     /\ fullYear (notAfter c) = 2025
     /\ month (notAfter c) = 2
     /\ date (notAfter c) = 1
     /\ timeInDay (notAfter c) = 43200000)
  /\ (exists c w',
        createCert (N := Toy.beforeTheGap)
                   (Toy.options (Some Toy.rootAttrs) None) None None Toy.start
          = (Returned c, w')
        /\ notBefore c = Toy.halfPastTwo
        /\ notAfter c =
             {| fullYear := 2026; month := 2; date := 8;
                timeInDay := 12600000 |}).
Proof.
  split.
  - pose proof (validity_window (N := Toy.leapDay)
                  (Toy.options (Some Toy.rootAttrs) None) None None Toy.start
                  (Toy.noon 2024 1 29)) as H.
    evaluate (createCert _ _ _ _).
    do 2 eexists. split; [reflexivity|].
    destruct (H _ _ eq_refl eq_refl toy_leap_day_valid eq_refl)
      as (Hnb & _ & Hzone).
    destruct (Hzone eq_refl) as (Hyear & Htime & _ & Hcarry).
    split; [exact Hnb|]. split; [exact Hyear|].
    destruct (Hcarry (conj eq_refl eq_refl)) as [Hm Hd].
    split; [exact Hm|]. split; [exact Hd|exact Htime].
  - pose proof (validity_window (N := Toy.beforeTheGap)
                  (Toy.options (Some Toy.rootAttrs) None) None None Toy.start
                  Toy.halfPastTwo) as H.
    evaluate (createCert _ _ _ _).
    do 2 eexists. split; [reflexivity|].
    destruct (H _ _ eq_refl eq_refl toy_half_past_two_valid eq_refl)
      as (Hnb & Hna & _).
    split; [exact Hnb|exact Hna].
Defined.

(** C5 on a run: three leaves with prefix dev. *)
Lemma batch_chain_files_witness :
  exists leaves options' w',
    getLeavesCertificates (Toy.options None None) 3 "dev" Toy.root Toy.start
      = (Returned leaves, options', w')
    /\ List.length leaves = 3%nat
    /\ map (fun c => commonNameOf (Some (subject c))) leaves
       = [Some "dev1"; Some "dev2"; Some "dev3"]%string
    /\ fsLog w' =
         [WriteFile "out/dev1.key.pem" "RSA PRIVATE KEY:key0";
          WriteFile "out/dev1.pem"
            "CERTIFICATE:dev1#5;CERTIFICATE:AzureIoTCentral#1;";
          WriteFile "out/dev2.key.pem" "RSA PRIVATE KEY:key1";
          WriteFile "out/dev2.pem"
            "CERTIFICATE:dev2#42;CERTIFICATE:AzureIoTCentral#1;";
          WriteFile "out/dev3.key.pem" "RSA PRIVATE KEY:key2";
          WriteFile "out/dev3.pem"
            "CERTIFICATE:dev3#79;CERTIFICATE:AzureIoTCentral#1;"].
Proof.
  destruct (batch_chain_files (Toy.options None None) 3 "dev" Toy.root
              Toy.start) as (Hbatch & _).
  evaluate (getLeavesCertificates _ _ _ _ _).
  do 3 eexists. split; [reflexivity|].
  destruct (Hbatch _ _ _ eq_refl) as (Hlen & _).
  split; [exact Hlen|]. split; reflexivity.
Defined.

(** C6, refuted as worded: for a root without a common name the
    verification certificate has no common name either. *)
Lemma verification_subject_is_code_fails :
  ~ verification_subject_is_code (Toy.options None None) "CODE42"
      Toy.nameless Toy.start.
Proof.
  intros H. unfold verification_subject_is_code in H.
  evaluate (verify _ _ _ _).
  destruct (H _ _ _ eq_refl) as (Hcn & _).
  vm_compute in Hcn. discriminate Hcn.
Qed.

(** C6 on a run: the code CODE42 against the toy root. *)
Lemma verification_certificate_witness :
  exists validated options' w',
    verify (Toy.options None None) "CODE42" Toy.root Toy.start
      = (Returned validated, options', w')
    /\ commonNameOf (Some (subject validated)) = Some "CODE42"%string
    /\ issuer validated = subject Toy.root.
Proof.
  destruct (verification_certificate (Toy.options None None) "CODE42"
              Toy.root Toy.start) as (Hverify & _).
  evaluate (verify _ _ _ _).
  do 3 eexists. split; [reflexivity|].
  destruct (Hverify _ _ _ eq_refl) as (_ & Hcn & Hissuer & _).
  split; [exact (Hcn eq_refl) | exact Hissuer].
Defined.

(** C7 on a run: the passphrase secret. *)
Lemma passphrase_breaks_issuance_witness :
  exists w',
    createCert (Toy.options (Some Toy.rootAttrs) (Some "secret")) None None
               Toy.start
      = (Thrown (ForgeError "Could not convert private key from PEM"), w')
    /\ fsLog w' =
         [WriteFile "out/AzureIoTCentral.key.pem" "ENCRYPTED PRIVATE KEY:key0"].
Proof.
  destruct (passphrase_breaks_issuance (F := Toy.forge)
              (Toy.options (Some Toy.rootAttrs) (Some "secret")) None None
              Toy.start "secret" "key0"%string "key0"%string
              toy_encrypted_pem_rejected eq_refl ltac:(discriminate) eq_refl)
    as (_ & w' & Hrun & Hlog).
  exists w'. split; [exact Hrun | exact Hlog].
Defined.

(** C8, refuted as worded: without a common name the call goes through
    and the key is written to undefined.key.pem. *)
Lemma missing_commonName_is_an_error_fails :
  ~ missing_commonName_is_an_error
      (Toy.options (Some [Toy.attr "countryName" "US"]) None) None Toy.start.
Proof.
  intros H. destruct (H eq_refl) as (e & w' & Hrun & _).
  vm_compute in Hrun. discriminate Hrun.
Qed.

(** C8 on two runs: a root with a country only goes to
    undefined.key.pem and undefined.cert.pem; a root whose common name is
    given by the short name CN goes to undefined.key.pem, and to a
    certificate file named after the value. *)
Lemma missing_commonName_names_file_undefined_witness :
  (exists c w' keyText,
     generateRoot (Toy.options (Some [Toy.attr "countryName" "US"]) None)
                  Toy.start
       = (Returned c, w')
     /\ fsLog w' =
          [Mkdir "out";
           WriteFile "out/undefined.key.pem" keyText;
           WriteFile "out/undefined.cert.pem" (certificateToPem c)])
  /\ (exists c w' keyText,
        generateRoot (Toy.options (Some [Toy.short_attr "CN" "dev"]) None)
                     Toy.start
          = (Returned c, w')
        /\ fsLog w' =
             [Mkdir "out";
              WriteFile "out/undefined.key.pem" keyText;
              WriteFile "out/dev.cert.pem" (certificateToPem c)]).
Proof.
  assert (Hknown : forall l,
            (forall a, In a l ->
               field_name a <> None \/ field_shortName a <> None) ->
            forgeKnows (Toy.options (Some l) None)).
  { intros l Hl l' a [= <-] Hin. specialize (Hl a Hin). cbn.
    destruct (field_name a); [discriminate|]. now destruct Hl. }
  split.
  - destruct (missing_commonName_names_file_undefined
                (Toy.options (Some [Toy.attr "countryName" "US"]) None) None
                Toy.start eq_refl) as (_ & _ & Hroot).
    destruct (Hroot toy_pem_roundtrip eq_refl ltac:(discriminate))
      as (c & w' & keyText & certName & Hrun & Hlog & Hcert & _).
    { apply Hknown. intros a [<-|[]]. left. discriminate. }
    exists c, w', keyText. split; [exact Hrun|].
    rewrite Hlog, Hcert. reflexivity.
  - destruct (missing_commonName_names_file_undefined
                (Toy.options (Some [Toy.short_attr "CN" "dev"]) None) None
                Toy.start eq_refl) as (_ & _ & Hroot).
    destruct (Hroot toy_pem_roundtrip eq_refl ltac:(discriminate))
      as (c & w' & keyText & certName & Hrun & Hlog & Hcert & _).
    { apply Hknown. intros a [<-|[]]. right. discriminate. }
    exists c, w', keyText. split; [exact Hrun|].
    rewrite Hlog, Hcert. reflexivity.
Defined.

(** C9, refuted as worded: a batch of one leaf with prefix dev writes
    dev.key.pem, not dev1.key.pem. *)
Lemma batch_key_file_is_prefix_index_fails :
  ~ batch_key_file_is_prefix_index (Toy.options None None) 1 "dev" Toy.root
      Toy.start.
Proof.
  intros H. unfold batch_key_file_is_prefix_index in H.
  evaluate (getLeavesCertificates _ _ _ _ _).
  destruct (H _ _ _ eq_refl 1 (or_introl eq_refl)) as (data & Hin).
  vm_compute in Hin. destruct Hin as [Hin|[Hin|[]]]; discriminate Hin.
Qed.

(** C9 on two runs: a leaf issuance that throws, and the batch of one
    leaf. *)
Lemma key_file_written_first_witness :
  fsLog (snd (createCert (Toy.options (Some Toy.rootAttrs) None)
                         (Some Toy.mismatched) None Toy.start))
    = [WriteFile "out/AzureIoTCentral.key.pem" "RSA PRIVATE KEY:key0"]
  /\ exists data,
       In (WriteFile "out/dev.key.pem" data)
          (fsLog (snd (getLeavesCertificates (Toy.options None None) 1 "dev"
                                             Toy.root Toy.start))).
Proof.
  destruct key_file_written_first as (Hkey & Hbatch & _).
  split.
  - exact (Hkey (Toy.options (Some Toy.rootAttrs) None) (Some Toy.mismatched)
                None Toy.start "key0"%string "key0"%string eq_refl).
  - specialize (Hbatch (Toy.options None None) 1 "dev"%string Toy.root
                       Toy.start).
    evaluate (getLeavesCertificates _ _ _ _ _).
    exact (Hbatch _ _ _ eq_refl eq_refl 1 (or_introl eq_refl)).
Defined.
(** C10 on three runs: a batch and a verification called without
    [attrs], and a verification called with them. *)
Lemma options_attrs_defaulted_in_place_witness :
  attrs (optionsAfter (getLeavesCertificates (Toy.options None None) 2 "dev"
                                             Toy.root Toy.start))
    = Some Toy.rootAttrs
  /\ attrs (optionsAfter (verify (Toy.options None None) "CODE42" Toy.root
                                 Toy.start))
     = Some Toy.rootAttrs
  /\ optionsAfter (verify (Toy.options (Some [Toy.attr "commonName" "x"]) None)
                          "CODE42" Toy.root Toy.start)
     = Toy.options (Some [Toy.attr "commonName" "x"]) None.
Proof.
  destruct (options_attrs_defaulted_in_place (Toy.options None None) 2 "dev"
              "CODE42" Toy.root Toy.start) as [Hnone _].
  destruct (Hnone eq_refl) as (_ & _ & Hbatch & Hverify & _).
  destruct (options_attrs_defaulted_in_place
              (Toy.options (Some [Toy.attr "commonName" "x"]) None) 2 "dev"
              "CODE42" Toy.root Toy.start) as [_ Hsome].
  destruct (Hsome ltac:(discriminate)) as [_ Hkept].
  split; [exact Hbatch|]. split; [exact Hverify|exact Hkept].
Defined.
End ToyRuns.

(** ** Further properties of issuance *)

Section MoreRuns.
Context {F : Forge} {N : Node}.
Local Open Scope list_scope.

(** *** Failures *)

(** How a leaf issuance that throws leaves the log: untouched when the
    generator failed, with the key file otherwise. *)
Lemma createCert_leaf_thrown options R name w e w' :
  createCert options (Some R) name w = (Thrown e, w') ->
  (e = KeyGenerationError /\ fsLog w' = fsLog w)
  \/ (e <> KeyGenerationError
      /\ exists keyText,
           fsLog w' =
             fsLog w ++
             [WriteFile (path_join (outFolder options) (keyFileName options name))
                        keyText]).
Proof.
  intros Hrun. pose proof (createCert_leaf_run options R name w) as H.
  rewrite Hrun in H. inversion H; subst.
  - now left.
  - right. split; [discriminate|]. now eexists.
  - right. split; [discriminate|]. now eexists.
  - right. split; [discriminate|]. now eexists.
  - right. split; [discriminate|]. now eexists.
Qed.

Lemma leavesLoop_thrown options count prefix R a :
  attrs options = Some a ->
  forall todo res w e w',
    leavesLoop options count prefix R todo res w = (Thrown e, w') ->
    exists done i rest keyTexts leaves tail,
      todo = done ++ i :: rest
      /\ List.length leaves = List.length done
      /\ List.length keyTexts = List.length done
      /\ Forall2 (batchLeaf count prefix R a) done leaves
      /\ fsLog w' =
           fsLog w ++ batchFiles options count prefix R done keyTexts leaves
                   ++ tail
      /\ ((e = KeyGenerationError /\ tail = [])
          \/ (e <> KeyGenerationError
              /\ exists keyText,
                   tail =
                     [WriteFile
                        (path_join (outFolder options)
                           (keyFileName
                              (withCommonName options (leafName prefix count i))
                              None))
                        keyText])).
Proof.
  intros Hattrs todo.
  induction todo as [|i rest IH]; intros res w e w'; [discriminate|].
  cbn [leavesLoop]. unfold bind at 1.
  destruct (createCert _ (Some R) None w) as [[leaf|e1] w1] eqn:Hrun.
  - destruct (createCert_leaf_returned_world _ _ _ _ _ _ Hrun)
      as (Hleaf & Hsubject & keyText & ->).
    unfold bind at 1. cbn [fs_writeFile fsLog keyDraws clockReads randomDraws].
    intros Hrest.
    apply IH in Hrest
      as (done & j & rest' & keyTexts & leaves & tail
          & -> & Hl & Hk & Hall & Hlog & Htail).
    exists (i :: done), j, rest', (keyText :: keyTexts), (leaf :: leaves), tail.
    split; [reflexivity|]. split; [cbn; now rewrite Hl|].
    split; [cbn; now rewrite Hk|]. split.
    + constructor; [|exact Hall]. split; [|exact Hleaf].
      rewrite Hsubject. cbn [attrs withCommonName]. now rewrite Hattrs.
    + split; [|exact Htail]. rewrite Hlog.
      cbn [fsLog batchFiles leafFiles outFolder withCommonName].
      now rewrite <- !app_assoc.
  - intros [= <- <-].
    exists [], i, rest, [], [], (skipn (List.length (fsLog w)) (fsLog w1)).
    split; [reflexivity|]. split; [reflexivity|]. split; [reflexivity|].
    split; [constructor|]. cbn [batchFiles app].
    destruct (createCert_leaf_thrown _ _ _ _ _ _ Hrun)
      as [[-> Hlog]|[Hne [keyText Hlog]]]; rewrite Hlog.
    + rewrite skipn_all. rewrite app_nil_r. split; [reflexivity|]. now left.
    + rewrite skipn_app, skipn_all, Nat.sub_diag. cbn [skipn app].
      split; [reflexivity|]. right. split; [exact Hne|]. now exists keyText.
Qed.

(** X1. A batch that fails keeps what it has written: the files of the
    leaves issued before the failing one stay, the failing leaf has its
    key file at most (none when the key generator is what failed) and
    never its chain file, and no later leaf is tried. *)
Theorem batch_failure_keeps_earlier_files (options : CertificatesOptions)
    (count : Z) (prefix : string) (R : Cert) (w : World) (e : Exception)
    (options' : CertificatesOptions) (w' : World) :
  getLeavesCertificates options count prefix R w = (Thrown e, options', w') ->
  exists done i rest keyTexts leaves tail,
    indices count = done ++ i :: rest
    /\ List.length leaves = List.length done
    /\ List.length keyTexts = List.length done
    /\ Forall2 (batchLeaf count prefix R (effectiveAttrs options R)) done leaves
    /\ fsLog w' =
         fsLog w ++ batchFiles options' count prefix R done keyTexts leaves
                 ++ tail
    /\ ((e = KeyGenerationError /\ tail = [])
        \/ (e <> KeyGenerationError
            /\ exists keyText,
                 tail =
                   [WriteFile
                      (path_join (outFolder options)
                         (keyFileName
                            (withCommonName options' (leafName prefix count i))
                            None))
                      keyText])).
Proof.
  rewrite getLeavesCertificates_run.
  destruct (leavesLoop _ count prefix R (indices count) [] w)
    as [out w1] eqn:Hloop.
  cbn [fst snd]. intros [= -> <- <-].
  destruct (leavesLoop_thrown _ _ _ _ _ (defaultedOptions_attrs options R)
              _ _ _ _ _ Hloop)
    as (done & i & rest & keyTexts & leaves & tail & H).
  destruct (defaultedOptions_frame options R) as (Ho & _ & _).
  rewrite Ho in H.
  now exists done, i, rest, keyTexts, leaves, tail.
Qed.

(** X2. When the key generator fails nothing is written for the
    certificate: [createCert] throws the generator's error with the log
    as it was, [generateRoot] and [verify] have made the directory and
    nothing else, and [verify] has still put the root's subject in the
    caller's options. *)
Theorem key_generation_failure_writes_nothing (options : CertificatesOptions)
    (issuer : option Cert) (name : option string) (code : string) (R : Cert)
    (w : World) :
  generateKeyPair (keyDraws w) (bitsOf options) = None ->
  (fst (createCert options issuer name w) = Thrown KeyGenerationError
   /\ fsLog (snd (createCert options issuer name w)) = fsLog w)
  /\ (fst (generateRoot options w) = Thrown KeyGenerationError
      /\ fsLog (snd (generateRoot options w))
         = fsLog w ++ [Mkdir (outFolder options)])
  /\ (fst (fst (verify options code R w)) = Thrown KeyGenerationError
      /\ fsLog (snd (verify options code R w))
         = fsLog w ++ [Mkdir (outFolder options)]
      /\ attrs (optionsAfter (verify options code R w))
         = Some (effectiveAttrs options R)).
Proof.
  intros Hg.
  assert (Hcreate : forall o i n w0,
            keyDraws w0 = keyDraws w -> bitsOf o = bitsOf options ->
            createCert o i n w0 =
              (Thrown KeyGenerationError,
               {| fsLog := fsLog w0; keyDraws := S (keyDraws w0);
                  clockReads := clockReads w0;
                  randomDraws := randomDraws w0 |})).
  { intros o i n w0 Hk Hb.
    now rewrite createCert_run, prepareCert_run, Hk, Hb, Hg. }
  split; [|split].
  - now rewrite Hcreate.
  - rewrite generateRoot_run, Hcreate by reflexivity. now split.
  - rewrite verify_run.
    destruct (defaultedOptions_frame options R) as (_ & _ & Hb).
    rewrite Hcreate by (reflexivity || exact Hb).
    unfold optionsAfter. cbn [fst snd fsLog].
    split; [reflexivity|]. split; [reflexivity|].
    apply defaultedOptions_attrs.
Qed.

(** X3. An issuer without a private key attached (a certificate as it
    comes back from a PEM file) cannot issue: [createCert] throws a type
    error, after the key file of the leaf is written. *)
Theorem issuer_without_private_key (options : CertificatesOptions) (R : Cert)
    (name : option string) (w : World) (pk : PublicKey) (sk : PrivateKey) :
  pem_roundtrip F ->
  truthy (passphrase options) = false ->
  generateKeyPair (keyDraws w) (bitsOf options) = Some (pk, sk) ->
  privateKey R = None ->
  exists message w',
    createCert options (Some R) name w = (Thrown (TypeError message), w')
    /\ fsLog w' =
         fsLog w ++
         [WriteFile (path_join (outFolder options) (keyFileName options name))
                    (privateKeyToPem sk)].
Proof.
  intros Hpem Hpass Hg HR.
  rewrite createCert_run, prepareCert_run, Hg. cbv zeta.
  rewrite keyTowrite_plain, Hpem by assumption.
  cbn [fst snd signCert]. rewrite HR. cbn [cert_sign].
  do 2 eexists. split; [reflexivity|].
  cbn [afterKeyFile fsLog]. now rewrite keyTowrite_plain.
Qed.

(** *** The stored key *)

(** X4. An empty passphrase is no passphrase: the whole run of
    [createCert] is the one without it, and the key file holds the clear
    PEM text. *)
Theorem empty_passphrase_is_no_passphrase (options : CertificatesOptions)
    (issuer : option Cert) (name : option string) (w : World) :
  passphrase options = Some ""%string ->
  createCert options issuer name w
    = createCert (assign_passphrase None options) issuer name w
  /\ forall pk sk,
       generateKeyPair (keyDraws w) (bitsOf options) = Some (pk, sk) ->
       fsLog (snd (createCert options issuer name w)) =
         fsLog w ++
         [WriteFile (path_join (outFolder options) (keyFileName options name))
                    (privateKeyToPem sk)].
Proof.
  intros Hpass. split.
  - destruct options as [folder pass ttl bits a]. cbn in Hpass. subst pass.
    reflexivity.
  - intros pk sk Hg. rewrite createCert_fsLog, Hg.
    rewrite keyTowrite_plain; [reflexivity|]. now rewrite Hpass.
Qed.

(** X5. The private key attached to a certificate that [createCert]
    returns is what [privateKeyFromPem] reads from the text written to the
    key file, and its public key is the generated one: with a PEM codec
    that reads back what it writes, the certificate carries the generated
    pair. *)
Theorem attached_key_is_the_stored_key (options : CertificatesOptions)
    (issuer : option Cert) (name : option string) (w : World) (c : Cert)
    (w' : World) :
  createCert options issuer name w = (Returned c, w') ->
  exists pk sk keyText,
    generateKeyPair (keyDraws w) (bitsOf options) = Some (pk, sk)
    /\ fsLog w' =
         fsLog w ++
         [WriteFile (path_join (outFolder options) (keyFileName options name))
                    keyText]
    /\ publicKey c = Some pk
    /\ privateKey c = privateKeyFromPem keyText
    /\ (pem_roundtrip F -> truthy (passphrase options) = false ->
        keyText = privateKeyToPem sk /\ privateKey c = Some sk).
Proof.
  intros Hrun.
  assert (H : exists pk sk parsed,
            generateKeyPair (keyDraws w) (bitsOf options) = Some (pk, sk)
            /\ privateKeyFromPem (keyTowrite (keysOf options pk sk)) = Some parsed
            /\ publicKey c = Some pk /\ privateKey c = Some parsed
            /\ w' = afterKeyFile options name (keysOf options pk sk) 2 1 w).
  { destruct issuer as [R|].
    - pose proof (createCert_leaf_run options R name w) as H.
      rewrite Hrun in H. inversion H; subst. now exists pk, sk, parsed.
    - rewrite createCert_root_run in Hrun.
      destruct (generateKeyPair (keyDraws w) (bitsOf options)) as [[pk sk]|];
        [|discriminate].
      cbv zeta in Hrun.
      destruct (privateKeyFromPem (keyTowrite (keysOf options pk sk)))
        as [parsed|] eqn:Hp; [|discriminate].
      injection Hrun as <- <-. now exists pk, sk, parsed. }
  destruct H as (pk & sk & parsed & Hg & Hp & Hpk & Hsk & ->).
  exists pk, sk, (keyTowrite (keysOf options pk sk)).
  split; [exact Hg|]. split; [reflexivity|]. split; [exact Hpk|].
  split; [now rewrite Hsk, Hp|].
  intros Hpem Hpass. rewrite keyTowrite_plain in * by assumption.
  split; [reflexivity|]. rewrite Hpem in Hp. now rewrite Hsk, Hp.
Qed.

(** *** What each leaf of a batch draws *)

(** A returned leaf, by what the call drew: the key pair, the serial
    number, and the counters afterwards. *)
Lemma createCert_leaf_returned_draws options R name w leaf w' :
  createCert options (Some R) name w = (Returned leaf, w') ->
  (exists pk sk,
     generateKeyPair (keyDraws w) (bitsOf options) = Some (pk, sk)
     /\ publicKey leaf = Some pk
     /\ privateKey leaf = privateKeyFromPem (keyTowrite (keysOf options pk sk)))
  /\ serialNumber leaf = decimal (random_1000 (randomDraws w))
  /\ keyDraws w' = S (keyDraws w)
  /\ randomDraws w' = S (randomDraws w).
Proof.
  intros Hrun. pose proof (createCert_leaf_run options R name w) as H.
  rewrite Hrun in H. inversion H; subst.
  split; [|now repeat split].
  exists pk, sk. split; [assumption|]. split; [reflexivity|].
  cbn. now symmetry.
Qed.

Lemma leavesLoop_returned_draws options count prefix R todo :
  forall res w leaves w',
    leavesLoop options count prefix R todo res w = (Returned leaves, w') ->
    exists new,
      leaves = res ++ new
      /\ forall j leaf,
           nth_error new j = Some leaf ->
           (exists pk sk,
              generateKeyPair (keyDraws w + j) (bitsOf options) = Some (pk, sk)
              /\ publicKey leaf = Some pk
              /\ privateKey leaf
                 = privateKeyFromPem (keyTowrite (keysOf options pk sk)))
           /\ serialNumber leaf = decimal (random_1000 (randomDraws w + j)).
Proof.
  induction todo as [|i rest IH]; intros res w leaves w'.
  - cbn. intros [= <- <-]. exists []. split; [now rewrite app_nil_r|].
    intros [|j] leaf; discriminate.
  - cbn [leavesLoop]. unfold bind at 1.
    destruct (createCert _ (Some R) None w) as [[leaf|e] w1] eqn:Hrun;
      [|discriminate].
    destruct (createCert_leaf_returned_draws _ _ _ _ _ _ Hrun)
      as (Hkeys & Hserial & Hk & Hr).
    unfold bind at 1. cbn [fs_writeFile].
    intros Hrest. apply IH in Hrest as (new & -> & Hnew).
    cbn [keyDraws randomDraws] in Hnew. rewrite Hk, Hr in Hnew.
    exists (leaf :: new). split; [now rewrite <- app_assoc|].
    intros [|j] leaf'; cbn [nth_error].
    + intros [= <-]. rewrite !Nat.add_0_r. now split.
    + intros Hj. replace (keyDraws w + S j)%nat with (S (keyDraws w) + j)%nat by lia.
      replace (randomDraws w + S j)%nat with (S (randomDraws w) + j)%nat by lia.
      now apply Hnew.
Qed.

Lemma getLeavesCertificates_draws options count prefix R w leaves options' w' :
  getLeavesCertificates options count prefix R w
    = (Returned leaves, options', w') ->
  forall j leaf,
    nth_error leaves j = Some leaf ->
    (exists pk sk,
       generateKeyPair (keyDraws w + j) (bitsOf options) = Some (pk, sk)
       /\ publicKey leaf = Some pk
       /\ privateKey leaf
          = privateKeyFromPem (keyTowrite (keysOf options pk sk)))
    /\ serialNumber leaf = decimal (random_1000 (randomDraws w + j)).
Proof.
  rewrite getLeavesCertificates_run.
  destruct (leavesLoop _ count prefix R (indices count) [] w)
    as [out w1] eqn:Hloop.
  cbn [fst snd]. intros [= -> <- <-].
  apply leavesLoop_returned_draws in Hloop as (new & Hl & Hnew).
  cbn in Hl. subst new.
  destruct (defaultedOptions_frame options R) as (_ & Hp & Hb).
  intros j leaf Hj. destruct (Hnew j leaf Hj) as ((pk & sk & Hg & Hpk & Hsk) & Hs).
  split; [|exact Hs]. exists pk, sk. rewrite Hb in Hg.
  split; [exact Hg|]. split; [exact Hpk|].
  rewrite Hsk. do 2 f_equal. unfold keysOf, encryptedKeyOf. now rewrite Hp.
Qed.

(** X6. Every leaf of a batch has a key pair of its own: leaf number [j]
    (from 0) carries the public key of the [j]-th pair generated during
    the call, and the private key read back from that pair's key text. *)
Theorem batch_leaf_has_its_own_key (options : CertificatesOptions)
    (count : Z) (prefix : string) (R : Cert) (w : World)
    (leaves : list Cert) (options' : CertificatesOptions) (w' : World)
    (j : nat) (leaf : Cert) :
  getLeavesCertificates options count prefix R w
    = (Returned leaves, options', w') ->
  nth_error leaves j = Some leaf ->
  exists pk sk,
    generateKeyPair (keyDraws w + j) (bitsOf options) = Some (pk, sk)
    /\ publicKey leaf = Some pk
    /\ privateKey leaf = privateKeyFromPem (keyTowrite (keysOf options pk sk)).
Proof.
  intros Hrun Hj.
  now destruct (getLeavesCertificates_draws _ _ _ _ _ _ _ _ Hrun j leaf Hj).
Qed.

Lemma decimal_below_1000 (r : Z) :
  0 <= r < 1000 -> (String.length (decimal r) <= 3)%nat.
Proof.
  intros Hr.
  assert (Hall : forallb (fun n => (String.length (decimal (Z.of_nat n)) <=? 3)%nat)
                         (seq 0 1000) = true) by (vm_compute; reflexivity).
  rewrite forallb_forall in Hall.
  specialize (Hall (Z.to_nat r)). rewrite Z2Nat.id in Hall by lia.
  apply Nat.leb_le, Hall, in_seq. lia.
Qed.

(** X7. The serial number of a certificate is the decimal text of the
    random draw of its call, at most three digits for a draw below 1000;
    nothing keeps serial numbers apart: two leaves of one batch have the
    same serial number whenever their draws are the same. *)
Theorem serial_number_is_the_draw (options : CertificatesOptions) :
  (forall issuer name w c w',
     createCert options issuer name w = (Returned c, w') ->
     serialNumber c = decimal (random_1000 (randomDraws w))
     /\ (0 <= random_1000 (randomDraws w) < 1000 ->
         (String.length (serialNumber c) <= 3)%nat))
  /\ (forall count prefix R w leaves options' w' j k leafj leafk,
        getLeavesCertificates options count prefix R w
          = (Returned leaves, options', w') ->
        nth_error leaves j = Some leafj ->
        nth_error leaves k = Some leafk ->
        random_1000 (randomDraws w + j) = random_1000 (randomDraws w + k) ->
        serialNumber leafj = serialNumber leafk).
Proof.
  split.
  - intros issuer name w c w' Hrun.
    assert (Hs : serialNumber c = decimal (random_1000 (randomDraws w))).
    { destruct issuer as [R|].
      - now destruct (createCert_leaf_returned_draws _ _ _ _ _ _ Hrun)
          as (_ & Hs & _).
      - rewrite createCert_root_run in Hrun.
        destruct (generateKeyPair (keyDraws w) (bitsOf options)) as [[pk sk]|];
          [|discriminate].
        cbv zeta in Hrun.
        destruct (privateKeyFromPem (keyTowrite (keysOf options pk sk)));
          [|discriminate].
        now injection Hrun as <- _. }
    split; [exact Hs|]. intros Hr. rewrite Hs. now apply decimal_below_1000.
  - intros count prefix R w leaves options' w' j k leafj leafk Hrun Hj Hk Heq.
    destruct (getLeavesCertificates_draws _ _ _ _ _ _ _ _ Hrun j leafj Hj)
      as (_ & ->).
    destruct (getLeavesCertificates_draws _ _ _ _ _ _ _ _ Hrun k leafk Hk)
      as (_ & ->).
    now rewrite Heq.
Qed.

(** *** Edges of a batch *)

(** X8. A count of zero or less issues nothing: the call resolves with no
    certificate and writes no file, and the caller's options still get the
    root's subject when they had no attributes. *)
Theorem batch_of_nothing (options : CertificatesOptions) (count : Z)
    (prefix : string) (R : Cert) (w : World) :
  count <= 0 ->
  getLeavesCertificates options count prefix R w
    = (Returned [],
       match attrs options with
       | None => assign_attrs options (subject R)
       | Some _ => options
       end,
       w).
Proof.
  intros Hc. unfold getLeavesCertificates, indices.
  replace (Z.to_nat count) with 0%nat by lia. reflexivity.
Qed.

Lemma keyFileName_withCommonName_undefined options value :
  existsb is_commonName
    (match attrs options with Some a => a | None => [] end) = false ->
  keyFileName (withCommonName options value) None = "undefined.key.pem"%string.
Proof.
  intros Hcn. destruct (attrs options) as [a|] eqn:Ha.
  - now rewrite (keyFileName_of_leaf _ _ _ Ha), Hcn.
  - unfold keyFileName, withCommonName. cbn [truthy attrs]. now rewrite Ha.
Qed.

Lemma batchFiles_undefined_keys options count prefix R todo :
  (forall i, keyFileName (withCommonName options (leafName prefix count i)) None
             = "undefined.key.pem"%string) ->
  forall keyTexts leaves,
    List.length keyTexts = List.length todo ->
    List.length leaves = List.length todo ->
    forall keyText,
      In keyText keyTexts ->
      In (WriteFile (path_join (outFolder options) "undefined.key.pem") keyText)
         (batchFiles options count prefix R todo keyTexts leaves).
Proof.
  intros Hname.
  induction todo as [|i rest IH]; intros keyTexts leaves Hk Hl keyText Hin.
  - destruct keyTexts; [destruct Hin|discriminate].
  - destruct keyTexts as [|text keyTexts]; [discriminate|].
    destruct leaves as [|leaf leaves]; [discriminate|].
    cbn [batchFiles]. unfold leafFiles at 1. rewrite Hname.
    destruct Hin as [<-|Hin]; [now left|].
    right. right. injection Hk as Hk. injection Hl as Hl. now apply IH.
Qed.

(** X9. When the attribute list of a batch has no common-name entry, the
    keys of all its leaves are written to one and the same path,
    undefined.key.pem; the chain files keep their own names. *)
Theorem batch_without_commonName_shares_key_file
    (options : CertificatesOptions) (count : Z) (prefix : string) (R : Cert)
    (w : World) (leaves : list Cert) (options' : CertificatesOptions)
    (w' : World) :
  existsb is_commonName (effectiveAttrs options R) = false ->
  getLeavesCertificates options count prefix R w
    = (Returned leaves, options', w') ->
  exists keyTexts,
    List.length keyTexts = Z.to_nat count
    /\ fsLog w' =
         fsLog w ++
         batchFiles options' count prefix R (indices count) keyTexts leaves
    /\ (forall i,
          keyFileName (withCommonName options' (leafName prefix count i)) None
            = "undefined.key.pem"%string)
    /\ forall keyText,
         In keyText keyTexts ->
         In (WriteFile (path_join (outFolder options) "undefined.key.pem")
                       keyText)
            (fsLog w').
Proof.
  intros Hcn. rewrite getLeavesCertificates_run.
  destruct (leavesLoop _ count prefix R (indices count) [] w)
    as [out w1] eqn:Hloop.
  cbn [fst snd]. intros [= -> <- <-].
  apply (leavesLoop_returned _ _ _ _ _ (defaultedOptions_attrs options R))
    in Hloop as (keyTexts & new & Hl & Hn & Hk & Hlog & _).
  cbn in Hl. subst new.
  assert (Hname : forall i,
            keyFileName (withCommonName (defaultedOptions options R)
                                        (leafName prefix count i)) None
              = "undefined.key.pem"%string).
  { intros i. apply keyFileName_withCommonName_undefined.
    now rewrite defaultedOptions_attrs. }
  exists keyTexts. rewrite indices_length in Hk.
  split; [exact Hk|]. split; [exact Hlog|]. split; [exact Hname|].
  intros keyText Hin. rewrite Hlog. apply in_or_app. right.
  destruct (defaultedOptions_frame options R) as (Ho & _ & _).
  rewrite <- Ho. apply batchFiles_undefined_keys; try assumption.
  now rewrite indices_length.
Qed.


(** *** Directories *)

Lemma createCert_adds_writes options issuer name w :
  exists added,
    fsLog (snd (createCert options issuer name w)) = fsLog w ++ added
    /\ Forall isWrite added.
Proof.
  rewrite createCert_fsLog.
  destruct (generateKeyPair (keyDraws w) (bitsOf options)) as [[pk sk]|].
  - eexists. split; [reflexivity|]. repeat constructor.
  - exists []. split; [now rewrite app_nil_r|constructor].
Qed.

Lemma leavesLoop_adds_writes options count prefix R todo :
  forall res w,
  exists added,
    fsLog (snd (leavesLoop options count prefix R todo res w))
      = fsLog w ++ added
    /\ Forall isWrite added.
Proof.
  induction todo as [|i rest IH]; intros res w.
  - exists []. split; [now rewrite app_nil_r|constructor].
  - cbn [leavesLoop]. unfold bind at 1.
    destruct (createCert_adds_writes
                (withCommonName options (leafName prefix count i))
                (Some R) None w) as (added1 & Hlog1 & Hall1).
    destruct (createCert _ (Some R) None w) as [[leaf|e] w1];
      cbn [snd] in Hlog1 |- *.
    + unfold bind at 1. cbn [fs_writeFile].
      match goal with
      | |- context [leavesLoop _ _ _ _ rest ?res' ?w2] =>
          destruct (IH res' w2) as (added2 & Hlog2 & Hall2)
      end.
      eexists. split.
      * rewrite Hlog2. cbn [fsLog]. rewrite Hlog1, <- !app_assoc. reflexivity.
      * apply Forall_app. split; [exact Hall1|].
        apply Forall_app. split; [repeat constructor|exact Hall2].
    + now exists added1.
Qed.

(** X10. [generateRoot] and [verify] make the output directory before
    anything else and then only write files; [getLeavesCertificates]
    never makes a directory: whatever its outcome, it has only written
    files. *)
Theorem who_makes_the_directory (options : CertificatesOptions) (count : Z)
    (prefix code : string) (R : Cert) (w : World) :
  (exists added,
     fsLog (snd (getLeavesCertificates options count prefix R w))
       = fsLog w ++ added
     /\ Forall isWrite added)
  /\ (exists added,
        fsLog (snd (generateRoot options w))
          = fsLog w ++ Mkdir (outFolder options) :: added
        /\ Forall isWrite added)
  /\ (exists added,
        fsLog (snd (verify options code R w))
          = fsLog w ++ Mkdir (outFolder options) :: added
        /\ Forall isWrite added).
Proof.
  split; [|split].
  - rewrite getLeavesCertificates_run. cbn [snd].
    apply leavesLoop_adds_writes.
  - rewrite generateRoot_run.
    match goal with
    | |- context [createCert ?o ?i ?n ?w0] =>
        destruct (createCert_adds_writes o i n w0) as (added & Hlog & Hall);
        destruct (createCert o i n w0) as [[c|e] w1]
    end; cbn [snd fsLog] in Hlog |- *; rewrite Hlog, <- !app_assoc; cbn [app].
    + eexists. split; [reflexivity|].
      apply Forall_app. split; [exact Hall|repeat constructor].
    + now exists added.
  - rewrite verify_run.
    match goal with
    | |- context [createCert ?o ?i ?n ?w0] =>
        destruct (createCert_adds_writes o i n w0) as (added & Hlog & Hall);
        destruct (createCert o i n w0) as [[c|e] w1]
    end; cbn [snd fsLog] in Hlog |- *; rewrite Hlog, <- !app_assoc; cbn [app].
    + eexists. split; [reflexivity|].
      apply Forall_app. split; [exact Hall|repeat constructor].
    + now exists added.
Qed.

(** *** The substitution of the common name *)

(** The test of the program picks the entries that forge names
    commonName. *)
Lemma is_commonName_nameInCertificate a :
  consistentlyNamed a ->
  is_commonName a
    = option_string_eqb (nameInCertificate a) (Some "commonName"%string).
Proof.
  intros Hc. unfold nameInCertificate.
  change (option_string_eqb (field_name (fillMissingField a))
                            (Some "commonName"%string))
    with (name_is_commonName (fillMissingField a)).
  rewrite name_is_commonName_filled.
  unfold is_commonName, shortNamedCN, name_is_commonName.
  destruct (field_name a) as [n|] eqn:Hn; [|reflexivity].
  rewrite orb_false_r.
  destruct (field_shortName a) as [s|] eqn:Hs; [|now rewrite orb_false_r].
  specialize (Hc n s Hn Hs).
  cbn [option_string_eqb].
  destruct (s =? "CN")%string eqn:Hcn; [|now rewrite orb_false_r].
  apply String.eqb_eq in Hcn. subst s. cbn in Hc. injection Hc as <-.
  reflexivity.
Qed.

(** X11. What the substitution does to the subject that forge makes of
    the list.  For entries whose name and short name agree, the
    certificate names the same attributes in the same order as it would
    for the list itself, whether an entry was given by name or by short
    name; the value is the new one exactly at the entries the
    certificate names commonName, and every other entry is the entry of
    the list. *)
Theorem substitution_of_the_common_name (v : string)
    (l : list CertificateField) :
  (forall a, In a l -> consistentlyNamed a) ->
  map nameInCertificate (map (substituteCommonName v) l)
    = map nameInCertificate l
  /\ map field_value (map (substituteCommonName v) l)
     = map (fun a =>
              if option_string_eqb (nameInCertificate a)
                                   (Some "commonName"%string)
              then v else field_value a) l
  /\ (forall k a,
        nth_error l k = Some a ->
        nameInCertificate a <> Some "commonName"%string ->
        nth_error (map (substituteCommonName v) l) k = Some a).
Proof.
  intros Hall. split; [|split].
  - rewrite map_map. apply map_ext_in. intros a Hin.
    pose proof (is_commonName_nameInCertificate a (Hall a Hin)) as Hcn.
    unfold substituteCommonName. rewrite Hcn.
    destruct (option_string_eqb (nameInCertificate a) _) eqn:Hb;
      [|reflexivity].
    destruct (nameInCertificate a) as [n|]; [|discriminate].
    cbn in Hb. apply String.eqb_eq in Hb. now subst n.
  - rewrite map_map. apply map_ext_in. intros a Hin.
    pose proof (is_commonName_nameInCertificate a (Hall a Hin)) as Hcn.
    unfold substituteCommonName. rewrite Hcn.
    now destruct (option_string_eqb (nameInCertificate a) _).
  - intros k a Hk Hne.
    assert (Hin : In a l) by (eapply nth_error_In; eassumption).
    pose proof (is_commonName_nameInCertificate a (Hall a Hin)) as Hcn.
    rewrite nth_error_map, Hk. cbn [option_map].
    unfold substituteCommonName. rewrite Hcn.
    destruct (option_string_eqb (nameInCertificate a) _) eqn:Hb;
      [|reflexivity].
    exfalso. apply Hne.
    destruct (nameInCertificate a) as [n|]; [|discriminate].
    cbn in Hb. apply String.eqb_eq in Hb. now subst n.
Qed.

(** *** From the root to its leaves *)

Lemma generateRoot_returned options w R w1 :
  generateRoot options w = (Returned R, w1) ->
  exists pk sk parsed,
    generateKeyPair (keyDraws w) (bitsOf options) = Some (pk, sk)
    /\ privateKeyFromPem (keyTowrite (keysOf options pk sk)) = Some parsed
    /\ publicKey R = Some pk
    /\ privateKey R = Some parsed
    /\ keyDraws w1 = S (keyDraws w).
Proof.
  rewrite generateRoot_run, createCert_root_run. cbn [keyDraws].
  destruct (generateKeyPair (keyDraws w) (bitsOf options)) as [[pk sk]|];
    [|discriminate].
  cbv zeta.
  destruct (privateKeyFromPem (keyTowrite (keysOf options pk sk)))
    as [parsed|] eqn:Hp; [|discriminate].
  intros [= <- <-]. now exists pk, sk, parsed.
Qed.

(** X12. The certificate [generateRoot] returns can sign.  With a PEM
    codec that reads back what it writes and a generator whose pairs sign
    and verify, a verification, and a batch of leaves, issued against that
    certificate right after it is made resolve whenever their own key
    pairs are generated and their options set no passphrase. *)
Theorem generated_root_can_issue (options options2 : CertificatesOptions)
    (w : World) (R : Cert) (w1 : World) :
  pem_roundtrip F ->
  generated_keys_verify F ->
  truthy (passphrase options) = false ->
  truthy (passphrase options2) = false ->
  generateRoot options w = (Returned R, w1) ->
  (forall code,
     generateKeyPair (S (keyDraws w)) (bitsOf options2) <> None ->
     exists validated options' w2,
       verify options2 code R w1 = (Returned validated, options', w2)
       /\ isLeafOf R validated)
  /\ (forall count prefix,
        (forall j, (j < Z.to_nat count)%nat ->
           generateKeyPair (S (keyDraws w) + j) (bitsOf options2) <> None) ->
        exists leaves options' w2,
          getLeavesCertificates options2 count prefix R w1
            = (Returned leaves, options', w2)
          /\ Forall (isLeafOf R) leaves).
Proof.
  intros Hpem Hlaw Hpass Hpass2 Hroot.
  destruct (generateRoot_returned _ _ _ _ Hroot)
    as (pk & sk & parsed & Hg & Hp & Hpk & Hsk & Hk).
  rewrite keyTowrite_plain, Hpem in Hp by assumption.
  injection Hp as <-.
  assert (Hv : forall d, key_verify pk d (key_sign sk d) = Some true).
  { intros d. exact (Hlaw _ _ _ _ d Hg). }
  split.
  - intros code Hg2.
    destruct (generateKeyPair (S (keyDraws w)) (bitsOf options2))
      as [[pk2 sk2]|] eqn:Hg2'; [|congruence].
    destruct (defaultedOptions_frame options2 R) as (_ & Hp2 & Hb2).
    rewrite verify_run.
    match goal with
    | |- context [createCert ?o (Some R) ?n ?w0] =>
        assert (Hc : createCert o (Some R) n w0
                     = (Returned
                          (signedBy
                             (setIssuer (subject R)
                                        (outcertOf o (Some R) pk2 sk2 w0))
                             sk sha256),
                        afterKeyFile o n (keysOf o pk2 sk2) 2 1 w0))
    end.
    { apply (createCert_leaf_succeeds _ R _ _ pk2 sk2 sk pk);
        try assumption.
      - cbn [passphrase withCommonName]. now rewrite Hp2.
      - cbn [keyDraws].
        change (bitsOf (withCommonName (defaultedOptions options2 R) code))
          with (bitsOf (defaultedOptions options2 R)).
        now rewrite Hb2, Hk. }
    rewrite Hc. do 3 eexists. split; [reflexivity|].
    exact (createCert_leaf_returned _ _ _ _ _ _ Hc).
  - intros count prefix Hg2.
    destruct (defaultedOptions_frame options2 R) as (_ & Hp2 & Hb2).
    destruct (leavesLoop_succeeds (defaultedOptions options2 R) count prefix R
                sk pk (indices count) [] w1) as (leaves & w2 & Hloop);
      try assumption.
    { now rewrite Hp2. }
    { intros j Hj. rewrite Hb2, Hk. apply Hg2. now rewrite <- indices_length. }
    rewrite getLeavesCertificates_run, Hloop. cbn [fst snd].
    do 3 eexists. split; [reflexivity|].
    apply (leavesLoop_returned _ _ _ _ _ (defaultedOptions_attrs options2 R))
      in Hloop as (keyTexts & new & Hl & _ & _ & _ & Hall).
    cbn in Hl. subst new.
    clear - Hall. induction Hall as [|i leaf todo leaves' [_ Hleaf] _ IH];
      constructor; assumption.
Qed.

End MoreRuns.

(** ** Loading keys back, and the command line *)

Section MoreLoading.
Context {F : Forge} {N : Node} {P : ForgeParser F} {NP : NodePath}.
Local Open Scope list_scope.

Lemma diskAfter_last_write disk log path data :
  diskAfter disk (log ++ [WriteFile path data]) path = Some data.
Proof.
  unfold diskAfter. rewrite fold_left_app. cbn.
  now rewrite String.eqb_refl.
Qed.

(** X13. The key file [createCert] leaves behind, loaded with
    [getPrivateKeyFromPem]: without a passphrase the generated private key
    comes back; with one the load fails, since the loader has no way to
    decrypt: the program cannot read a key it has stored encrypted. *)
Theorem stored_key_loads_back (options : CertificatesOptions)
    (issuer : option Cert) (name : option string) (w : World) (disk : Disk)
    (pk : PublicKey) (sk : PrivateKey) :
  generateKeyPair (keyDraws w) (bitsOf options) = Some (pk, sk) ->
  let keyPath := path_join (outFolder options) (keyFileName options name) in
  let after := diskAfter disk (fsLog (snd (createCert options issuer name w))) in
  (pem_roundtrip F -> truthy (passphrase options) = false ->
   getPrivateKeyFromPem after keyPath = Read sk)
  /\ (encrypted_pem_rejected F ->
      forall pass, passphrase options = Some pass -> pass <> ""%string ->
      getPrivateKeyFromPem after keyPath
        = ReadFailed (PemException "Could not convert private key from PEM")).
Proof.
  intros Hg keyPath after. subst keyPath after.
  rewrite createCert_fsLog, Hg. unfold getPrivateKeyFromPem, fs_readFile.
  rewrite diskAfter_last_write. split.
  - intros Hpem Hpass. now rewrite keyTowrite_plain, Hpem.
  - intros Hlaw pass Hpass Hne.
    now rewrite (keyTowrite_encrypted _ _ _ pass), Hlaw.
Qed.

(** *** [main] *)

Lemma cliOptions_commonName answers :
  commonNameOf (attrs (cliOptions answers)) = Some (ans_commonName answers).
Proof. reflexivity. Qed.

Lemma certificateAttrs_has_commonName answers :
  existsb is_commonName (certificateAttrs answers) = true.
Proof. reflexivity. Qed.

Lemma passphraseAnswer_truthy answers :
  truthy (passphraseAnswer answers) = truthy (Some (ans_passphrase answers)).
Proof.
  unfold passphraseAnswer.
  destruct (truthy (Some (ans_passphrase answers))) eqn:H; [exact H|reflexivity].
Qed.

(** The run of [generateRoot] from the command line when no passphrase
    is typed. *)
Lemma cli_generateRoot answers w pk sk :
  pem_roundtrip F ->
  ans_passphrase answers = ""%string ->
  generateKeyPair (keyDraws w) (ans_keyBits answers) = Some (pk, sk) ->
  exists R w1,
    generateRoot (cliOptions answers) w = (Returned R, w1)
    /\ subject R = certificateAttrs answers
    /\ publicKey R = Some pk
    /\ privateKey R = Some sk
    /\ keyDraws w1 = S (keyDraws w)
    /\ fsLog w1 =
         fsLog w ++
         [Mkdir (chosenFolder answers);
          WriteFile (path_join (chosenFolder answers)
                       (ans_commonName answers ++ ".key.pem"))
                    (privateKeyToPem sk);
          WriteFile (path_join (chosenFolder answers)
                       (ans_commonName answers ++ ".cert.pem"))
                    (certificateToPem R)].
Proof.
  intros Hpem Hpass Hg.
  assert (Hfalsy : truthy (passphrase (cliOptions answers)) = false).
  { cbn [passphrase cliOptions]. rewrite passphraseAnswer_truthy, Hpass.
    reflexivity. }
  rewrite generateRoot_run, createCert_root_run. cbn [keyDraws].
  change (bitsOf (cliOptions answers)) with (ans_keyBits answers).
  rewrite Hg. cbv zeta. rewrite keyTowrite_plain, Hpem by assumption.
  do 2 eexists. split; [reflexivity|].
  split; [reflexivity|]. split; [reflexivity|]. split; [reflexivity|].
  split; [reflexivity|].
  cbn [fsLog afterKeyFile]. rewrite keyTowrite_plain by assumption.
  rewrite <- !app_assoc. reflexivity.
Qed.

(** A verification from the command line, against a root whose attached
    key matches its public key. *)
Lemma cli_verify folder code (R : Cert) w pk2 sk2 skR pkR :
  pem_roundtrip F ->
  generateKeyPair (keyDraws w) 4096 = Some (pk2, sk2) ->
  privateKey R = Some skR ->
  publicKey R = Some pkR ->
  (forall d, key_verify pkR d (key_sign skR d) = Some true) ->
  exists validated options' w2,
    verify (verifyOptions folder) code R w = (Returned validated, options', w2)
    /\ isLeafOf R validated
    /\ subject validated = map (substituteCommonName code) (subject R)
    /\ fsLog w2 =
         fsLog w ++
         [Mkdir folder;
          WriteFile (path_join folder "verification.key.pem")
                    (privateKeyToPem sk2);
          WriteFile (path_join folder "verified.pem")
                    (certificateToPem validated ++ certificateToPem R)].
Proof.
  intros Hpem Hg HskR HpkR Hv.
  rewrite verify_run.
  match goal with
  | |- context [createCert ?o (Some R) ?n ?w0] =>
      assert (Hc : createCert o (Some R) n w0
                   = (Returned
                        (signedBy
                           (setIssuer (subject R)
                                      (outcertOf o (Some R) pk2 sk2 w0))
                           skR sha256),
                      afterKeyFile o n (keysOf o pk2 sk2) 2 1 w0))
        by (now apply (createCert_leaf_succeeds _ R _ _ pk2 sk2 skR pkR))
  end.
  rewrite Hc. do 3 eexists. split; [reflexivity|].
  split; [exact (createCert_leaf_returned _ _ _ _ _ _ Hc)|].
  split; [reflexivity|].
  cbn [fsLog afterKeyFile]. rewrite <- !app_assoc. reflexivity.
Qed.

(** X14. A passphrase typed at the command line stops the program: the
    directory is made, the encrypted key is written under the common
    name, and [main] rejects with the error of reading that key back,
    printed once by [generateRoot]; no certificate is written and no
    verification code is asked for. *)
Theorem cli_passphrase_stops_the_program (verificationCode : option string)
    (answers : Answers) (disk : Disk) (w : World) (pk : PublicKey)
    (sk : PrivateKey) :
  encrypted_pem_rejected F ->
  truthy verificationCode = false ->
  ans_passphrase answers <> ""%string ->
  generateKeyPair (keyDraws w) (ans_keyBits answers) = Some (pk, sk) ->
  exists w',
    main verificationCode answers disk w
      = (Rejected (FromIssuance
                     (ForgeError "Could not convert private key from PEM")),
         [Welcome; Logged (ForgeError "Could not convert private key from PEM")],
         w')
    /\ fsLog w' =
         fsLog w ++
         [Mkdir (chosenFolder answers);
          WriteFile (path_join (chosenFolder answers)
                       (ans_commonName answers ++ ".key.pem"))
                    (encryptRsaPrivateKey sk (ans_passphrase answers))].
Proof.
  intros Hlaw Hcode Hne Hg. unfold main. rewrite Hcode.
  assert (Hpass : passphrase (cliOptions answers)
                  = Some (ans_passphrase answers)).
  { cbn [passphrase cliOptions]. unfold passphraseAnswer. cbn [truthy].
    apply String.eqb_neq in Hne. now rewrite Hne. }
  rewrite generateRoot_run, createCert_root_run. cbn [keyDraws].
  change (bitsOf (cliOptions answers)) with (ans_keyBits answers).
  rewrite Hg. cbv zeta.
  rewrite (keyTowrite_encrypted _ _ _ _ Hpass Hne), Hlaw.
  eexists. split; [reflexivity|].
  cbn [fsLog afterKeyFile].
  rewrite (keyTowrite_encrypted _ _ _ _ Hpass Hne), <- !app_assoc.
  reflexivity.
Qed.

(** X15. The whole run of the command line without a passphrase and with
    a verification code typed in: it exits with 0 after six calls on the
    file system, the root's key and certificate under the common name
    typed, then the verification key and chain.  The verification
    certificate is a leaf of the root, has the code as its common name,
    and its key pair is generated with 4096 bits whatever key length was
    chosen for the root. *)
Theorem cli_root_then_verification (verificationCode : option string)
    (answers : Answers) (disk : Disk) (w : World) (pk : PublicKey)
    (sk : PrivateKey) (pk2 : PublicKey) (sk2 : PrivateKey) :
  pem_roundtrip F ->
  generated_keys_verify F ->
  truthy verificationCode = false ->
  ans_passphrase answers = ""%string ->
  ans_verification answers <> ""%string ->
  generateKeyPair (keyDraws w) (ans_keyBits answers) = Some (pk, sk) ->
  generateKeyPair (S (keyDraws w)) 4096 = Some (pk2, sk2) ->
  exists R validated w',
    main verificationCode answers disk w
      = (Exited 0,
         [Welcome; RootGenerated (path_resolve (chosenFolder answers));
          VerificationCreated (chosenFolder answers)],
         w')
    /\ isLeafOf R validated
    /\ commonNameOf (Some (subject validated))
       = Some (ans_verification answers)
    /\ publicKey validated = Some pk2
    /\ fsLog w' =
         fsLog w ++
         [Mkdir (chosenFolder answers);
          WriteFile (path_join (chosenFolder answers)
                       (ans_commonName answers ++ ".key.pem"))
                    (privateKeyToPem sk);
          WriteFile (path_join (chosenFolder answers)
                       (ans_commonName answers ++ ".cert.pem"))
                    (certificateToPem R);
          Mkdir (chosenFolder answers);
          WriteFile (path_join (chosenFolder answers) "verification.key.pem")
                    (privateKeyToPem sk2);
          WriteFile (path_join (chosenFolder answers) "verified.pem")
                    (certificateToPem validated ++ certificateToPem R)].
Proof.
  intros Hpem Hlaw Hcode Hpass Hne Hg Hg2.
  destruct (cli_generateRoot answers w pk sk Hpem Hpass Hg)
    as (R & w1 & Hroot & Hsubject & Hpk & Hsk & Hk & Hlog1).
  rewrite <- Hk in Hg2.
  destruct (cli_verify (chosenFolder answers) (ans_verification answers) R w1
              pk2 sk2 sk pk Hpem Hg2 Hsk Hpk)
    as (validated & options' & w2 & Hverify & Hleaf & Hsub & Hlog2).
  { intros d. exact (Hlaw _ _ _ _ d Hg). }
  exists R, validated, w2. unfold main. rewrite Hcode, Hroot.
  unfold finishMain. cbn [truthy].
  apply String.eqb_neq in Hne. rewrite Hne. cbn [negb]. rewrite Hverify.
  split; [reflexivity|]. split; [exact Hleaf|]. split; [|split].
  - rewrite Hsub, Hsubject, commonNameOf_substituted.
    now rewrite certificateAttrs_has_commonName.
  - rewrite verify_run in Hverify.
    destruct (createCert _ (Some R) (Some "verification"%string) _)
      as [[v|e] w3] eqn:Hc; [|discriminate].
    injection Hverify as <- _ _.
    destruct (createCert_leaf_returned_draws _ _ _ _ _ _ Hc)
      as ((pk' & sk' & Hg' & Hpk' & _) & _).
    cbn [keyDraws] in Hg'.
    change (bitsOf _) with 4096 in Hg'. rewrite Hg2 in Hg'.
    injection Hg' as <- _. exact Hpk'.
  - rewrite Hlog2, Hlog1, <- !app_assoc. reflexivity.
Qed.

(** X16. With no verification code typed, the command line exits with 0
    after writing the root's key and certificate only, and still prints
    that a verification certificate was created. *)
Theorem cli_without_code_still_reports_verification
    (verificationCode : option string) (answers : Answers) (disk : Disk)
    (w : World) (pk : PublicKey) (sk : PrivateKey) :
  pem_roundtrip F ->
  truthy verificationCode = false ->
  ans_passphrase answers = ""%string ->
  ans_verification answers = ""%string ->
  generateKeyPair (keyDraws w) (ans_keyBits answers) = Some (pk, sk) ->
  exists R w',
    main verificationCode answers disk w
      = (Exited 0,
         [Welcome; RootGenerated (path_resolve (chosenFolder answers));
          VerificationCreated (chosenFolder answers)],
         w')
    /\ fsLog w' =
         fsLog w ++
         [Mkdir (chosenFolder answers);
          WriteFile (path_join (chosenFolder answers)
                       (ans_commonName answers ++ ".key.pem"))
                    (privateKeyToPem sk);
          WriteFile (path_join (chosenFolder answers)
                       (ans_commonName answers ++ ".cert.pem"))
                    (certificateToPem R)].
Proof.
  intros Hpem Hcode Hpass Hnone Hg.
  destruct (cli_generateRoot answers w pk sk Hpem Hpass Hg)
    as (R & w1 & Hroot & _ & _ & _ & _ & Hlog1).
  exists R, w1. unfold main. rewrite Hcode, Hroot.
  unfold finishMain. rewrite Hnone. cbn. now split.
Qed.

(** X17. Started with a verification code, the command line loads the
    certificate first and the key second: when either file is missing or
    is not a text forge accepts, [main] rejects with the error of the
    load, having printed the welcome line only and touched nothing. *)
Theorem cli_code_load_failure (code : string) (answers : Answers)
    (disk : Disk) (w : World) :
  code <> ""%string ->
  let now := diskAfter disk (fsLog w) in
  (forall e,
     getCertificateFromPem now (ans_certFile answers) = ReadFailed e ->
     main (Some code) answers disk w = (Rejected (FromLoading e), [Welcome], w))
  /\ (forall c e,
        getCertificateFromPem now (ans_certFile answers) = Read c ->
        getPrivateKeyFromPem now (ans_privKey answers) = ReadFailed e ->
        main (Some code) answers disk w
          = (Rejected (FromLoading e), [Welcome], w))
  /\ (now (ans_certFile answers) = None ->
      main (Some code) answers disk w
        = (Rejected (FromLoading (ENOENT (ans_certFile answers))), [Welcome], w)).
Proof.
  intros Hne now.
  assert (Hcode : truthy (Some code) = true).
  { cbn. apply String.eqb_neq in Hne. now rewrite Hne. }
  split; [|split].
  - intros e He. unfold main. rewrite Hcode. fold now. now rewrite He.
  - intros c e Hc He. unfold main. rewrite Hcode. fold now.
    now rewrite Hc, He.
  - intros Hmissing. unfold main. rewrite Hcode. fold now.
    unfold getCertificateFromPem, fs_readFile. now rewrite Hmissing.
Qed.

(** X18. Started with a verification code and a certificate and key that
    load and match, the command line generates no root: it makes the
    directory, writes the verification key and the chain, and exits with
    0; the chain is signed with the key loaded from the key file. *)
Theorem cli_code_verifies (code : string) (answers : Answers) (disk : Disk)
    (w : World) (c : Cert) (k : PrivateKey) (pkR : PublicKey)
    (pk2 : PublicKey) (sk2 : PrivateKey) :
  pem_roundtrip F ->
  code <> ""%string ->
  getCertificateFromPem (diskAfter disk (fsLog w)) (ans_certFile answers)
    = Read c ->
  getPrivateKeyFromPem (diskAfter disk (fsLog w)) (ans_privKey answers)
    = Read k ->
  publicKey c = Some pkR ->
  (forall d, key_verify pkR d (key_sign k d) = Some true) ->
  generateKeyPair (keyDraws w) 4096 = Some (pk2, sk2) ->
  exists validated w',
    main (Some code) answers disk w
      = (Exited 0, [Welcome; VerificationCreated (chosenFolder answers)], w')
    /\ isLeafOf (assign_privateKey k c) validated
    /\ subject validated = map (substituteCommonName code) (subject c)
    /\ keyDraws w' = S (keyDraws w)
    /\ fsLog w' =
         fsLog w ++
         [Mkdir (chosenFolder answers);
          WriteFile (path_join (chosenFolder answers) "verification.key.pem")
                    (privateKeyToPem sk2);
          WriteFile (path_join (chosenFolder answers) "verified.pem")
                    (certificateToPem validated
                     ++ certificateToPem (assign_privateKey k c))].
Proof.
  intros Hpem Hne Hc Hk Hpk Hv Hg.
  assert (Hcode : truthy (Some code) = true).
  { cbn. apply String.eqb_neq in Hne. now rewrite Hne. }
  destruct (cli_verify (chosenFolder answers) code (assign_privateKey k c) w
              pk2 sk2 k pkR Hpem Hg eq_refl Hpk Hv)
    as (validated & options' & w2 & Hverify & Hleaf & Hsub & Hlog).
  exists validated, w2. unfold main. rewrite Hcode, Hc, Hk.
  unfold finishMain. rewrite Hcode, Hverify.
  split; [reflexivity|]. split; [exact Hleaf|]. split; [exact Hsub|].
  split; [|exact Hlog].
  rewrite verify_run in Hverify.
  destruct (createCert _ (Some (assign_privateKey k c))
                       (Some "verification"%string) _)
    as [[v|e] w3] eqn:Hcreate; [|discriminate].
  injection Hverify as _ _ <-.
  destruct (createCert_leaf_returned_world _ _ _ _ _ _ Hcreate)
    as (_ & _ & keyText & ->).
  reflexivity.
Qed.

End MoreLoading.

(** ** More concrete runs *)

Section MoreToyRuns.
Local Existing Instance Toy.forge.
Local Existing Instance Toy.june.
Local Existing Instance Lab.parser.
Local Existing Instance Lab.nodePath.
Local Open Scope list_scope.

Tactic Notation "evaluate" uconstr(run) :=
  let r := fresh "run" in
  let Hr := fresh "Hrun" in
  remember run as r eqn:Hr in *; vm_compute in Hr; subst r.

(** X1 on a run: a batch of three with a generator that fails at the
    third pair. *)
Lemma batch_failure_keeps_earlier_files_witness :
  exists e options' w',
    getLeavesCertificates (F := Lab.forgeUpTo 2) (Toy.options None None) 3
                          "dev" Toy.root Toy.start
      = (Thrown e, options', w')
    /\ exists done i rest keyTexts leaves tail,
         indices 3 = done ++ i :: rest
         /\ List.length leaves = List.length done
         /\ List.length keyTexts = List.length done
         /\ Forall2 (batchLeaf (F := Lab.forgeUpTo 2) 3 "dev" Toy.root
                       (effectiveAttrs (F := Lab.forgeUpTo 2)
                          (Toy.options None None) Toy.root))
                    done leaves
         /\ fsLog w' =
              fsLog Toy.start
              ++ batchFiles (F := Lab.forgeUpTo 2) options' 3 "dev" Toy.root
                            done keyTexts leaves
              ++ tail
         /\ ((e = KeyGenerationError /\ tail = [])
             \/ (e <> KeyGenerationError
                 /\ exists keyText,
                      tail =
                        [WriteFile
                           (path_join (outFolder (Toy.options None None))
                              (keyFileName
                                 (withCommonName options' (leafName "dev" 3 i))
                                 None))
                           keyText])).
Proof.
  pose proof (batch_failure_keeps_earlier_files (F := Lab.forgeUpTo 2)
                (Toy.options None None) 3 "dev" Toy.root Toy.start) as H.
  evaluate (getLeavesCertificates _ _ _ _ _).
  do 3 eexists. split; [reflexivity|]. exact (H _ _ _ eq_refl).
Defined.

(** X2 on a run: a key length the toy generator refuses. *)
Lemma key_generation_failure_writes_nothing_witness :
  fst (createCert Lab.zeroBits None None Toy.start) = Thrown KeyGenerationError
  /\ fsLog (snd (createCert Lab.zeroBits None None Toy.start)) = []
  /\ fsLog (snd (generateRoot Lab.zeroBits Toy.start)) = [Mkdir "out"].
Proof.
  destruct (key_generation_failure_writes_nothing Lab.zeroBits None None
              "CODE42" Toy.root Toy.start eq_refl)
    as ((Hthrown & Hlog) & (_ & Hroot) & _).
  split; [exact Hthrown|]. split; [exact Hlog | exact Hroot].
Defined.

(** X3 on a run: the toy root as loaded from its PEM file. *)
Lemma issuer_without_private_key_witness :
  exists message w',
    createCert (Toy.options (Some Toy.rootAttrs) None) (Some Lab.keylessRoot)
               None Toy.start
      = (Thrown (TypeError message), w')
    /\ fsLog w' =
         fsLog Toy.start ++
         [WriteFile "out/AzureIoTCentral.key.pem" "RSA PRIVATE KEY:key0"].
Proof.
  exact (issuer_without_private_key (Toy.options (Some Toy.rootAttrs) None)
           Lab.keylessRoot None Toy.start "key0"%string "key0"%string
           toy_pem_roundtrip eq_refl eq_refl eq_refl).
Defined.

(** X4 on a run: the passphrase left empty. *)
Lemma empty_passphrase_is_no_passphrase_witness :
  createCert (Toy.options (Some Toy.rootAttrs) (Some "")) None None Toy.start
    = createCert (Toy.options (Some Toy.rootAttrs) None) None None Toy.start.
Proof.
  exact (proj1 (empty_passphrase_is_no_passphrase
                  (Toy.options (Some Toy.rootAttrs) (Some "")) None None
                  Toy.start eq_refl)).
Defined.

(** X5 on a run: the root of the default attributes. *)
Lemma attached_key_is_the_stored_key_witness :
  exists c w',
    createCert (Toy.options (Some Toy.rootAttrs) None) None None Toy.start
      = (Returned c, w')
    /\ exists keyText,
         fsLog w' =
           [WriteFile "out/AzureIoTCentral.key.pem" keyText]
         /\ privateKey c = privateKeyFromPem keyText.
Proof.
  pose proof (attached_key_is_the_stored_key
                (Toy.options (Some Toy.rootAttrs) None) None None Toy.start)
    as H.
  evaluate (createCert _ _ _ _).
  do 2 eexists. split; [reflexivity|].
  destruct (H _ _ eq_refl) as (pk & sk & keyText & _ & Hlog & _ & Hsk & _).
  exists keyText. split; [exact Hlog | exact Hsk].
Defined.

(** X6 on a run: the third of three leaves. *)
Lemma batch_leaf_has_its_own_key_witness :
  exists leaves options' w',
    getLeavesCertificates (Toy.options None None) 3 "dev" Toy.root Toy.start
      = (Returned leaves, options', w')
    /\ exists leaf,
         nth_error leaves 2 = Some leaf
         /\ publicKey leaf = Some "key2"%string.
Proof.
  pose proof (batch_leaf_has_its_own_key (Toy.options None None) 3 "dev"
                Toy.root Toy.start) as H.
  evaluate (getLeavesCertificates _ _ _ _ _).
  do 3 eexists. split; [reflexivity|].
  eexists. split; [reflexivity|].
  destruct (H _ _ _ 2%nat _ eq_refl eq_refl) as (pk & sk & Hg & Hpk & _).
  vm_compute in Hg. injection Hg as <- _. exact Hpk.
Defined.

(** X8 on a run: a negative count. *)
Lemma batch_of_nothing_witness :
  getLeavesCertificates (Toy.options None None) (-2) "dev" Toy.root Toy.start
    = (Returned [],
       assign_attrs (Toy.options None None) (subject Toy.root),
       Toy.start).
Proof.
  exact (batch_of_nothing (Toy.options None None) (-2) "dev" Toy.root
           Toy.start ltac:(lia)).
Defined.

(** X9 on a run: two leaves of a root without a common name. *)
Lemma batch_without_commonName_shares_key_file_witness :
  exists leaves options' w',
    getLeavesCertificates (Toy.options None None) 2 "dev" Toy.nameless
                          Toy.start
      = (Returned leaves, options', w')
    /\ exists keyTexts,
         List.length keyTexts = 2%nat
         /\ forall keyText,
              In keyText keyTexts ->
              In (WriteFile "out/undefined.key.pem" keyText) (fsLog w').
Proof.
  pose proof (batch_without_commonName_shares_key_file
                (Toy.options None None) 2 "dev" Toy.nameless Toy.start) as H.
  evaluate (getLeavesCertificates _ _ _ _ _).
  do 3 eexists. split; [reflexivity|].
  destruct (H _ _ _ eq_refl eq_refl) as (keyTexts & Hlen & _ & _ & Hin).
  exists keyTexts. split; [exact Hlen | exact Hin].
Defined.

(** X12 on a run: a root, then a verification against it. *)
Lemma generated_root_can_issue_witness :
  exists R w1,
    generateRoot (Toy.options (Some Toy.rootAttrs) None) Toy.start
      = (Returned R, w1)
    /\ exists validated options' w2,
         verify (Toy.options None None) "CODE42" R w1
           = (Returned validated, options', w2)
         /\ isLeafOf R validated.
Proof.
  pose proof (generated_root_can_issue
                (Toy.options (Some Toy.rootAttrs) None) (Toy.options None None)
                Toy.start) as H.
  evaluate (generateRoot _ _).
  do 2 eexists. split; [reflexivity|].
  destruct (H _ _ toy_pem_roundtrip toy_generated_keys_verify eq_refl eq_refl
              eq_refl) as [Hverify _].
  exact (Hverify "CODE42"%string ltac:(discriminate)).
Defined.

(** X13 on two runs: the key of a root, stored clear and stored
    encrypted. *)
Lemma stored_key_loads_back_witness :
  getPrivateKeyFromPem
    (diskAfter Lab.emptyDisk
       (fsLog (snd (createCert (Toy.options (Some Toy.rootAttrs) None)
                               None None Toy.start))))
    "out/AzureIoTCentral.key.pem"
    = Read "key0"%string
  /\ getPrivateKeyFromPem
       (diskAfter Lab.emptyDisk
          (fsLog (snd (createCert (Toy.options (Some Toy.rootAttrs)
                                               (Some "secret"))
                                  None None Toy.start))))
       "out/AzureIoTCentral.key.pem"
     = ReadFailed (PemException "Could not convert private key from PEM").
Proof.
  split.
  - exact (proj1 (stored_key_loads_back (F := Toy.forge)
                    (Toy.options (Some Toy.rootAttrs) None) None None
                    Toy.start Lab.emptyDisk "key0"%string "key0"%string
                    eq_refl)
                 toy_pem_roundtrip eq_refl).
  - exact (proj2 (stored_key_loads_back (F := Toy.forge)
                    (Toy.options (Some Toy.rootAttrs) (Some "secret")) None
                    None Toy.start Lab.emptyDisk "key0"%string "key0"%string
                    eq_refl)
                 toy_encrypted_pem_rejected "secret"%string eq_refl
                 ltac:(discriminate)).
Defined.

(** X14 on a run: the passphrase secret typed at the prompt. *)
Lemma cli_passphrase_stops_the_program_witness :
  exists w',
    main None (Lab.answers "secret" "CODE42") Lab.emptyDisk Toy.start
      = (Rejected (FromIssuance
                     (ForgeError "Could not convert private key from PEM")),
         [Welcome; Logged (ForgeError "Could not convert private key from PEM")],
         w')
    /\ fsLog w' =
         [Mkdir "work/out";
          WriteFile "work/out/AzureIoTCentral.key.pem"
                    "ENCRYPTED PRIVATE KEY:key0"].
Proof.
  exact (cli_passphrase_stops_the_program (F := Toy.forge) None (Lab.answers "secret" "CODE42")
           Lab.emptyDisk Toy.start "key0"%string "key0"%string
           toy_encrypted_pem_rejected eq_refl ltac:(discriminate) eq_refl).
Defined.

(** X15 on a run: the defaults, and the code CODE42. *)
Lemma cli_root_then_verification_witness :
  exists R validated w',
    main None (Lab.answers "" "CODE42") Lab.emptyDisk Toy.start
      = (Exited 0,
         [Welcome; RootGenerated "/home/user/work/out";
          VerificationCreated "work/out"],
         w')
    /\ commonNameOf (Some (subject validated)) = Some "CODE42"%string
    /\ fsLog w' =
         [Mkdir "work/out";
          WriteFile "work/out/AzureIoTCentral.key.pem" "RSA PRIVATE KEY:key0";
          WriteFile "work/out/AzureIoTCentral.cert.pem" (certificateToPem R);
          Mkdir "work/out";
          WriteFile "work/out/verification.key.pem" "RSA PRIVATE KEY:key1";
          WriteFile "work/out/verified.pem"
                    (certificateToPem validated ++ certificateToPem R)].
Proof.
  destruct (cli_root_then_verification (F := Toy.forge) None (Lab.answers "" "CODE42")
              Lab.emptyDisk Toy.start "key0"%string "key0"%string
              "key1"%string "key1"%string toy_pem_roundtrip
              toy_generated_keys_verify eq_refl eq_refl ltac:(discriminate)
              eq_refl eq_refl)
    as (R & validated & w' & Hmain & _ & Hcn & _ & Hlog).
  exists R, validated, w'.
  split; [exact Hmain|]. split; [exact Hcn | exact Hlog].
Defined.

(** X16 on a run: the defaults, and no code. *)
Lemma cli_without_code_still_reports_verification_witness :
  exists R w',
    main None (Lab.answers "" "") Lab.emptyDisk Toy.start
      = (Exited 0,
         [Welcome; RootGenerated "/home/user/work/out";
          VerificationCreated "work/out"],
         w')
    /\ fsLog w' =
         [Mkdir "work/out";
          WriteFile "work/out/AzureIoTCentral.key.pem" "RSA PRIVATE KEY:key0";
          WriteFile "work/out/AzureIoTCentral.cert.pem" (certificateToPem R)].
Proof.
  exact (cli_without_code_still_reports_verification (F := Toy.forge) None (Lab.answers "" "")
           Lab.emptyDisk Toy.start "key0"%string "key0"%string
           toy_pem_roundtrip eq_refl eq_refl eq_refl eq_refl).
Defined.

(** X17 on a run: a code, and a disk with nothing on it. *)
Lemma cli_code_load_failure_witness :
  main (Some "CODE42"%string) (Lab.answers "" "") Lab.emptyDisk Toy.start
    = (Rejected (FromLoading (ENOENT "ca/root.cert.pem")), [Welcome], Toy.start).
Proof.
  exact (proj2 (proj2 (cli_code_load_failure (F := Toy.forge) "CODE42" (Lab.answers "" "")
                         Lab.emptyDisk Toy.start ltac:(discriminate)))
               eq_refl).
Defined.

(** X18 on a run: a code, and the files of the toy root on the disk. *)
Lemma cli_code_verifies_witness :
  exists validated w',
    main (Some "CODE42"%string) (Lab.answers "" "") Lab.rootDisk Toy.start
      = (Exited 0, [Welcome; VerificationCreated "work/out"], w')
    /\ keyDraws w' = 1%nat
    /\ fsLog w' =
         [Mkdir "work/out";
          WriteFile "work/out/verification.key.pem" "RSA PRIVATE KEY:key0";
          WriteFile "work/out/verified.pem"
                    (certificateToPem validated
                     ++ certificateToPem
                          (assign_privateKey "root-key"%string Lab.keylessRoot))].
Proof.
  destruct (cli_code_verifies (F := Toy.forge) "CODE42" (Lab.answers "" "") Lab.rootDisk
              Toy.start Lab.keylessRoot "root-key"%string "root-key"%string
              "key0"%string "key0"%string toy_pem_roundtrip
              ltac:(discriminate) eq_refl eq_refl eq_refl toy_root_key_matches
              eq_refl)
    as (validated & w' & Hmain & _ & _ & Hk & Hlog).
  exists validated, w'.
  split; [exact Hmain|]. split; [exact Hk | exact Hlog].
Defined.

(** X11 on a list whose common name is given by the short name CN. *)
Lemma substitution_of_the_common_name_witness :
  map nameInCertificate
      (map (substituteCommonName "dev1")
           [Toy.short_attr "CN" "old"; Toy.attr "countryName" "US";
            Toy.short_attr "ST" "Washington"])
    = [Some "commonName"; Some "countryName"; Some "stateOrProvinceName"]%string
  /\ map field_value
         (map (substituteCommonName "dev1")
              [Toy.short_attr "CN" "old"; Toy.attr "countryName" "US";
               Toy.short_attr "ST" "Washington"])
     = ["dev1"; "US"; "Washington"]%string.
Proof.
  destruct (substitution_of_the_common_name "dev1"
              [Toy.short_attr "CN" "old"; Toy.attr "countryName" "US";
               Toy.short_attr "ST" "Washington"])
    as (Hnames & Hvalues & _).
  { intros a [<-|[<-|[<-|[]]]] n s Hn Hs; discriminate. }
  split; [rewrite Hnames | rewrite Hvalues]; reflexivity.
Defined.
End MoreToyRuns.
